(** * M5TimerCAM timer-photo firmware: capture, upload and power control

    A shallow embedding of [src/main.cpp].  The firmware is one
    cooperative control loop over global hardware singletons, so the
    embedding is a state monad over a [World] (clock, LED, camera frame
    pointer, the globals and function-local statics of the sketch, and
    the trace of hardware and socket calls made so far) reading an
    [Env] of oracles that answer every question the firmware asks its
    surroundings (pin level, WiFi status, free heap, camera, TLS
    socket).  [Serial] output is fire-and-forget logging and is left
    out. *)

From Stdlib Require Import ZArith List String Ascii Bool Lia DecimalString.
Import ListNotations.
Local Open Scope Z_scope.

(** ** 32-bit unsigned arithmetic ([unsigned long] and [size_t] on the ESP32) *)

Module U32.

Definition modulus : Z := 2 ^ 32.

Definition wrap (z : Z) : Z := z mod modulus.

Definition add (a b : Z) : Z := wrap (a + b).

Definition sub (a b : Z) : Z := wrap (a - b).

Definition in_range (z : Z) : Prop := 0 <= z < modulus.

Lemma modulus_eq : modulus = 4294967296.
Proof. reflexivity. Qed.

Lemma wrap_small z : in_range z -> wrap z = z.
Proof. unfold in_range, wrap. intros H. apply Z.mod_small. exact H. Qed.

Lemma sub_small a b : 0 <= a - b < modulus -> sub a b = a - b.
Proof. intros H. unfold sub. apply wrap_small. exact H. Qed.

(** The difference of two wrapped clock readings is the true elapsed
    time as long as that is below 2^32 ms. *)
Lemma sub_wrap_wrap a b : sub (wrap a) (wrap b) = wrap (a - b).
Proof.
  unfold sub, wrap. rewrite <- Zminus_mod. reflexivity.
Qed.

End U32.

(** ** Arduino [String] operations used on the HTTP response *)

Module Str.

Local Open Scope string_scope.

(** [isspace] of the C library, as used by [String::trim]. *)
Definition isspace (c : ascii) : bool :=
  let n := nat_of_ascii c in
  (Nat.eqb n 32 || (Nat.leb 9 n && Nat.leb n 13))%bool.

Fixpoint ltrim (s : string) : string :=
  match s with
  | EmptyString => EmptyString
  | String c s' => if isspace c then ltrim s' else s
  end.

(** Drops trailing white space: the result of the recursive call is
    empty exactly when everything after [c] is white space. *)
Fixpoint rtrim (s : string) : string :=
  match s with
  | EmptyString => EmptyString
  | String c s' =>
      match rtrim s' with
      | EmptyString => if isspace c then EmptyString else String c EmptyString
      | t => String c t
      end
  end.

(** [String::trim] *)
Definition trim (s : string) : string := rtrim (ltrim s).

(** [String::startsWith] *)
Fixpoint startsWith (s p : string) {struct p} : bool :=
  match p, s with
  | EmptyString, _ => true
  | String _ _, EmptyString => false
  | String a p', String b s' => (Ascii.eqb a b && startsWith s' p')%bool
  end.

(** [String::indexOf(const String&)]: position of the first occurrence
    of [p] in [s], or -1. *)
Fixpoint indexOf_from (i : Z) (s p : string) : Z :=
  if startsWith s p then i
  else match s with
       | EmptyString => -1
       | String _ s' => indexOf_from (i + 1) s' p
       end.

Definition indexOf (s p : string) : Z := indexOf_from 0 s p.

(** [Stream::readStringUntil(terminator)] on a buffer that holds the
    whole response: the characters before the first terminator, which is
    consumed and dropped; everything when there is none. *)
Fixpoint readStringUntil (t : ascii) (buf : string) : string * string :=
  match buf with
  | EmptyString => (EmptyString, EmptyString)
  | String c rest =>
      if Ascii.eqb c t then (EmptyString, rest)
      else let '(line, rest') := readStringUntil t rest in (String c line, rest')
  end.

(** [p] occurs somewhere in [s]. *)
Definition contains (s p : string) : Prop :=
  exists pre post : string, s = pre ++ p ++ post.

End Str.

(** ** The surroundings of the firmware *)

(** [camera_fb_t] of the camera driver: address and length of the JPEG
    buffer.  Address 0 is [nullptr]; the length is a [size_t], hence
    never negative. *)
Record camera_fb_t : Type := mk_fb { buf : Z; len : N }.

(** Everything the firmware observes from outside.  Each oracle is
    indexed by the number of observations made before it, so successive
    reads may differ arbitrarily.  Reads whose only use is a [Serial]
    message (the pin, heap, address and signal-strength reports, the
    five-minute status report of [loop]) are left out with the message. *)
Record Env : Type := mkEnv {
  button_high    : nat -> bool;              (* digitalRead(EXTERNAL_BUTTON_GPIO) == HIGH *)
  wifi_connected : nat -> bool;              (* WiFi.status() == WL_CONNECTED *)
  free_heap      : nat -> Z;                 (* ESP.getFreeHeap() *)
  camera_begin   : nat -> bool;              (* TimerCAM.Camera.begin() *)
  fb_get         : nat -> option camera_fb_t;(* esp_camera_fb_get() behind Camera.get() *)
  local_time     : nat -> option string;     (* getLocalTime + strftime "%Y%m%d_%H%M%S" *)
  tls_connect    : nat -> bool;              (* client.connect(host, 443) *)
  tls_write      : nat -> Z -> Z;            (* client.write(_, n) *)
  tls_reply      : nat -> string;            (* bytes found by client.available(); empty: none yet *)
  sleep_ms       : nat -> Z                  (* how long a light sleep lasts before a wake source fires *)
}.

(** Calls into hardware, drivers and the TLS client, in program order. *)
Inductive Event : Type :=
| EvLed (high : bool)                 (* digitalWrite(CAMERA_LED_GPIO, _) *)
| EvDelay (ms : Z)                    (* delay(ms) *)
| EvTakeAndUpload                     (* entry of takeAndUploadPhoto() *)
| EvCamBegin (ok : bool)
| EvCamConfig                         (* the five sensor settings of setup() *)
| EvCamGet (ok : bool)                (* TimerCAM.Camera.get() *)
| EvCamFree                           (* TimerCAM.Camera.free() *)
| EvCamDeinit
| EvWifiMode (station : bool)         (* WiFi.mode(WIFI_STA) / WiFi.mode(WIFI_OFF) *)
| EvWifiSetSleep (on : bool)
| EvWifiBegin
| EvWifiDisconnect
| EvConfigTime
| EvTlsConnect (ok : bool)
| EvTlsPrint (filename : string) (content_length : Z)   (* request line and headers *)
| EvTlsWrite (ptr n written : Z)
| EvTlsRecv (data : string)
| EvTlsStop
| EvTimerWakeup (us : Z)              (* esp_sleep_enable_timer_wakeup *)
| EvLightSleep                        (* esp_light_sleep_start *)
| EvExt0Wakeup                        (* esp_sleep_enable_ext0_wakeup(GPIO 4, 0) *)
| EvDeepSleep.                        (* esp_deep_sleep_start *)

Record World : Type := mkWorld {
  now : Z;                   (* milliseconds since boot, unwrapped *)
  reads : nat;               (* observations of [Env] made so far *)
  led : bool;                (* output level of CAMERA_LED_GPIO *)
  fb : option camera_fb_t;   (* TimerCAM.Camera.fb *)
  asleep : bool;             (* esp_deep_sleep_start() has been reached *)
  lastPhotoTime : Z;         (* global *)
  buttonPressTime : Z;       (* static local of loop() *)
  buttonPressed : bool;      (* static local of loop() *)
  lastSystemDebugTime : Z;   (* static local of loop() *)
  trace : list Event
}.

Definition set_now (v : Z) (w : World) : World :=
  mkWorld v (reads w) (led w) (fb w) (asleep w) (lastPhotoTime w)
          (buttonPressTime w) (buttonPressed w) (lastSystemDebugTime w) (trace w).
Definition set_reads (v : nat) (w : World) : World :=
  mkWorld (now w) v (led w) (fb w) (asleep w) (lastPhotoTime w)
          (buttonPressTime w) (buttonPressed w) (lastSystemDebugTime w) (trace w).
Definition set_led (v : bool) (w : World) : World :=
  mkWorld (now w) (reads w) v (fb w) (asleep w) (lastPhotoTime w)
          (buttonPressTime w) (buttonPressed w) (lastSystemDebugTime w) (trace w).
Definition set_fb (v : option camera_fb_t) (w : World) : World :=
  mkWorld (now w) (reads w) (led w) v (asleep w) (lastPhotoTime w)
          (buttonPressTime w) (buttonPressed w) (lastSystemDebugTime w) (trace w).
Definition set_asleep (v : bool) (w : World) : World :=
  mkWorld (now w) (reads w) (led w) (fb w) v (lastPhotoTime w)
          (buttonPressTime w) (buttonPressed w) (lastSystemDebugTime w) (trace w).
Definition set_lastPhotoTime (v : Z) (w : World) : World :=
  mkWorld (now w) (reads w) (led w) (fb w) (asleep w) v
          (buttonPressTime w) (buttonPressed w) (lastSystemDebugTime w) (trace w).
Definition set_buttonPressTime (v : Z) (w : World) : World :=
  mkWorld (now w) (reads w) (led w) (fb w) (asleep w) (lastPhotoTime w)
          v (buttonPressed w) (lastSystemDebugTime w) (trace w).
Definition set_buttonPressed (v : bool) (w : World) : World :=
  mkWorld (now w) (reads w) (led w) (fb w) (asleep w) (lastPhotoTime w)
          (buttonPressTime w) v (lastSystemDebugTime w) (trace w).
Definition set_lastSystemDebugTime (v : Z) (w : World) : World :=
  mkWorld (now w) (reads w) (led w) (fb w) (asleep w) (lastPhotoTime w)
          (buttonPressTime w) (buttonPressed w) v (trace w).
Definition set_trace (v : list Event) (w : World) : World :=
  mkWorld (now w) (reads w) (led w) (fb w) (asleep w) (lastPhotoTime w)
          (buttonPressTime w) (buttonPressed w) (lastSystemDebugTime w) v.

(** The state right after reset: every global and static is zero. *)
Definition boot : World :=
  mkWorld 0 0 false None false 0 0 false 0 [].

(** ** The monad

    A computation maps a world to its result and the next world, or to
    [None] when the run has no defined result: a loop exceeded the bound
    the model gives it, or a null frame pointer was dereferenced.  The
    totality lemmas below show that neither happens. *)

Definition M (A : Type) : Type := World -> option (A * World).

Definition ret {A} (a : A) : M A := fun w => Some (a, w).

Definition bind {A B} (m : M A) (k : A -> M B) : M B :=
  fun w => match m w with
           | Some (a, w1) => k a w1
           | None => None
           end.

Definition stuck {A} : M A := fun _ => None.

Declare Scope fw_scope.
Delimit Scope fw_scope with fw.
Notation "x <- m ;; k" := (bind m (fun x => k))
  (at level 61, m at next level, right associativity) : fw_scope.
Notation "m ;; k" := (bind m (fun _ => k))
  (at level 61, right associativity) : fw_scope.
Local Open Scope fw_scope.

Definition emit (ev : Event) : M unit :=
  fun w => Some (tt, set_trace (trace w ++ [ev]) w).

(** One observation of the surroundings. *)
Definition observe {A} (oracle : nat -> A) : M A :=
  fun w => Some (oracle (reads w), set_reads (S (reads w)) w).

(** [millis()]: the clock, wrapped to 32 bits. *)
Definition millis : M Z := fun w => Some (U32.wrap (now w), w).

(** [delay(ms)] is the only statement, besides light sleep, during
    which the model's clock advances. *)
Definition delay (ms : Z) : M unit :=
  fun w => Some (tt, set_trace (trace w ++ [EvDelay ms]) (set_now (now w + ms) w)).

Definition digitalWrite_led (high : bool) : M unit :=
  fun w => Some (tt, set_trace (trace w ++ [EvLed high]) (set_led high w)).

(** [digitalRead(CAMERA_LED_GPIO)] on the output pin reads back the level
    last written. *)
Definition digitalRead_led : M bool := fun w => Some (led w, w).

Fixpoint repeat_ (n : nat) (body : M unit) : M unit :=
  match n with
  | O => ret tt
  | S n' => body ;; repeat_ n' body
  end.

(** [for (i = 0; i < n; i++) { HIGH; delay(on); LOW; delay(off); }] *)
Definition blink (n : nat) (on off : Z) : M unit :=
  repeat_ n (digitalWrite_led true ;; delay on ;; digitalWrite_led false ;; delay off).

(** The events that a run from [w] to [w'] appended. *)
Definition emitted (w w' : World) : list Event :=
  skipn (List.length (trace w)) (trace w').

Definition gets {A} (field : World -> A) : M A := fun w => Some (field w, w).

Definition modify (f : World -> World) : M unit := fun w => Some (tt, f w).

(** A pure loop over a local buffer, run inside the monad. *)
Definition lift {A} (o : option A) : M A :=
  fun w => match o with Some a => Some (a, w) | None => None end.

(** ** The firmware *)

Section Firmware.

(** [PHOTO_INTERVAL_HOURS] comes from [config.h], which is not part of the
    repository ([config.example.h] sets it to 1). *)
Variable PHOTO_INTERVAL_HOURS : Z.

Variable env : Env.

Definition PHOTO_INTERVAL : Z := U32.wrap (PHOTO_INTERVAL_HOURS * 3600000).
Definition MAX_WIFI_RETRY : Z := 3.
Definition WIFI_RETRY_DELAY : Z := 5000.
Definition LIGHT_SLEEP_DURATION : Z := 30000000.

(** *** Camera driver interface ([TimerCAM.Camera]) *)

Definition is_some {A} (o : option A) : bool :=
  match o with Some _ => true | None => false end.

Definition Camera_get : M bool :=
  r <- observe (fb_get env) ;;
  modify (set_fb r) ;;
  emit (EvCamGet (is_some r)) ;;
  ret (is_some r).

Definition Camera_free : M unit :=
  emit EvCamFree ;; modify (set_fb None).

(** [TimerCAM.Camera.fb->...]: dereferencing a null frame pointer has no
    defined result. *)
Definition Camera_fb : M camera_fb_t :=
  fun w => match fb w with Some f => Some (f, w) | None => None end.

Definition WiFi_status : M bool := observe (wifi_connected env).

(** *** [takePhoto] *)

Definition takePhoto : M bool :=
  heap <- observe (free_heap env) ;;
  if heap <? 20000 then ret false
  else
    result <- Camera_get ;;
    if result then
      f <- Camera_fb ;;
      if Z.of_N (len f) =? 0 then Camera_free ;; ret false
      else if Z.of_N (len f) >? 500000 then Camera_free ;; ret false
      else if buf f =? 0 then Camera_free ;; ret false
      else ret result
    else ret result.

(** *** [connectToWiFi] *)

(** [while (WiFi.status() != WL_CONNECTED && millis() - startTime < 15000)
    delay(500);] *)
Fixpoint wifi_wait (fuel : nat) (startTime : Z) : M unit :=
  match fuel with
  | O => stuck
  | S fuel' =>
      up <- WiFi_status ;;
      if up then ret tt
      else
        t <- millis ;;
        if U32.sub t startTime <? 15000
        then delay 500 ;; wifi_wait fuel' startTime
        else ret tt
  end.

(** The body of [for (retry = 0; retry < MAX_WIFI_RETRY; retry++)], with
    [n] iterations left to run.  After a failed attempt the status is
    read once more, for the log ([Serial.println(WiFi.status())]). *)
Fixpoint wifi_attempts (n : nat) (retry : Z) : M bool :=
  match n with
  | O => ret false
  | S n' =>
      emit EvWifiBegin ;;
      startTime <- millis ;;
      wifi_wait 31 startTime ;;
      up <- WiFi_status ;;
      if up then ret true
      else
        _ <- WiFi_status ;;
        (if retry <? MAX_WIFI_RETRY - 1 then delay WIFI_RETRY_DELAY else ret tt) ;;
        wifi_attempts n' (retry + 1)
  end.

Definition connectToWiFi : M bool :=
  emit (EvWifiMode true) ;;
  emit (EvWifiSetSleep false) ;;
  wifi_attempts (Z.to_nat MAX_WIFI_RETRY) 0.

(** *** [getFormattedTimestamp] *)

(** [String(unsigned long)]: decimal digits. *)
Definition String_of_ulong (z : Z) : string :=
  DecimalString.NilZero.string_of_uint (N.to_uint (Z.to_N z)).

(** [getLocalTime(&timeinfo)] is one observation: the local time,
    formatted, or none.  The call may block for up to its timeout (5 s by
    default) before it gives up; like the time taken by every other
    library call, this is not charged to the clock of the model. *)
Definition getFormattedTimestamp : M string :=
  lt <- observe (local_time env) ;;
  match lt with
  | None => t <- millis ;; ret (String_of_ulong t)
  | Some stamp => ret stamp
  end.

(** *** [enterLightSleep] *)

(** [esp_light_sleep_start()] returns when the timer armed just before
    expires or an earlier wake source fires. *)
Definition esp_light_sleep_start : M unit :=
  d <- observe (sleep_ms env) ;;
  emit EvLightSleep ;;
  modify (fun w => set_now (now w + Z.max 0 (Z.min d (LIGHT_SLEEP_DURATION / 1000))) w).

Definition enterLightSleep : M unit :=
  emit (EvWifiSetSleep true) ;;
  emit (EvTimerWakeup LIGHT_SLEEP_DURATION) ;;
  esp_light_sleep_start ;;
  emit (EvWifiSetSleep false).

(** *** [handleShutdown] *)

(** [esp_deep_sleep_start()] does not return: the chip halts until the
    wake source restarts the program. *)
Definition handleShutdown : M unit :=
  blink 5 200 200 ;;
  emit EvWifiDisconnect ;;
  emit (EvWifiMode false) ;;
  emit EvCamDeinit ;;
  delay 1000 ;;
  emit EvExt0Wakeup ;;
  delay 500 ;;
  emit EvDeepSleep ;;
  modify (set_asleep true).

(** *** [uploadPhotoToSupabase] *)

(** The source returns a [bool]; the model keeps which [return]
    statement was taken.  Only [Uploaded] is [true]. *)
Inductive Outcome : Type :=
| WifiNotConnected    (* "WiFi not connected!" *)
| InvalidImage        (* "Invalid image data!" *)
| ConnectFailed       (* "Failed to connect after all retries!" *)
| WriteError          (* "Write error at byte ..." *)
| ResponseTimeout     (* "Response timeout!" *)
| Rejected            (* final [return success] with [success == false] *)
| Uploaded.           (* final [return success] with [success == true] *)

Definition succeeded (o : Outcome) : bool :=
  match o with Uploaded => true | _ => false end.

Definition client_connect : M bool :=
  ok <- observe (tls_connect env) ;;
  emit (EvTlsConnect ok) ;;
  ret ok.

Definition client_write (ptr n : Z) : M Z :=
  written <- observe (fun k => tls_write env k n) ;;
  emit (EvTlsWrite ptr n written) ;;
  ret written.

Definition client_stop : M unit := emit EvTlsStop.

Definition connectionRetries : Z := 3.

(** [for (i = 0; i < connectionRetries && !connected; i++)], with [n]
    iterations left; the result is [connected]. *)
Fixpoint connect_attempts (n : nat) (i : Z) : M bool :=
  match n with
  | O => ret false
  | S n' =>
      ok <- client_connect ;;
      if ok then ret true
      else
        (if i <? connectionRetries - 1 then delay 2000 else ret tt) ;;
        connect_attempts n' (i + 1)
  end.

Definition chunkSize : Z := 1024.

(** [while (totalSent < imageSize)]; [false] is the [return false] after a
    short write, [true] the normal loop exit. *)
Fixpoint send_chunks (fuel : nat) (imageData imageSize totalSent : Z) : M bool :=
  match fuel with
  | O => stuck
  | S fuel' =>
      if totalSent <? imageSize then
        let currentChunkSize := Z.min chunkSize (U32.sub imageSize totalSent) in
        bytesWritten <- client_write (imageData + totalSent) currentChunkSize ;;
        if negb (bytesWritten =? currentChunkSize) then
          client_stop ;; ret false
        else
          delay 1 ;;
          send_chunks fuel' imageData imageSize (U32.add totalSent bytesWritten)
      else ret true
  end.

(** [while (client.available() == 0)] with the 15 s limit; [None] is the
    [return false] of the timeout.  The response is taken to arrive in one
    piece. *)
Fixpoint await_response (fuel : nat) (timeout : Z) : M (option string) :=
  match fuel with
  | O => stuck
  | S fuel' =>
      data <- observe (tls_reply env) ;;
      match data with
      | EmptyString =>
          t <- millis ;;
          if U32.sub t timeout >? 15000 then client_stop ;; ret None
          else delay 10 ;; await_response fuel' timeout
      | _ => emit (EvTlsRecv data) ;; ret (Some data)
      end
  end.

Definition newline : ascii := Ascii.ascii_of_nat 10.

(** The status test applied to one trimmed line. *)
Definition status_update (line : string) (success : bool) : bool :=
  if Str.startsWith line "HTTP/1.1" then
    if ((Str.indexOf line "200" >? 0) || (Str.indexOf line "201" >? 0))%bool
    then true else success
  else success.

(** [while (client.available())] over the status line and headers; the
    result is [success] and what is left in the receive buffer. *)
Fixpoint read_headers (fuel : nat) (rx : string) (success : bool)
  : option (bool * string) :=
  match fuel with
  | O => None
  | S fuel' =>
      match rx with
      | EmptyString => Some (success, rx)
      | _ =>
          let '(raw, rest) := Str.readStringUntil newline rx in
          let line := Str.trim raw in
          let success' := status_update line success in
          if (String.length line =? 0)%nat then Some (success', rest)
          else read_headers fuel' rest success'
      end
  end.

(** [while (client.available())] over the error body, which is only
    printed. *)
Fixpoint read_body (fuel : nat) (rx : string) : option unit :=
  match fuel with
  | O => None
  | S fuel' =>
      match rx with
      | EmptyString => Some tt
      | _ =>
          let '(line, rest) := Str.readStringUntil newline rx in
          if (100 <? String.length line)%nat then Some tt
          else read_body fuel' rest
      end
  end.

Definition nonempty (s : string) : bool :=
  match s with EmptyString => false | _ => true end.

(** [client.setInsecure()], [client.setTimeout(30000)] and the host name
    cut out of [SUPABASE_URL] only configure the socket; the request line
    and headers are one [client.print], recorded with the file name and
    the declared [Content-Length]. *)
Definition uploadPhotoToSupabase (imageData imageSize : Z) (filename : string)
  : M Outcome :=
  up <- WiFi_status ;;
  if negb up then ret WifiNotConnected
  else if ((imageData =? 0) || (imageSize =? 0))%bool then ret InvalidImage
  else
    connected <- connect_attempts (Z.to_nat connectionRetries) 0 ;;
    if negb connected then ret ConnectFailed
    else
      emit (EvTlsPrint filename imageSize) ;;
      sent <- send_chunks (S (Z.to_nat (imageSize / chunkSize + 1)))
                          imageData imageSize 0 ;;
      if negb sent then ret WriteError
      else
        timeout <- millis ;;
        reply <- await_response 1502 timeout ;;
        match reply with
        | None => ret ResponseTimeout
        | Some rx =>
            r <- lift (read_headers (S (String.length rx)) rx false) ;;
            let '(success, rest) := r in
            (if (negb success && nonempty rest)%bool
             then lift (read_body (S (String.length rest)) rest)
             else ret tt) ;;
            client_stop ;;
            ret (if success then Uploaded else Rejected)
        end.

(** *** [takeAndUploadPhoto] *)

Definition takeAndUploadPhoto : M unit :=
  emit EvTakeAndUpload ;;
  digitalWrite_led true ;;
  ok <- takePhoto ;;
  if ok then
    up <- WiFi_status ;;
    online <- (if negb up then connectToWiFi else ret true) ;;
    if negb online then
      digitalWrite_led false ;;
      blink 3 100 100 ;;
      Camera_free
    else
      timestamp <- getFormattedTimestamp ;;
      let filename := ("photo_" ++ timestamp ++ ".jpg")%string in
      f <- Camera_fb ;;
      o <- uploadPhotoToSupabase (buf f) (Z.of_N (len f)) filename ;;
      (if succeeded o
       then digitalWrite_led false ;; blink 2 150 150
       else blink 5 100 100) ;;
      Camera_free
  else digitalWrite_led false.

(** *** [setup] *)

(** [while (!getLocalTime(&timeinfo) && timeoutCount < 10)], with [n]
    iterations left; the result is the final [timeoutCount].  Each poll
    is one observation; the time it blocks is not charged to the clock,
    only the [delay(1000)] that follows it is. *)
Fixpoint time_sync (n : nat) (timeoutCount : Z) : M Z :=
  lt <- observe (local_time env) ;;
  if is_some lt then ret timeoutCount
  else
    match n with
    | O => ret timeoutCount
    | S n' => delay 1000 ;; time_sync n' (timeoutCount + 1)
    end.

Definition setup : M unit :=
  digitalWrite_led true ;;
  began <- observe (camera_begin env) ;;
  emit (EvCamBegin began) ;;
  if negb began then
    repeat_ 10 (l <- digitalRead_led ;; digitalWrite_led (negb l) ;; delay 200)
  else
    emit EvCamConfig ;;
    online <- connectToWiFi ;;
    (if negb online then ret tt
     else
       emit EvConfigTime ;;
       timeoutCount <- time_sync 10 0 ;;
       if timeoutCount <? 10 then _ <- getFormattedTimestamp ;; ret tt
       else ret tt) ;;
    digitalWrite_led false ;;
    blink 3 300 300 ;;
    t <- millis ;;
    modify (set_lastPhotoTime t) ;;
    emit EvExt0Wakeup.

(** *** [loop] *)

(** The button block.  [false] is the [return] taken after
    [handleShutdown()]; [true] falls through to the timer block. *)
Definition loop_button : M bool :=
  high <- observe (button_high env) ;;
  pressed <- gets buttonPressed ;;
  if negb high then
    if negb pressed then
      modify (set_buttonPressed true) ;;
      t <- millis ;;
      modify (set_buttonPressTime t) ;;
      digitalWrite_led true ;;
      delay 100 ;;
      digitalWrite_led false ;;
      ret true
    else
      t <- millis ;;
      since <- gets buttonPressTime ;;
      if U32.sub t since >? 3000 then
        blink 3 200 200 ;;
        handleShutdown ;;
        ret false
      else ret true
  else
    (if pressed then
       t <- millis ;;
       since <- gets buttonPressTime ;;
       let pressDuration := U32.sub t since in
       if pressDuration <? 3000 then takeAndUploadPhoto else ret tt
     else ret tt) ;;
    modify (set_buttonPressed false) ;;
    ret true.

(** The timer block. *)
Definition loop_timer : M unit :=
  t <- millis ;;
  last <- gets lastPhotoTime ;;
  let timeSinceLastPhoto := U32.sub t last in
  if timeSinceLastPhoto >=? PHOTO_INTERVAL then
    takeAndUploadPhoto ;;
    t' <- millis ;;
    modify (set_lastPhotoTime t')
  else
    let timeToNextPhoto := U32.sub PHOTO_INTERVAL timeSinceLastPhoto in
    if timeToNextPhoto >? 60000 then enterLightSleep else ret tt.

(** The five-minute status block: only its timestamp is state. *)
Definition loop_debug : M unit :=
  t <- millis ;;
  last <- gets lastSystemDebugTime ;;
  if U32.sub t last >? 300000 then
    t' <- millis ;;
    modify (set_lastSystemDebugTime t')
  else ret tt.

Definition loop : M unit :=
  continue <- loop_button ;;
  if continue then
    loop_timer ;;
    loop_debug ;;
    delay 100
  else ret tt.

(** The Arduino core calls [loop()] again and again; a device in deep
    sleep runs nothing. *)
Fixpoint run_loop (ticks : nat) : M unit :=
  match ticks with
  | O => ret tt
  | S n =>
      halted <- gets asleep ;;
      if halted then ret tt else loop ;; run_loop n
  end.

End Firmware.

(** ** Reasoning about runs *)

(** [total m w Q]: run from [w], [m] returns, and its result and final
    world satisfy [Q]. *)
Definition total {A} (m : M A) (w : World) (Q : A -> World -> Prop) : Prop :=
  exists a w', m w = Some (a, w') /\ Q a w'.

Lemma total_ret {A} (a : A) w (Q : A -> World -> Prop) :
  Q a w -> total (ret a) w Q.
Proof. intros H. exists a, w. split; [reflexivity | exact H]. Qed.

Lemma total_bind {A B} (m : M A) (k : A -> M B) w (Q : B -> World -> Prop) :
  total m w (fun a w1 => total (k a) w1 Q) -> total (bind m k) w Q.
Proof.
  intros (a & w1 & Hm & b & w2 & Hk & HQ).
  exists b, w2. split; [| exact HQ].
  unfold bind. rewrite Hm. exact Hk.
Qed.

Lemma total_weaken {A} (m : M A) w (Q Q' : A -> World -> Prop) :
  total m w Q -> (forall a w', Q a w' -> Q' a w') -> total m w Q'.
Proof.
  intros (a & w' & Hm & HQ) Himp. exists a, w'. split; [exact Hm | auto].
Qed.

(** Sequencing through an intermediate specification. *)
Lemma total_seq {A B} (m : M A) (k : A -> M B) w
      (Q1 : A -> World -> Prop) (Q : B -> World -> Prop) :
  total m w Q1 ->
  (forall a w1, Q1 a w1 -> total (k a) w1 Q) ->
  total (bind m k) w Q.
Proof.
  intros Hm Hk. apply total_bind. eapply total_weaken; [exact Hm | exact Hk].
Qed.

(** *** Traces *)

Lemma emitted_app w w' evs :
  trace w' = (trace w ++ evs)%list -> emitted w w' = evs.
Proof.
  intros H. unfold emitted. rewrite H.
  rewrite skipn_app, skipn_all, Nat.sub_diag. reflexivity.
Qed.

Definition count (p : Event -> bool) (evs : list Event) : nat :=
  List.length (filter p evs).

Lemma count_app p l1 l2 : count p (l1 ++ l2) = (count p l1 + count p l2)%nat.
Proof. unfold count. rewrite filter_app, length_app. reflexivity. Qed.

Lemma count_none p q l :
  forallb q l = true -> (forall ev, q ev = true -> p ev = false) -> count p l = 0%nat.
Proof.
  intros Hall Hpq. unfold count.
  induction l as [| ev l IH]; [reflexivity |].
  simpl in Hall. apply andb_true_iff in Hall as [Hev Hl].
  simpl. rewrite (Hpq ev Hev). apply IH. exact Hl.
Qed.

Lemma forallb_weaken (p q : Event -> bool) l :
  (forall ev, p ev = true -> q ev = true) -> forallb p l = true -> forallb q l = true.
Proof.
  intros Hpq. rewrite !forallb_forall. intros H ev Hin. apply Hpq, H, Hin.
Qed.

Lemma forallb_not_In (p : Event -> bool) l ev :
  forallb p l = true -> p ev = false -> ~ In ev l.
Proof.
  rewrite forallb_forall. intros H Hev Hin. rewrite (H ev Hin) in Hev. discriminate.
Qed.

Definition is_capture (ev : Event) : bool :=
  match ev with EvTakeAndUpload => true | _ => false end.

Definition is_cam_get (ev : Event) : bool :=
  match ev with EvCamGet _ => true | _ => false end.

Definition is_cam_free (ev : Event) : bool :=
  match ev with EvCamFree => true | _ => false end.

Definition is_connect (ev : Event) : bool :=
  match ev with EvTlsConnect _ => true | _ => false end.

Definition is_light_sleep (ev : Event) : bool :=
  match ev with EvLightSleep => true | _ => false end.

Definition is_led (ev : Event) : bool :=
  match ev with EvLed _ => true | _ => false end.

(** LED, delays, WiFi and TLS traffic: what the network and signalling
    code may do. *)
Definition background (ev : Event) : bool :=
  match ev with
  | EvLed _ | EvDelay _ | EvWifiMode _ | EvWifiSetSleep _ | EvWifiBegin
  | EvTlsConnect _ | EvTlsPrint _ _ | EvTlsWrite _ _ _ | EvTlsRecv _
  | EvTlsStop => true
  | _ => false
  end.

(** [advance P w w']: [w'] is [w] later in time with more events, all of
    class [P], on the trace; the camera frame, the sleep flag and the
    variables of the sketch are untouched. *)
Record advance (P : Event -> bool) (w w' : World) : Prop := mk_advance {
  adv_fb : fb w' = fb w;
  adv_asleep : asleep w' = asleep w;
  adv_lastPhotoTime : lastPhotoTime w' = lastPhotoTime w;
  adv_buttonPressTime : buttonPressTime w' = buttonPressTime w;
  adv_buttonPressed : buttonPressed w' = buttonPressed w;
  adv_lastSystemDebugTime : lastSystemDebugTime w' = lastSystemDebugTime w;
  adv_now : now w <= now w';
  adv_trace : exists evs, trace w' = (trace w ++ evs)%list /\ forallb P evs = true
}.

Lemma advance_refl P w : advance P w w.
Proof.
  constructor; try reflexivity; try lia.
  exists []. rewrite app_nil_r. split; reflexivity.
Qed.

Lemma advance_trans P w1 w2 w3 :
  advance P w1 w2 -> advance P w2 w3 -> advance P w1 w3.
Proof.
  intros [a1 a2 a3 a4 a5 a6 a7 (e1 & t1 & f1)] [b1 b2 b3 b4 b5 b6 b7 (e2 & t2 & f2)].
  constructor; try congruence; try lia.
  exists (e1 ++ e2)%list. split.
  - rewrite t2, t1, app_assoc. reflexivity.
  - rewrite forallb_app, f1, f2. reflexivity.
Qed.

Lemma advance_weaken (P Q : Event -> bool) w w' :
  (forall ev, P ev = true -> Q ev = true) -> advance P w w' -> advance Q w w'.
Proof.
  intros HPQ [a1 a2 a3 a4 a5 a6 a7 (e & t & f)].
  constructor; try assumption.
  exists e. split; [exact t | eapply forallb_weaken; eauto].
Qed.

(** [quietly P m]: from every world [m] returns and only advances it. *)
Definition quietly {A} (P : Event -> bool) (m : M A) : Prop :=
  forall w, total m w (fun _ w' => advance P w w').

Lemma quietly_ret {A} P (a : A) : quietly P (ret a).
Proof. intros w. apply total_ret, advance_refl. Qed.

Lemma quietly_bind {A B} P (m : M A) (k : A -> M B) :
  quietly P m -> (forall a, quietly P (k a)) -> quietly P (bind m k).
Proof.
  intros Hm Hk w. eapply total_seq; [apply Hm |].
  intros a w1 H1. eapply total_weaken; [apply Hk |].
  intros b w2 H2. simpl in H1, H2. exact (advance_trans P w w1 w2 H1 H2).
Qed.

Lemma quietly_weaken {A} (P Q : Event -> bool) (m : M A) :
  (forall ev, P ev = true -> Q ev = true) -> quietly P m -> quietly Q m.
Proof.
  intros HPQ Hm w. eapply total_weaken; [apply Hm |].
  intros a w'. apply advance_weaken, HPQ.
Qed.

Lemma quietly_emit P ev : P ev = true -> quietly P (emit ev).
Proof.
  intros Hev w. eexists tt, _. split; [reflexivity |].
  constructor; try reflexivity; try (simpl; lia).
  exists [ev]. split; [reflexivity | simpl; rewrite Hev; reflexivity].
Qed.

Lemma quietly_observe {A} P (oracle : nat -> A) : quietly P (observe oracle).
Proof.
  intros w. eexists _, _. split; [reflexivity |].
  constructor; try reflexivity; try (simpl; lia).
  exists []. simpl. rewrite app_nil_r. split; reflexivity.
Qed.

Lemma quietly_millis P : quietly P millis.
Proof. intros w. eexists _, _. split; [reflexivity | apply advance_refl]. Qed.

Lemma quietly_delay P ms : P (EvDelay ms) = true -> 0 <= ms -> quietly P (delay ms).
Proof.
  intros Hev Hms w. eexists tt, _. split; [reflexivity |].
  constructor; try reflexivity; try (simpl; lia).
  exists [EvDelay ms]. split; [reflexivity | simpl; rewrite Hev; reflexivity].
Qed.

Lemma quietly_led P high : P (EvLed high) = true -> quietly P (digitalWrite_led high).
Proof.
  intros Hev w. eexists tt, _. split; [reflexivity |].
  constructor; try reflexivity; try (simpl; lia).
  exists [EvLed high]. split; [reflexivity | simpl; rewrite Hev; reflexivity].
Qed.

Lemma quietly_repeat P n body : quietly P body -> quietly P (repeat_ n body).
Proof.
  intros Hb. induction n as [| n IH]; simpl.
  - apply quietly_ret.
  - apply quietly_bind; [exact Hb | intros _; exact IH].
Qed.

Lemma quietly_blink P n on off :
  (forall ev, background ev = true -> P ev = true) ->
  0 <= on -> 0 <= off -> quietly P (blink n on off).
Proof.
  intros HP Hon Hoff. apply quietly_repeat.
  repeat (apply quietly_bind; [| intros _]);
    first [apply quietly_led | apply quietly_delay]; auto.
Qed.

(** *** Stepping through primitive statements *)

Lemma total_observe {A} (oracle : nat -> A) w (Q : A -> World -> Prop) :
  Q (oracle (reads w)) (set_reads (S (reads w)) w) -> total (observe oracle) w Q.
Proof. intros H. eexists _, _. split; [reflexivity | exact H]. Qed.

Lemma total_emit ev w (Q : unit -> World -> Prop) :
  Q tt (set_trace (trace w ++ [ev]) w) -> total (emit ev) w Q.
Proof. intros H. eexists _, _. split; [reflexivity | exact H]. Qed.

Lemma total_millis w (Q : Z -> World -> Prop) :
  Q (U32.wrap (now w)) w -> total millis w Q.
Proof. intros H. eexists _, _. split; [reflexivity | exact H]. Qed.

Lemma total_delay ms w (Q : unit -> World -> Prop) :
  Q tt (set_trace (trace w ++ [EvDelay ms]) (set_now (now w + ms) w)) ->
  total (delay ms) w Q.
Proof. intros H. eexists _, _. split; [reflexivity | exact H]. Qed.

Lemma total_led high w (Q : unit -> World -> Prop) :
  Q tt (set_trace (trace w ++ [EvLed high]) (set_led high w)) ->
  total (digitalWrite_led high) w Q.
Proof. intros H. eexists _, _. split; [reflexivity | exact H]. Qed.

Lemma total_gets {A} (f : World -> A) w (Q : A -> World -> Prop) :
  Q (f w) w -> total (gets f) w Q.
Proof. intros H. eexists _, _. split; [reflexivity | exact H]. Qed.

Lemma total_modify f w (Q : unit -> World -> Prop) :
  Q tt (f w) -> total (modify f) w Q.
Proof. intros H. eexists _, _. split; [reflexivity | exact H]. Qed.

(** A computation known to be quiet, followed by the rest. *)
Lemma total_quiet_seq {A B} P (m : M A) (k : A -> M B) w (Q : B -> World -> Prop) :
  quietly P m ->
  (forall a w1, advance P w w1 -> total (k a) w1 Q) ->
  total (bind m k) w Q.
Proof. intros Hm Hk. eapply total_seq; [apply Hm | exact Hk]. Qed.

Ltac step :=
  first
    [ apply total_observe | apply total_emit | apply total_millis
    | apply total_delay | apply total_led | apply total_gets
    | apply total_modify | apply total_ret
    | apply total_bind; step ].

(** Closes [advance P w w'] when [w'] is [w] under explicit setters. *)
Ltac advance_now :=
  constructor;
  [ reflexivity | reflexivity | reflexivity | reflexivity | reflexivity
  | reflexivity
  | cbn; lia
  | eexists; split;
    [ cbn [trace set_trace set_now set_reads set_led];
      first [ symmetry; apply app_nil_r
            | rewrite <- ?app_assoc; reflexivity ]
    | reflexivity ] ].

(** ** Termination and footprint of the network code *)

Section NetworkFacts.

Variable env : Env.

Lemma wifi_wait_quiet fuel T0 w :
  0 <= now w - T0 < 15500 ->
  15000 <= now w - T0 + 500 * Z.of_nat fuel - 500 ->
  total (wifi_wait env fuel (U32.wrap T0)) w (fun _ w' => advance background w w').
Proof.
  revert w. induction fuel as [| fuel IH]; intros w Hel Hfuel.
  - exfalso. simpl in Hfuel. lia.
  - simpl wifi_wait. unfold WiFi_status. step.
    destruct (wifi_connected env (reads w)).
    + step. advance_now.
    + step. rewrite U32.sub_wrap_wrap.
      rewrite U32.wrap_small
        by (cbn [now set_reads]; unfold U32.in_range; rewrite U32.modulus_eq; lia).
      cbn [now set_reads].
      destruct (now w - T0 <? 15000) eqn:Hlt.
      * apply Z.ltb_lt in Hlt. step.
        eapply total_weaken.
        -- apply IH; cbn [now set_now set_trace set_reads]; lia.
        -- intros u w' Hadv. eapply advance_trans; [| exact Hadv]. advance_now.
      * step. advance_now.
Qed.

Lemma wifi_attempts_quiet n retry : quietly background (wifi_attempts env n retry).
Proof.
  revert retry. induction n as [| n IH]; intros retry w; simpl wifi_attempts.
  - step. apply advance_refl.
  - step. step.
    eapply total_seq.
    { apply (wifi_wait_quiet 31 (now w)); cbn; lia. }
    intros u w1 H1. simpl in H1. unfold WiFi_status. step.
    assert (Hback : advance background w (set_reads (S (reads w1)) w1)).
    { eapply advance_trans; [| eapply advance_trans; [exact H1 |]]; advance_now. }
    destruct (wifi_connected env (reads w1)).
    + step. exact Hback.
    + step.
      eapply total_quiet_seq with (P := background).
      * destruct (retry <? _).
        -- apply quietly_delay; [reflexivity | unfold WIFI_RETRY_DELAY; lia].
        -- apply quietly_ret.
      * intros u2 w2 H2. eapply total_weaken; [apply IH |].
        intros b w3 H3. simpl in H3.
        eapply advance_trans; [exact Hback |].
        eapply advance_trans; [| eapply advance_trans; [exact H2 | exact H3]].
        advance_now.
Qed.

Lemma connectToWiFi_quiet : quietly background (connectToWiFi env).
Proof.
  unfold connectToWiFi.
  apply quietly_bind; [apply quietly_emit; reflexivity | intros _].
  apply quietly_bind; [apply quietly_emit; reflexivity | intros _].
  apply wifi_attempts_quiet.
Qed.

Lemma getFormattedTimestamp_quiet P : quietly P (getFormattedTimestamp env).
Proof.
  unfold getFormattedTimestamp.
  apply quietly_bind; [apply quietly_observe | intros [stamp |]].
  - apply quietly_ret.
  - apply quietly_bind; [apply quietly_millis | intros t; apply quietly_ret].
Qed.

End NetworkFacts.

(** ** The upload: what a run looks like *)

(** Number of chunks of a payload of [N] bytes: ceil(N / 1024). *)
Definition chunk_count (N : Z) : nat := Z.to_nat ((N + 1023) / 1024).

(** Length of chunk number [j]: min(1024, remaining). *)
Definition chunk_len (N : Z) (j : nat) : Z := Z.min 1024 (N - 1024 * Z.of_nat j).

(** A chunk that the socket takes whole, and the pause after it. *)
Definition chunk_at (d N : Z) (j : nat) : list Event :=
  [EvTlsWrite (d + 1024 * Z.of_nat j) (chunk_len N j) (chunk_len N j); EvDelay 1].

Definition chunks_from (d N : Z) (i k : nat) : list Event :=
  flat_map (chunk_at d N) (seq i k).

Definition write_sizes (evs : list Event) : list Z :=
  flat_map (fun ev => match ev with EvTlsWrite _ n _ => [n] | _ => [] end) evs.

Definition is_delay (ev : Event) : bool :=
  match ev with EvDelay _ => true | _ => false end.

Definition connect_class (ev : Event) : bool :=
  match ev with EvTlsConnect _ | EvDelay _ => true | _ => false end.

Lemma chunk_count_spec N :
  0 <= N ->
  1024 * Z.of_nat (chunk_count N) - 1024 < N <= 1024 * Z.of_nat (chunk_count N).
Proof.
  intros HN. unfold chunk_count.
  assert (H0 : 0 <= (N + 1023) / 1024) by (apply Z.div_pos; lia).
  rewrite Z2Nat.id by exact H0.
  pose proof (Z.div_mod (N + 1023) 1024 ltac:(lia)) as Hdm.
  pose proof (Z.mod_pos_bound (N + 1023) 1024 ltac:(lia)) as Hb.
  lia.
Qed.

Lemma chunks_from_S d N i k :
  chunks_from d N i (S k) = (chunk_at d N i ++ chunks_from d N (S i) k)%list.
Proof. reflexivity. Qed.

Lemma write_sizes_app l1 l2 :
  write_sizes (l1 ++ l2) = (write_sizes l1 ++ write_sizes l2)%list.
Proof. unfold write_sizes. apply flat_map_app. Qed.

Lemma write_sizes_chunks d N i k :
  write_sizes (chunks_from d N i k) = map (chunk_len N) (seq i k).
Proof.
  revert i. induction k as [| k IH]; intros i; [reflexivity |].
  rewrite chunks_from_S, write_sizes_app, IH. reflexivity.
Qed.

Lemma write_sizes_none p l :
  forallb p l = true ->
  (forall ptr n r, p (EvTlsWrite ptr n r) = false) ->
  write_sizes l = [].
Proof.
  intros Hall Hp. induction l as [| ev l IH]; [reflexivity |].
  simpl in Hall. apply andb_true_iff in Hall as [Hev Hl].
  unfold write_sizes. simpl. fold (write_sizes l). rewrite (IH Hl).
  destruct ev; try reflexivity. rewrite Hp in Hev. discriminate.
Qed.

Lemma advance_trace P w w' :
  advance P w w' -> trace w' = (trace w ++ emitted w w')%list.
Proof.
  intros [_ _ _ _ _ _ _ (evs & Ht & _)].
  rewrite (emitted_app _ _ _ Ht). exact Ht.
Qed.

Lemma advance_emitted P w w' : advance P w w' -> forallb P (emitted w w') = true.
Proof.
  intros [_ _ _ _ _ _ _ (evs & Ht & Hall)].
  rewrite (emitted_app _ _ _ Ht). exact Hall.
Qed.

Lemma emitted_trans P Q w w1 w2 :
  advance P w w1 -> advance Q w1 w2 ->
  emitted w w2 = (emitted w w1 ++ emitted w1 w2)%list.
Proof.
  intros H1 H2. apply emitted_app.
  rewrite (advance_trace _ _ _ H2), (advance_trace _ _ _ H1), app_assoc.
  reflexivity.
Qed.

Lemma emitted_refl w : emitted w w = [].
Proof. apply emitted_app. rewrite app_nil_r. reflexivity. Qed.

Lemma readStringUntil_shrinks t s :
  (String.length (snd (Str.readStringUntil t s)) <= String.length s)%nat.
Proof.
  induction s as [| c s IH]; simpl; [lia |].
  destruct (Ascii.eqb c t); simpl; [lia |].
  destruct (Str.readStringUntil t s) as [line rest]. simpl in *. lia.
Qed.

Lemma read_headers_total fuel rx success :
  (String.length rx < fuel)%nat ->
  exists r, read_headers fuel rx success = Some r.
Proof.
  revert rx success. induction fuel as [| fuel IH]; intros rx success Hlen; [lia |].
  destruct rx as [| c rx]; [eexists; reflexivity |].
  unfold read_headers; fold read_headers.
  pose proof (readStringUntil_shrinks newline (String c rx)) as Hs.
  destruct (Str.readStringUntil newline (String c rx)) as [raw rest] eqn:Hread.
  assert (Hrest : (String.length rest < fuel)%nat).
  { simpl in Hread. destruct (Ascii.eqb c newline).
    - injection Hread as _ <-. simpl in Hlen. lia.
    - pose proof (readStringUntil_shrinks newline rx) as Hs'.
      destruct (Str.readStringUntil newline rx) as [l r].
      injection Hread as _ <-. simpl in *. lia. }
  destruct (String.length (Str.trim raw) =? 0)%nat; [eexists; reflexivity |].
  apply IH. exact Hrest.
Qed.

Lemma read_body_total fuel rx :
  (String.length rx < fuel)%nat -> read_body fuel rx = Some tt.
Proof.
  revert rx. induction fuel as [| fuel IH]; intros rx Hlen; [lia |].
  destruct rx as [| c rx]; [reflexivity |].
  unfold read_body; fold read_body.
  destruct (Str.readStringUntil newline (String c rx)) as [line rest] eqn:Hread.
  assert (Hrest : (String.length rest < fuel)%nat).
  { simpl in Hread. destruct (Ascii.eqb c newline).
    - injection Hread as _ <-. simpl in Hlen. lia.
    - pose proof (readStringUntil_shrinks newline rx) as Hs'.
      destruct (Str.readStringUntil newline rx) as [l r].
      injection Hread as _ <-. simpl in *. lia. }
  destruct (100 <? String.length line)%nat; [reflexivity |].
  apply IH. exact Hrest.
Qed.

Section UploadFacts.

Variable env : Env.

Lemma connect_attempts_spec n i w :
  total (connect_attempts env n i) w
    (fun _ w' =>
       advance connect_class w w' /\
       (n <> O -> exists ok rest, emitted w w' = EvTlsConnect ok :: rest)).
Proof.
  revert i w. induction n as [| n IH]; intros i w; simpl connect_attempts.
  - step. split; [apply advance_refl | congruence].
  - unfold client_connect. step.
    set (ok := tls_connect env (reads w)).
    set (w0 := set_trace _ _).
    assert (H0 : advance connect_class w w0) by (subst w0; advance_now).
    assert (E0 : emitted w w0 = [EvTlsConnect ok]) by (apply emitted_app; reflexivity).
    destruct ok.
    + step. split; [exact H0 | intros _; eauto].
    + eapply total_quiet_seq with (P := connect_class).
      * destruct (i <? _);
          [apply quietly_delay; [reflexivity | lia] | apply quietly_ret].
      * intros u w1 H1. eapply total_weaken; [apply IH |].
        intros c w2 [H2 _].
        assert (H02 : advance connect_class w0 w2) by (eapply advance_trans; eauto).
        split; [eapply advance_trans; eauto |].
        intros _. rewrite (emitted_trans _ _ _ _ _ H0 H02), E0. simpl. eauto.
Qed.

(** What [send_chunks] puts on the wire from chunk [i] on: every chunk
    whole, or whole chunks up to a short write followed at once by
    [client.stop()]. *)
Definition send_shape (d N : Z) (i : nat) (sent : bool) (evs : list Event) : Prop :=
  if sent then evs = chunks_from d N i (chunk_count N - i)
  else exists j k,
      (i <= j < chunk_count N)%nat /\
      tls_write env k (chunk_len N j) <> chunk_len N j /\
      evs = (chunks_from d N i (j - i) ++
             [EvTlsWrite (d + 1024 * Z.of_nat j) (chunk_len N j)
                         (tls_write env k (chunk_len N j)); EvTlsStop])%list.

Lemma send_chunks_spec d N :
  U32.in_range N ->
  forall r i fuel w,
    (i + r = chunk_count N)%nat -> (r < fuel)%nat ->
    total (send_chunks env fuel d N (Z.min N (1024 * Z.of_nat i))) w
      (fun sent w' => advance background w w' /\ send_shape d N i sent (emitted w w')).
Proof.
  intros HN. pose proof HN as HN'. unfold U32.in_range in HN'.
  rewrite U32.modulus_eq in HN'.
  pose proof (chunk_count_spec N ltac:(lia)) as Hcc.
  induction r as [| r IH]; intros i fuel w Hi Hf;
    (destruct fuel as [| fuel]; [lia |]); unfold send_chunks; fold send_chunks.
  - replace (Z.min N (1024 * Z.of_nat i)) with N by lia.
    rewrite Z.ltb_irrefl. step. split; [apply advance_refl |].
    unfold send_shape. rewrite emitted_refl.
    replace (chunk_count N - i)%nat with O by lia. reflexivity.
  - assert (Hlt : 1024 * Z.of_nat i < N) by lia.
    replace (Z.min N (1024 * Z.of_nat i)) with (1024 * Z.of_nat i) by lia.
    apply Z.ltb_lt in Hlt as Hltb. rewrite Hltb.
    rewrite U32.sub_small by (rewrite U32.modulus_eq; lia).
    unfold chunkSize. fold (chunk_len N i).
    unfold client_write. step.
    set (written := tls_write env (reads w) (chunk_len N i)).
    set (w0 := set_trace _ _).
    destruct (Z.eqb_spec written (chunk_len N i)) as [Heq | Hne]; simpl negb; cbv iota.
    + step.
      set (w1 := set_trace _ _).
      assert (H1 : advance background w w1) by (subst w1 w0; advance_now).
      assert (E1 : emitted w w1 = chunk_at d N i).
      { apply emitted_app. subst w1 w0. cbn [trace set_trace set_now set_reads].
        rewrite <- app_assoc. unfold chunk_at. rewrite <- Heq. reflexivity. }
      replace (U32.add (1024 * Z.of_nat i) written)
        with (Z.min N (1024 * Z.of_nat (S i))).
      2:{ unfold U32.add. rewrite Heq. unfold chunk_len.
          rewrite U32.wrap_small by (unfold U32.in_range; rewrite U32.modulus_eq; lia).
          lia. }
      eapply total_weaken; [apply (IH (S i) fuel w1); lia |].
      intros sent w2 [H2 Hshape].
      split; [eapply advance_trans; eauto |].
      rewrite (emitted_trans _ _ _ _ _ H1 H2), E1.
      unfold send_shape in *. destruct sent.
      * rewrite Hshape.
        replace (chunk_count N - i)%nat with (S (chunk_count N - S i)) by lia.
        rewrite chunks_from_S. reflexivity.
      * destruct Hshape as (j & k & Hj & Hshort & ->).
        exists j, k. split; [lia |]. split; [exact Hshort |].
        replace (j - i)%nat with (S (j - S i)) by lia.
        rewrite chunks_from_S, <- app_assoc. reflexivity.
    + unfold client_stop. step.
      split; [subst w0; advance_now |].
      unfold send_shape. exists i, (reads w).
      split; [lia |]. split; [exact Hne |].
      rewrite Nat.sub_diag. apply emitted_app. subst w0.
      cbn [trace set_trace set_reads]. rewrite <- app_assoc. reflexivity.
Qed.

(** What the wait for the response leaves on the trace: 10 ms pauses,
    then the data, or [client.stop()] at the timeout. *)
Definition await_shape (reply : option string) (evs : list Event) : Prop :=
  exists ds, forallb is_delay ds = true /\
    match reply with
    | Some rx => rx <> EmptyString /\ evs = (ds ++ [EvTlsRecv rx])%list
    | None => evs = (ds ++ [EvTlsStop])%list
    end.

Lemma await_response_spec fuel T0 w :
  0 <= now w - T0 <= 15010 ->
  15010 <= now w - T0 + 10 * Z.of_nat fuel - 10 ->
  total (await_response env fuel (U32.wrap T0)) w
    (fun reply w' => advance background w w' /\ await_shape reply (emitted w w')).
Proof.
  revert w. induction fuel as [| fuel IH]; intros w Hel Hfuel.
  - exfalso. simpl in Hfuel.
    unfold await_response. lia.
  - unfold await_response; fold await_response. step.
    set (w0 := set_reads _ _).
    assert (H0 : advance background w w0) by (subst w0; advance_now).
    assert (E0 : emitted w w0 = []) by (apply emitted_app; rewrite app_nil_r; reflexivity).
    destruct (tls_reply env (reads w)) as [| c data] eqn:Hreply.
    + step. rewrite U32.sub_wrap_wrap.
      rewrite U32.wrap_small
        by (subst w0; cbn [now set_reads]; unfold U32.in_range;
            rewrite U32.modulus_eq; lia).
      subst w0. cbn [now set_reads].
      destruct (now w - T0 >? 15000) eqn:Hgt.
      * unfold client_stop. step. split; [advance_now |].
        exists []. split; [reflexivity |]. apply emitted_app. reflexivity.
      * assert (Hle : now w - T0 <= 15000)
          by (rewrite Z.gtb_ltb in Hgt; apply Z.ltb_ge in Hgt; lia).
        step. set (w1 := set_trace _ _).
        assert (H1 : advance background w w1) by (subst w1; advance_now).
        assert (E1 : emitted w w1 = [EvDelay 10]) by (apply emitted_app; reflexivity).
        eapply total_weaken;
          [apply (IH w1); subst w1; cbn [now set_now set_trace set_reads]; lia |].
        intros reply w2 [H2 (ds & Hds & Hshape)].
        split; [eapply advance_trans; eauto |].
        rewrite (emitted_trans _ _ _ _ _ H1 H2), E1.
        exists (EvDelay 10 :: ds). split; [simpl; exact Hds |].
        destruct reply as [rx |].
        -- destruct Hshape as [Hrx ->]. split; [exact Hrx | reflexivity].
        -- rewrite Hshape. reflexivity.
    + step. split; [subst w0; advance_now |].
      exists []. split; [reflexivity |]. split; [discriminate |].
      apply emitted_app. reflexivity.
Qed.

End UploadFacts.

Lemma connect_class_background ev : connect_class ev = true -> background ev = true.
Proof. destruct ev; simpl; congruence. Qed.

Lemma advance_step P w w1 w2 evs1 evs2 :
  advance P w w1 -> emitted w w1 = evs1 ->
  advance P w1 w2 -> emitted w1 w2 = evs2 ->
  advance P w w2 /\ emitted w w2 = (evs1 ++ evs2)%list.
Proof.
  intros H1 E1 H2 E2. split; [eapply advance_trans; eauto |].
  rewrite (emitted_trans _ _ _ _ _ H1 H2), E1, E2. reflexivity.
Qed.

Section UploadShape.

Variable env : Env.

(** The verdict of the status parser on a response. *)
Definition status_ok (rx : string) : bool :=
  match read_headers (S (String.length rx)) rx false with
  | Some (success, _) => success
  | None => false
  end.

(** The events of the connection stage: at least one [client.connect],
    then only further attempts and back-off pauses. *)
Definition connect_stage (cs : list Event) : Prop :=
  forallb connect_class cs = true /\
  exists ok rest, cs = EvTlsConnect ok :: rest.

(** The upload gets past its two entry guards. *)
Definition upload_starts (d N : Z) (w : World) : Prop :=
  wifi_connected env (reads w) = true /\ d <> 0 /\ N <> 0.

(** Every run of [uploadPhotoToSupabase], by exit. *)
Inductive upload_shape (d N : Z) (f : string) (w : World)
  : Outcome -> list Event -> Prop :=
| shape_offline :
    wifi_connected env (reads w) = false ->
    upload_shape d N f w WifiNotConnected []
| shape_invalid :
    wifi_connected env (reads w) = true -> d = 0 \/ N = 0 ->
    upload_shape d N f w InvalidImage []
| shape_unreachable cs :
    upload_starts d N w -> connect_stage cs ->
    upload_shape d N f w ConnectFailed cs
| shape_short_write cs ws :
    upload_starts d N w -> connect_stage cs ->
    send_shape env d N 0 false ws ->
    upload_shape d N f w WriteError (cs ++ EvTlsPrint f N :: ws)
| shape_timeout cs ds :
    upload_starts d N w -> connect_stage cs ->
    forallb is_delay ds = true ->
    upload_shape d N f w ResponseTimeout
      (cs ++ EvTlsPrint f N :: chunks_from d N 0 (chunk_count N) ++ ds ++ [EvTlsStop])
| shape_reply cs ds rx :
    upload_starts d N w -> connect_stage cs ->
    forallb is_delay ds = true -> rx <> EmptyString ->
    upload_shape d N f w (if status_ok rx then Uploaded else Rejected)
      (cs ++ EvTlsPrint f N :: chunks_from d N 0 (chunk_count N) ++ ds ++
       [EvTlsRecv rx; EvTlsStop]).

Lemma send_chunks_from_start d N fuel w :
  U32.in_range N -> (chunk_count N < fuel)%nat ->
  total (send_chunks env fuel d N 0) w
    (fun sent w' => advance background w w' /\ send_shape env d N 0 sent (emitted w w')).
Proof.
  intros HN Hf.
  replace 0 with (Z.min N (1024 * Z.of_nat 0)) at 1
    by (unfold U32.in_range in HN; simpl; lia).
  apply (send_chunks_spec env d N HN (chunk_count N) O); [reflexivity | exact Hf].
Qed.

Lemma upload_fuel N : 0 <= N -> (chunk_count N < S (Z.to_nat (N / chunkSize + 1)))%nat.
Proof.
  intros HN. unfold chunk_count, chunkSize.
  pose proof (Z.div_mod (N + 1023) 1024 ltac:(lia)).
  pose proof (Z.mod_pos_bound (N + 1023) 1024 ltac:(lia)).
  pose proof (Z.div_mod N 1024 ltac:(lia)).
  pose proof (Z.mod_pos_bound N 1024 ltac:(lia)).
  lia.
Qed.

Theorem upload_spec d N f w :
  U32.in_range N ->
  total (uploadPhotoToSupabase env d N f) w
    (fun o w' => advance background w w' /\ upload_shape d N f w o (emitted w w')).
Proof.
  intros HN. pose proof HN as [HN0 _].
  unfold uploadPhotoToSupabase, WiFi_status. step.
  set (w0 := set_reads _ _).
  assert (A0 : advance background w w0) by (subst w0; advance_now).
  assert (E0 : emitted w w0 = []) by (apply emitted_app; rewrite app_nil_r; reflexivity).
  destruct (wifi_connected env (reads w)) eqn:Hup; simpl negb; cbv iota.
  2:{ step. split; [exact A0 |]. rewrite E0. constructor. exact Hup. }
  destruct (Z.eqb_spec d 0) as [Hd | Hd]; simpl orb; cbv iota.
  { step. split; [exact A0 |]. rewrite E0. constructor; auto. }
  destruct (Z.eqb_spec N 0) as [HN1 | HN1]; cbv iota.
  { step. split; [exact A0 |]. rewrite E0. constructor; auto. }
  assert (Hstart : upload_starts d N w) by (repeat split; assumption).
  eapply total_seq; [apply connect_attempts_spec |].
  intros connected w1 [A1 E1]. simpl in A1, E1.
  specialize (E1 ltac:(discriminate)).
  apply (advance_weaken _ _ _ _ connect_class_background) in A1 as A1'.
  pose proof (advance_emitted _ _ _ A1) as C1.
  destruct (advance_step _ _ _ _ _ _ A0 E0 A1' eq_refl) as [B1 F1].
  simpl in F1.
  assert (Hcs : connect_stage (emitted w0 w1)) by (split; assumption).
  destruct connected; simpl negb; cbv iota.
  2:{ step. split; [exact B1 |]. rewrite F1. constructor; assumption. }
  step. set (w2 := set_trace _ w1).
  assert (A2 : advance background w1 w2) by (subst w2; advance_now).
  destruct (advance_step _ _ _ _ _ _ B1 F1 A2
              (emitted_app w1 w2 [EvTlsPrint f N] eq_refl)) as [B2 F2].
  eapply total_seq; [apply send_chunks_from_start; [exact HN | apply upload_fuel, HN0] |].
  intros sent w3 [A3 S3]. simpl in A3, S3.
  destruct (advance_step _ _ _ _ _ _ B2 F2 A3 eq_refl) as [B3 F3].
  destruct sent; simpl negb; cbv iota.
  2:{ step. split; [exact B3 |]. rewrite F3, <- app_assoc. simpl.
      constructor; assumption. }
  unfold send_shape in S3. rewrite Nat.sub_0_r in S3.
  step.
  eapply total_seq.
  { apply (await_response_spec env 1502 (now w3) w3); lia. }
  intros reply w4 [A4 (ds & Hds & S4)]. simpl in A4.
  destruct (advance_step _ _ _ _ _ _ B3 F3 A4 eq_refl) as [B4 F4].
  destruct reply as [rx |].
  2:{ step. split; [exact B4 |]. rewrite F4, S4, S3, <- !app_assoc. simpl.
      constructor; assumption. }
  destruct S4 as [Hrx S4].
  destruct (read_headers_total (S (String.length rx)) rx false ltac:(lia))
    as [[success rest] Hread].
  assert (Hok : status_ok rx = success) by (unfold status_ok; rewrite Hread; reflexivity).
  rewrite Hread.
  assert (Hbody : forall v,
            (if (negb success && nonempty rest)%bool
             then lift (read_body (S (String.length rest)) rest)
             else ret tt) v = Some (tt, v)).
  { intros v. destruct (negb success && nonempty rest)%bool; [| reflexivity].
    unfold lift. rewrite read_body_total by lia. reflexivity. }
  apply total_bind. apply total_ret. cbv beta iota.
  apply total_bind. exists tt, w4. split; [apply Hbody |].
  unfold client_stop. step.
  set (w5 := set_trace _ w4).
  assert (A5 : advance background w4 w5) by (subst w5; advance_now).
  destruct (advance_step _ _ _ _ _ _ B4 F4 A5
              (emitted_app w4 w5 [EvTlsStop] eq_refl)) as [B5 F5].
  split; [exact B5 |].
  rewrite F5, S4, S3, <- !app_assoc. simpl.
  rewrite <- Hok. constructor; assumption.
Qed.

End UploadShape.

(** ** Capture and upload *)

(** [keeps w w']: [w'] is [w] later in time with a longer trace; the
    sleep flag and the variables of the sketch are untouched (the camera
    frame may have changed). *)
Record keeps (w w' : World) : Prop := mk_keeps {
  keeps_asleep : asleep w' = asleep w;
  keeps_lastPhotoTime : lastPhotoTime w' = lastPhotoTime w;
  keeps_buttonPressTime : buttonPressTime w' = buttonPressTime w;
  keeps_buttonPressed : buttonPressed w' = buttonPressed w;
  keeps_lastSystemDebugTime : lastSystemDebugTime w' = lastSystemDebugTime w;
  keeps_now : now w <= now w';
  keeps_trace : trace w' = (trace w ++ emitted w w')%list
}.

Lemma advance_keeps P w w' : advance P w w' -> keeps w w'.
Proof.
  intros H. pose proof (advance_trace _ _ _ H).
  destruct H. constructor; assumption.
Qed.

Lemma keeps_step w w1 w2 evs1 evs2 :
  keeps w w1 -> emitted w w1 = evs1 ->
  keeps w1 w2 -> emitted w1 w2 = evs2 ->
  keeps w w2 /\ emitted w w2 = (evs1 ++ evs2)%list.
Proof.
  intros [a1 a2 a3 a4 a5 a6 a7] E1 [b1 b2 b3 b4 b5 b6 b7] E2.
  assert (Ht : trace w2 = (trace w ++ evs1 ++ evs2)%list).
  { rewrite b7, a7, E1, E2, app_assoc. reflexivity. }
  pose proof (emitted_app _ _ _ Ht) as E.
  split; [| exact E].
  constructor; try congruence; try lia.
Qed.

Lemma keeps_of_trace w w' evs :
  asleep w' = asleep w ->
  lastPhotoTime w' = lastPhotoTime w ->
  buttonPressTime w' = buttonPressTime w ->
  buttonPressed w' = buttonPressed w ->
  lastSystemDebugTime w' = lastSystemDebugTime w ->
  now w <= now w' ->
  trace w' = (trace w ++ evs)%list ->
  keeps w w'.
Proof.
  intros. constructor; try assumption.
  rewrite (emitted_app w w' evs); assumption.
Qed.

(** Closes [keeps w w'] when [w'] is [w] under explicit setters. *)
Ltac keeps_now :=
  eapply keeps_of_trace;
  [ reflexivity | reflexivity | reflexivity | reflexivity | reflexivity
  | cbn; lia
  | cbn [trace set_trace set_now set_reads set_led set_fb
         set_asleep set_lastPhotoTime set_buttonPressTime
         set_buttonPressed set_lastSystemDebugTime];
    rewrite <- ?app_assoc; first [reflexivity | symmetry; apply app_nil_r] ].

(** Normal form of a world under explicit setters. *)
Ltac tidy :=
  cbn [now reads led fb asleep lastPhotoTime buttonPressTime buttonPressed
       lastSystemDebugTime trace set_now set_reads set_led set_fb set_asleep
       set_lastPhotoTime set_buttonPressTime set_buttonPressed
       set_lastSystemDebugTime set_trace] in *.

Ltac tidy_goal :=
  cbn [now reads led fb asleep lastPhotoTime buttonPressTime buttonPressed
       lastSystemDebugTime trace set_now set_reads set_led set_fb set_asleep
       set_lastPhotoTime set_buttonPressTime set_buttonPressed
       set_lastSystemDebugTime set_trace].

Lemma total_read_led w (Q : bool -> World -> Prop) :
  Q (led w) w -> total digitalRead_led w Q.
Proof. intros H. eexists _, _. split; [reflexivity | exact H]. Qed.

(** Statements that [step1] knows how to run. *)
Ltac runnable m :=
  lazymatch m with
  | ret _ => idtac
  | observe _ => idtac
  | emit _ => idtac
  | millis => idtac
  | delay _ => idtac
  | digitalWrite_led _ => idtac
  | digitalRead_led => idtac
  | gets _ => idtac
  | modify _ => idtac
  | blink _ _ _ => idtac
  | repeat_ _ _ => idtac
  | bind ?m' _ => runnable m'
  end.

(** One statement, chosen by the shape of the program. *)
Ltac step1 :=
  lazymatch goal with
  | |- total (ret _) _ _ => apply total_ret
  | |- total (observe _) _ _ => apply total_observe
  | |- total (emit _) _ _ => apply total_emit
  | |- total millis _ _ => apply total_millis
  | |- total (delay _) _ _ => apply total_delay
  | |- total (digitalWrite_led _) _ _ => apply total_led
  | |- total digitalRead_led _ _ => apply total_read_led
  | |- total (gets _) _ _ => apply total_gets
  | |- total (modify _) _ _ => apply total_modify
  | |- total (bind ?m _) _ _ => runnable m; apply total_bind
  | |- total (blink _ _ _) _ _ => unfold blink
  | |- total (repeat_ (S _) _) _ _ => cbn [repeat_]
  | |- total (repeat_ O _) _ _ => cbn [repeat_]
  end.

(** Runs straight-line code, keeping the world in normal form. *)
Ltac steps := repeat (step1; cbv beta; tidy_goal).

(** Replaces [emitted w W], for an explicit [W], by the list of events. *)
Ltac emitted_now :=
  match goal with
  | |- context [emitted ?w ?W] =>
      let H := fresh "E" in
      let evs := fresh "evs" in
      evar (evs : list Event);
      assert (H : emitted w W = evs)
        by (subst evs; apply emitted_app;
            cbn [trace set_trace set_now set_reads set_led set_fb set_asleep
                 set_lastPhotoTime set_buttonPressTime set_buttonPressed
                 set_lastSystemDebugTime];
            rewrite <- ?app_assoc;
            first [reflexivity | symmetry; apply app_nil_r]);
      subst evs; rewrite !H; clear H
  end.

Lemma total_Camera_fb f w (Q : camera_fb_t -> World -> Prop) :
  fb w = Some f -> Q f w -> total Camera_fb w Q.
Proof.
  intros Hfb HQ. exists f, w. split; [| exact HQ].
  unfold Camera_fb. rewrite Hfb. reflexivity.
Qed.

Section CaptureFacts.

Variable env : Env.

(** Every run of [takeAndUploadPhoto], by what happened to the frame. *)
Inductive capture_shape : list Event -> Prop :=
| capture_low_heap :
    capture_shape [EvTakeAndUpload; EvLed true; EvLed false]
| capture_no_frame :
    capture_shape [EvTakeAndUpload; EvLed true; EvCamGet false; EvLed false]
| capture_bad_frame :
    capture_shape [EvTakeAndUpload; EvLed true; EvCamGet true; EvCamFree; EvLed false]
| capture_frame bg :
    forallb background bg = true ->
    capture_shape ([EvTakeAndUpload; EvLed true; EvCamGet true] ++ bg ++ [EvCamFree]).

(** The path of [takeAndUploadPhoto] that holds a valid frame and is
    online: file name, upload, LED report, release. *)
Lemma upload_and_free f w :
  fb w = Some f -> 0 < Z.of_N (len f) <= 500000 ->
  total (timestamp <- getFormattedTimestamp env ;;
         f <- Camera_fb ;;
         o <- uploadPhotoToSupabase env (buf f) (Z.of_N (len f))
                ("photo_" ++ timestamp ++ ".jpg")%string ;;
         (if succeeded o
          then digitalWrite_led false ;; blink 2 150 150
          else blink 5 100 100) ;;
         Camera_free) w
    (fun _ w' =>
       keeps w w' /\ fb w' = None /\
       exists bg, forallb background bg = true /\
                  emitted w w' = (bg ++ [EvCamFree])%list).
Proof.
  intros Hfb Hlen.
  eapply total_quiet_seq with (P := background);
    [apply getFormattedTimestamp_quiet |].
  intros timestamp w1 A1.
  apply total_bind. eapply total_Camera_fb.
  { rewrite (adv_fb _ _ _ A1). exact Hfb. }
  eapply total_seq.
  { apply upload_spec. unfold U32.in_range. rewrite U32.modulus_eq. lia. }
  intros o w2 [A2 _]. simpl in A2.
  eapply total_quiet_seq with (P := background).
  { destruct (succeeded o).
    - apply quietly_bind; [apply quietly_led; reflexivity | intros _].
      apply quietly_blink; auto; lia.
    - apply quietly_blink; auto; lia. }
  intros u w3 A3.
  assert (A : advance background w w3)
    by (eapply advance_trans; [exact A1 | eapply advance_trans; eauto]).
  unfold Camera_free. repeat step.
  set (w' := set_fb _ _).
  assert (K' : keeps w3 w') by (subst w'; keeps_now).
  assert (E' : emitted w3 w' = [EvCamFree]) by (apply emitted_app; reflexivity).
  destruct (keeps_step w w3 w' _ _ (advance_keeps _ _ _ A) eq_refl K' E') as [K E].
  split; [exact K |]. split; [reflexivity |].
  exists (emitted w w3). split; [apply (advance_emitted _ _ _ A) | exact E].
Qed.

(** The path that holds a frame but could not get back online. *)
Lemma signal_offline_and_free w :
  total (digitalWrite_led false ;; blink 3 100 100 ;; Camera_free) w
    (fun _ w' =>
       keeps w w' /\ fb w' = None /\
       exists bg, forallb background bg = true /\
                  emitted w w' = (bg ++ [EvCamFree])%list).
Proof.
  eapply total_quiet_seq with (P := background);
    [apply quietly_led; reflexivity |].
  intros u1 w1 A1.
  eapply total_quiet_seq with (P := background);
    [apply quietly_blink; auto; lia |].
  intros u2 w2 A2.
  assert (A : advance background w w2) by (eapply advance_trans; eauto).
  unfold Camera_free. repeat step.
  set (w' := set_fb _ _).
  assert (K' : keeps w2 w') by (subst w'; keeps_now).
  assert (E' : emitted w2 w' = [EvCamFree]) by (apply emitted_app; reflexivity).
  destruct (keeps_step w w2 w' _ _ (advance_keeps _ _ _ A) eq_refl K' E') as [K E].
  split; [exact K |]. split; [reflexivity |].
  exists (emitted w w2). split; [apply (advance_emitted _ _ _ A) | exact E].
Qed.

Theorem takeAndUploadPhoto_spec w :
  total (takeAndUploadPhoto env) w
    (fun _ w' =>
       keeps w w' /\ capture_shape (emitted w w') /\
       (In (EvCamGet true) (emitted w w') -> fb w' = None)).
Proof.
  unfold takeAndUploadPhoto, takePhoto. repeat step. tidy.
  destruct (free_heap env (reads w) <? 20000) eqn:Hheap.
  { repeat step. tidy. split; [keeps_now |]. emitted_now.
    split; [constructor | simpl; intuition discriminate]. }
  unfold Camera_get. repeat step. tidy.
  destruct (fb_get env (S (reads w))) as [f |] eqn:Hget; cbn [is_some].
  2:{ repeat step. tidy. split; [keeps_now |]. emitted_now.
      split; [constructor | simpl; intuition discriminate]. }
  apply total_bind. eapply total_Camera_fb; [reflexivity |].
  destruct (Z.eqb_spec (Z.of_N (len f)) 0) as [Hz | Hz].
  { repeat step. tidy. split; [keeps_now |]. emitted_now.
    split; [constructor | reflexivity]. }
  destruct (Z.of_N (len f) >? 500000) eqn:Hbig.
  { repeat step. tidy. split; [keeps_now |]. emitted_now.
    split; [constructor | reflexivity]. }
  destruct (Z.eqb_spec (buf f) 0) as [Hnull | Hnull].
  { repeat step. tidy. split; [keeps_now |]. emitted_now.
    split; [constructor | reflexivity]. }
  assert (Hlen : 0 < Z.of_N (len f) <= 500000).
  { rewrite Z.gtb_ltb in Hbig. apply Z.ltb_ge in Hbig. lia. }
  unfold WiFi_status. repeat step. tidy.
  set (w1 := set_reads _ _).
  assert (K1 : keeps w w1) by (subst w1; keeps_now).
  assert (E1 : emitted w w1 = [EvTakeAndUpload; EvLed true; EvCamGet true]).
  { subst w1. emitted_now. reflexivity. }
  assert (F1 : fb w1 = Some f) by reflexivity.
  clearbody w1.
  assert (Hfinish : forall w2 w' bg2,
             advance background w1 w2 ->
             keeps w2 w' -> fb w' = None ->
             forallb background bg2 = true ->
             emitted w2 w' = (bg2 ++ [EvCamFree])%list ->
             keeps w w' /\ capture_shape (emitted w w') /\
             (In (EvCamGet true) (emitted w w') -> fb w' = None)).
  { intros w2 w' bg2 A2 K' Hnone Hbg2 E'.
    destruct (keeps_step w w1 w2 _ _ K1 E1 (advance_keeps _ _ _ A2) eq_refl)
      as [K2 E2].
    destruct (keeps_step w w2 w' _ _ K2 E2 K' E') as [K E].
    split; [exact K |]. split; [| intros _; exact Hnone].
    rewrite E, <- app_assoc.
    rewrite (app_assoc (emitted w1 w2) bg2 [EvCamFree]). apply capture_frame.
    rewrite forallb_app, (advance_emitted _ _ _ A2), Hbg2. reflexivity. }
  destruct (wifi_connected env (S (S (reads w)))); simpl negb; cbv iota.
  - apply total_bind. apply total_ret. simpl negb. cbv iota.
    eapply total_weaken; [apply (upload_and_free f w1 F1 Hlen) |].
    intros u w' (K' & Hnone & bg2 & Hbg2 & E').
    apply (Hfinish w1 w' bg2); auto using advance_refl.
  - eapply total_quiet_seq with (P := background); [apply connectToWiFi_quiet |].
    intros online w2 A2.
    assert (F2 : fb w2 = Some f) by (rewrite (adv_fb _ _ _ A2); exact F1).
    destruct online; simpl negb; cbv iota.
    + eapply total_weaken; [apply (upload_and_free f w2 F2 Hlen) |].
      intros u w' (K' & Hnone & bg2 & Hbg2 & E').
      apply (Hfinish w2 w' bg2); auto.
    + eapply total_weaken; [apply (signal_offline_and_free w2) |].
      intros u w' (K' & Hnone & bg2 & Hbg2 & E').
      apply (Hfinish w2 w' bg2); auto.
Qed.

End CaptureFacts.

(** ** The status line *)

Module StrFacts.

Import Str.
Local Open Scope string_scope.

Lemma startsWith_iff s p : startsWith s p = true <-> exists post, s = p ++ post.
Proof.
  revert s. induction p as [| a p IH]; intros s; simpl.
  - split; [intros _; exists s; reflexivity | reflexivity].
  - destruct s as [| b s]; simpl.
    + split; [discriminate | intros [post H]; discriminate].
    + rewrite andb_true_iff, IH. split.
      * intros [Hab [post ->]]. apply Ascii.eqb_eq in Hab as ->.
        exists post. reflexivity.
      * intros [post H]. injection H as -> ->.
        split; [apply Ascii.eqb_refl | exists post; reflexivity].
Qed.

Lemma startsWith_contains s p : startsWith s p = true -> contains s p.
Proof.
  intros H. apply startsWith_iff in H as [post ->].
  exists "", post. reflexivity.
Qed.

Lemma contains_cons c s p :
  contains (String c s) p <-> startsWith (String c s) p = true \/ contains s p.
Proof.
  split.
  - intros ([| a pre] & post & H).
    + left. apply startsWith_iff. exists post. exact H.
    + right. simpl in H. injection H as -> ->. exists pre, post. reflexivity.
  - intros [H | (pre & post & ->)].
    + apply startsWith_contains, H.
    + exists (String c pre), post. reflexivity.
Qed.

Lemma contains_empty p : contains "" p -> startsWith "" p = true.
Proof.
  intros (pre & post & H). destruct pre; [| discriminate].
  destruct p; [reflexivity | discriminate].
Qed.

(** [indexOf] finds an occurrence exactly when there is one, and answers 0
    only when the string starts with the pattern. *)
Lemma indexOf_from_spec p s i :
  0 <= i ->
  (indexOf_from i s p = -1 /\ ~ contains s p) \/
  (i <= indexOf_from i s p /\ contains s p /\
   (indexOf_from i s p = i -> startsWith s p = true)).
Proof.
  revert i. induction s as [| c s IH]; intros i Hi.
  - unfold indexOf_from. destruct (startsWith "" p) eqn:Hsw.
    + right. split; [lia |]. split; [apply startsWith_contains, Hsw | auto].
    + left. split; [reflexivity |]. intros Hc.
      apply contains_empty in Hc. congruence.
  - unfold indexOf_from; fold indexOf_from.
    destruct (startsWith (String c s) p) eqn:Hsw.
    + right. split; [lia |]. split; [apply startsWith_contains, Hsw | auto].
    + destruct (IH (i + 1) ltac:(lia)) as [[Hm Hn] | (Hle & Hc & _)].
      * left. split; [exact Hm |]. rewrite contains_cons. intros [H | H]; congruence.
      * right. split; [lia |]. split; [apply contains_cons; auto | intros; lia].
Qed.

Lemma indexOf_positive s p :
  startsWith s p = false -> ((indexOf s p >? 0) = true <-> contains s p).
Proof.
  intros Hsw. unfold indexOf.
  destruct (indexOf_from_spec p s 0 ltac:(lia)) as [[Hm Hn] | (Hle & Hc & Hz)].
  - rewrite Hm. split; [discriminate | intros H; contradiction].
  - split; [intros _; exact Hc | intros _].
    rewrite Z.gtb_ltb. apply Z.ltb_lt.
    assert (indexOf_from 0 s p <> 0) by (intros H0; rewrite (Hz H0) in Hsw; discriminate).
    lia.
Qed.

(** A line that starts with "HTTP/1.1" starts with neither "200" nor
    "201". *)
Lemma http_prefix_not_code line :
  startsWith line "HTTP/1.1" = true ->
  startsWith line "200" = false /\ startsWith line "201" = false.
Proof.
  intros H. apply startsWith_iff in H as [post ->]. split; reflexivity.
Qed.

End StrFacts.

(** The lines of a response, split at line feeds. *)
Fixpoint split_lines (s : string) : list string :=
  match s with
  | EmptyString => []
  | String c s' =>
      if Ascii.eqb c newline then EmptyString :: split_lines s'
      else match split_lines s' with
           | [] => [String c EmptyString]
           | l :: ls => String c l :: ls
           end
  end.

(** The lines through the first blank one. *)
Fixpoint up_to_blank (ls : list string) : list string :=
  match ls with
  | [] => []
  | l :: ls' => if (String.length l =? 0)%nat then [l] else l :: up_to_blank ls'
  end.

(** The status line and header lines of a response, trimmed. *)
Definition header_lines (rx : string) : list string :=
  up_to_blank (map Str.trim (split_lines rx)).

(** The status line: the first line of the response, trimmed. *)
Definition status_line (rx : string) : string :=
  Str.trim (fst (Str.readStringUntil newline rx)).

(** The test that makes a line count as a success status. *)
Definition accepts (line : string) : bool :=
  (Str.startsWith line "HTTP/1.1" &&
   ((Str.indexOf line "200" >? 0) || (Str.indexOf line "201" >? 0)))%bool.

Lemma status_update_accepts line success :
  status_update line success = (success || accepts line)%bool.
Proof.
  unfold status_update, accepts.
  destruct (Str.startsWith line "HTTP/1.1"); simpl.
  - destruct ((Str.indexOf line "200" >? 0) || (Str.indexOf line "201" >? 0))%bool;
      [rewrite orb_true_r | rewrite orb_false_r]; reflexivity.
  - rewrite orb_false_r. reflexivity.
Qed.

Lemma split_lines_read c s :
  split_lines (String c s) =
  fst (Str.readStringUntil newline (String c s))
  :: split_lines (snd (Str.readStringUntil newline (String c s))).
Proof.
  revert c. induction s as [| c' s IH]; intros c.
  - simpl. destruct (Ascii.eqb c newline); reflexivity.
  - change (split_lines (String c (String c' s)))
      with (if Ascii.eqb c newline then EmptyString :: split_lines (String c' s)
            else match split_lines (String c' s) with
                 | [] => [String c EmptyString]
                 | l :: ls => String c l :: ls
                 end).
    change (Str.readStringUntil newline (String c (String c' s)))
      with (if Ascii.eqb c newline then (EmptyString, String c' s)
            else let '(line, rest') := Str.readStringUntil newline (String c' s) in
                 (String c line, rest')).
    destruct (Ascii.eqb c newline); [reflexivity |].
    rewrite (IH c').
    destruct (Str.readStringUntil newline (String c' s)) as [line rest].
    reflexivity.
Qed.

Lemma read_headers_lines fuel rx success :
  (String.length rx < fuel)%nat ->
  exists rest,
    read_headers fuel rx success
    = Some ((success || existsb accepts (header_lines rx))%bool, rest).
Proof.
  revert rx success. induction fuel as [| fuel IH]; intros rx success Hlen; [lia |].
  destruct rx as [| c rx].
  - exists EmptyString. simpl. rewrite orb_false_r. reflexivity.
  - unfold read_headers; fold read_headers.
    unfold header_lines. rewrite split_lines_read.
    pose proof (readStringUntil_shrinks newline (String c rx)) as Hs.
    assert (Hrest : (String.length (snd (Str.readStringUntil newline (String c rx)))
                     < fuel)%nat).
    { simpl. destruct (Ascii.eqb c newline); simpl.
      - simpl in Hlen. lia.
      - pose proof (readStringUntil_shrinks newline rx) as Hs'.
        destruct (Str.readStringUntil newline rx) as [l r]. simpl in *. lia. }
    destruct (Str.readStringUntil newline (String c rx)) as [raw rest].
    cbn [fst snd map up_to_blank] in *.
    rewrite status_update_accepts.
    destruct (String.length (Str.trim raw) =? 0)%nat.
    + exists rest. simpl. rewrite orb_false_r. reflexivity.
    + destruct (IH rest (success || accepts (Str.trim raw))%bool Hrest) as [rest' Hr].
      exists rest'. rewrite Hr. fold (header_lines rest).
      simpl. rewrite orb_assoc. reflexivity.
Qed.

Lemma status_ok_lines rx : status_ok rx = existsb accepts (header_lines rx).
Proof.
  unfold status_ok.
  destruct (read_headers_lines (S (String.length rx)) rx false ltac:(lia)) as [rest Hr].
  rewrite Hr. reflexivity.
Qed.

Lemma status_line_in_headers rx :
  rx <> EmptyString -> In (status_line rx) (header_lines rx).
Proof.
  destruct rx as [| c rx]; [congruence | intros _].
  unfold header_lines, status_line. rewrite split_lines_read.
  cbn [map up_to_blank].
  destruct (String.length _ =? 0)%nat; left; reflexivity.
Qed.

Lemma accepts_iff line :
  accepts line = true <->
  Str.startsWith line "HTTP/1.1" = true /\
  (Str.contains line "200" \/ Str.contains line "201").
Proof.
  unfold accepts. rewrite andb_true_iff, orb_true_iff.
  split; intros [Hp Hc]; (split; [exact Hp |]);
    destruct (StrFacts.http_prefix_not_code line Hp) as [H0 H1];
    rewrite (StrFacts.indexOf_positive line "200" H0) in *;
    rewrite (StrFacts.indexOf_positive line "201" H1) in *; exact Hc.
Qed.

(** ** Consequences of the shape of an upload *)

Lemma In_chunks_full d N i k ptr n r :
  In (EvTlsWrite ptr n r) (chunks_from d N i k) -> r = n.
Proof.
  revert i. induction k as [| k IH]; intros i; [intros [] |].
  rewrite chunks_from_S. intros H. apply in_app_or in H as [H | H].
  - destruct H as [H | [H | []]]; [| discriminate].
    injection H as _ <- <-. reflexivity.
  - exact (IH _ H).
Qed.

Lemma connect_class_not_write l ptr n r :
  forallb connect_class l = true -> ~ In (EvTlsWrite ptr n r) l.
Proof. intros H. eapply forallb_not_In; [exact H | reflexivity]. Qed.

Lemma is_delay_not_write l ptr n r :
  forallb is_delay l = true -> ~ In (EvTlsWrite ptr n r) l.
Proof. intros H. eapply forallb_not_In; [exact H | reflexivity]. Qed.

Definition received (evs : list Event) : list string :=
  flat_map (fun ev => match ev with EvTlsRecv data => [data] | _ => [] end) evs.

Lemma flat_map_none {B} (g : Event -> list B) p l :
  forallb p l = true -> (forall ev, p ev = true -> g ev = []) -> flat_map g l = [].
Proof.
  intros Hall Hg. induction l as [| ev l IH]; [reflexivity |].
  simpl in Hall. apply andb_true_iff in Hall as [Hev Hl].
  simpl. rewrite (Hg ev Hev), (IH Hl). reflexivity.
Qed.

Lemma received_In evs rx : In (EvTlsRecv rx) evs -> In rx (received evs).
Proof.
  intros H. unfold received. apply in_flat_map.
  exists (EvTlsRecv rx). split; [exact H | left; reflexivity].
Qed.

Lemma received_app l1 l2 : received (l1 ++ l2) = (received l1 ++ received l2)%list.
Proof. unfold received. apply flat_map_app. Qed.

Lemma received_connect cs : forallb connect_class cs = true -> received cs = [].
Proof.
  intros H. unfold received. apply (flat_map_none _ connect_class); [exact H |].
  intros ev Hev. destruct ev; try reflexivity; discriminate.
Qed.

Lemma received_delays ds : forallb is_delay ds = true -> received ds = [].
Proof.
  intros H. unfold received. apply (flat_map_none _ is_delay); [exact H |].
  intros ev Hev. destruct ev; try reflexivity; discriminate.
Qed.

Lemma received_chunks d N i k : received (chunks_from d N i k) = [].
Proof.
  revert i. induction k as [| k IH]; intros i; [reflexivity |].
  rewrite chunks_from_S, received_app, IH. reflexivity.
Qed.

Section ShapeFacts.

Variable env : Env.

Lemma send_shape_short_received d N ws :
  send_shape env d N 0 false ws -> received ws = [].
Proof.
  intros (j & k & _ & _ & ->). rewrite received_app, received_chunks. reflexivity.
Qed.

(** The response an upload received, if any, and its verdict. *)
Lemma upload_shape_received d N f w o evs :
  upload_shape env d N f w o evs ->
  received evs = [] \/
  exists rx, rx <> EmptyString /\ received evs = [rx] /\
             o = if status_ok rx then Uploaded else Rejected.
Proof.
  intros [Hoff | Hup Hbad | cs Hs [Hcs _] | cs ws Hs [Hcs _] Hws
          | cs ds Hs [Hcs _] Hds | cs ds rx Hs [Hcs _] Hds Hrx].
  - left. reflexivity.
  - left. reflexivity.
  - left. apply received_connect, Hcs.
  - left. rewrite received_app, (received_connect _ Hcs).
    simpl. apply (send_shape_short_received _ _ _ Hws).
  - left. rewrite received_app, (received_connect _ Hcs). simpl.
    change (received (chunks_from d N 0 (chunk_count N) ++ ds ++ [EvTlsStop]) = []).
    rewrite !received_app, received_chunks, (received_delays _ Hds). reflexivity.
  - right. exists rx. split; [exact Hrx |]. split; [| reflexivity].
    rewrite received_app, (received_connect _ Hcs). simpl.
    change (received (chunks_from d N 0 (chunk_count N) ++ ds ++
                      [EvTlsRecv rx; EvTlsStop]) = [rx]).
    rewrite !received_app, received_chunks, (received_delays _ Hds). reflexivity.
Qed.

(** Past the entry guards, the first thing an upload does is
    [client.connect]. *)
Lemma upload_shape_connects d N f w o evs :
  upload_shape env d N f w o evs -> upload_starts env d N w ->
  exists ok rest, evs = EvTlsConnect ok :: rest.
Proof.
  intros Hshape (Hup & Hd & HN).
  destruct Hshape as [Hoff | _ Hbad | cs _ [_ (ok & rest & ->)]
                      | cs ws _ [_ (ok & rest & ->)] _
                      | cs ds _ [_ (ok & rest & ->)] _
                      | cs ds rx _ [_ (ok & rest & ->)] _ _].
  - congruence.
  - destruct Hbad; contradiction.
  - eauto.
  - simpl. eauto.
  - simpl. eauto.
  - simpl. eauto.
Qed.

End ShapeFacts.

(** Result and trace of a run, for statements about concrete runs. *)
Definition outcome_of {A} (r : option (A * World)) : option A := option_map fst r.

Definition events_of {A} (r : option (A * World)) : list Event :=
  match r with Some (_, w') => trace w' | None => [] end.

(** A frame of length 0 or above 500000 is released by [takePhoto], and
    [takeAndUploadPhoto] ends without touching the network. *)
Lemma bad_length_is_rejected env w frame :
  20000 <= free_heap env (reads w) ->
  fb_get env (S (reads w)) = Some frame ->
  len frame = 0%N \/ (500000 < len frame)%N ->
  exists w',
    takeAndUploadPhoto env w = Some (tt, w') /\
    emitted w w' = [EvTakeAndUpload; EvLed true; EvCamGet true; EvCamFree; EvLed false].
Proof.
  intros Hheap Hget Hbad.
  assert (Hh : (free_heap env (reads w) <? 20000) = false) by (apply Z.ltb_ge; lia).
  assert (Ht : total (takeAndUploadPhoto env) w
                 (fun _ w' => emitted w w' =
                    [EvTakeAndUpload; EvLed true; EvCamGet true; EvCamFree; EvLed false])).
  { unfold takeAndUploadPhoto, takePhoto. repeat step. tidy. rewrite Hh.
    unfold Camera_get. repeat step. tidy. rewrite Hget. cbn [is_some].
    apply total_bind. eapply total_Camera_fb; [reflexivity |].
    destruct (Z.eqb_spec (Z.of_N (len frame)) 0) as [Hz | Hz].
    - repeat step. emitted_now. reflexivity.
    - assert (Hbig : (Z.of_N (len frame) >? 500000) = true).
      { rewrite Z.gtb_ltb. apply Z.ltb_lt. destruct Hbad as [H0 | Hgt]; [| lia].
        rewrite H0 in Hz. contradiction. }
      rewrite Hbig. repeat step. emitted_now. reflexivity. }
  destruct Ht as ([] & w' & Hrun & He). exists w'. split; assumption.
Qed.

Lemma background_not_cam_get ev : background ev = true -> is_cam_get ev = false.
Proof. destruct ev; simpl; congruence. Qed.

Lemma background_not_cam_free ev : background ev = true -> is_cam_free ev = false.
Proof. destruct ev; simpl; congruence. Qed.

Lemma capture_shape_counts evs :
  capture_shape evs ->
  (count is_cam_get evs <= 1)%nat /\
  (In (EvCamGet true) evs -> count is_cam_free evs = 1%nat) /\
  (~ In (EvCamGet true) evs -> count is_cam_free evs = 0%nat).
Proof.
  intros [| | | bg Hbg].
  - simpl. repeat split; auto; intuition discriminate.
  - simpl. repeat split; auto; intuition discriminate.
  - simpl. repeat split; auto. intros H. exfalso. apply H. simpl. auto.
  - rewrite !count_app.
    rewrite (count_none is_cam_get background bg Hbg background_not_cam_get).
    rewrite (count_none is_cam_free background bg Hbg background_not_cam_free).
    simpl. repeat split; auto.
    intros H. exfalso. apply H. simpl. auto.
Qed.

(** ** The control loop *)

Definition is_deep_sleep (ev : Event) : bool :=
  match ev with EvDeepSleep => true | _ => false end.

Lemma capture_shape_facts evs :
  capture_shape evs ->
  count is_capture evs = 1%nat /\
  count is_light_sleep evs = 0%nat /\
  count is_deep_sleep evs = 0%nat.
Proof.
  intros [| | | bg Hbg]; try (repeat split; reflexivity).
  rewrite !count_app.
  rewrite (count_none is_capture background bg Hbg),
          (count_none is_light_sleep background bg Hbg),
          (count_none is_deep_sleep background bg Hbg);
    try (intros ev; destruct ev; simpl; congruence).
  repeat split; reflexivity.
Qed.

(** How long the button has been down, as [loop] computes it. *)
Definition held_for (w : World) : Z :=
  U32.sub (U32.wrap (now w)) (buttonPressTime w).

(** [timeSinceLastPhoto], as [loop] computes it. *)
Definition since_last_photo (w : World) : Z :=
  U32.sub (U32.wrap (now w)) (lastPhotoTime w).

(** The warning blinks of [loop] followed by [handleShutdown]. *)
Definition shutdown_events : list Event :=
  (List.concat (repeat [EvLed true; EvDelay 200; EvLed false; EvDelay 200] 8) ++
   [EvWifiDisconnect; EvWifiMode false; EvCamDeinit; EvDelay 1000;
    EvExt0Wakeup; EvDelay 500; EvDeepSleep])%list.

Definition light_sleep_events : list Event :=
  [EvWifiSetSleep true; EvTimerWakeup 30000000; EvLightSleep; EvWifiSetSleep false].

(** What a block of [loop] never touches besides what its case says. *)
Record tick_keeps (w w' : World) : Prop := mk_tick_keeps {
  tk_now : now w <= now w';
  tk_trace : trace w' = (trace w ++ emitted w w')%list
}.

Lemma tick_keeps_of_trace w w' evs :
  now w <= now w' -> trace w' = (trace w ++ evs)%list -> tick_keeps w w'.
Proof.
  intros Hn Ht. constructor; [exact Hn |].
  rewrite (emitted_app w w' evs Ht). exact Ht.
Qed.

Lemma tick_keeps_trans w w1 w2 :
  tick_keeps w w1 -> tick_keeps w1 w2 ->
  tick_keeps w w2 /\ emitted w w2 = (emitted w w1 ++ emitted w1 w2)%list.
Proof.
  intros [n1 t1] [n2 t2].
  assert (Ht : trace w2 = (trace w ++ emitted w w1 ++ emitted w1 w2)%list)
    by (rewrite t2, t1, app_assoc; reflexivity).
  split; [| apply emitted_app, Ht].
  eapply tick_keeps_of_trace; [lia | exact Ht].
Qed.

Ltac tick_keeps_now :=
  eapply tick_keeps_of_trace;
  [ cbn; lia
  | cbn [trace set_trace set_now set_reads set_led set_fb set_asleep
         set_lastPhotoTime set_buttonPressTime set_buttonPressed
         set_lastSystemDebugTime];
    rewrite <- ?app_assoc; first [reflexivity | symmetry; apply app_nil_r] ].

Section LoopFacts.

Variable PHOTO_INTERVAL_HOURS : Z.
Variable env : Env.

(** The six ways through the button block of [loop]. *)
Inductive button_step (w : World) : bool -> World -> Prop :=
| press_begins w1 :
    button_high env (reads w) = false -> buttonPressed w = false ->
    buttonPressed w1 = true -> buttonPressTime w1 = U32.wrap (now w) ->
    asleep w1 = asleep w ->
    emitted w w1 = [EvLed true; EvDelay 100; EvLed false] ->
    button_step w true w1
| press_held w1 :
    button_high env (reads w) = false -> buttonPressed w = true ->
    held_for w <= 3000 ->
    buttonPressed w1 = true -> buttonPressTime w1 = buttonPressTime w ->
    asleep w1 = asleep w -> emitted w w1 = [] ->
    button_step w true w1
| long_press w1 :
    button_high env (reads w) = false -> buttonPressed w = true ->
    3000 < held_for w ->
    asleep w1 = true -> emitted w w1 = shutdown_events ->
    button_step w false w1
| short_release w1 :
    button_high env (reads w) = true -> buttonPressed w = true ->
    held_for w < 3000 ->
    buttonPressed w1 = false -> asleep w1 = asleep w ->
    capture_shape (emitted w w1) ->
    button_step w true w1
| late_release w1 :
    button_high env (reads w) = true -> buttonPressed w = true ->
    3000 <= held_for w ->
    buttonPressed w1 = false -> asleep w1 = asleep w -> emitted w w1 = [] ->
    button_step w true w1
| no_press w1 :
    button_high env (reads w) = true -> buttonPressed w = false ->
    buttonPressed w1 = false -> asleep w1 = asleep w -> emitted w w1 = [] ->
    button_step w true w1.

Lemma loop_button_spec w :
  total (loop_button env) w
    (fun continue w1 =>
       button_step w continue w1 /\ tick_keeps w w1 /\
       lastPhotoTime w1 = lastPhotoTime w /\
       lastSystemDebugTime w1 = lastSystemDebugTime w).
Proof.
  unfold loop_button. repeat step. tidy.
  destruct (button_high env (reads w)) eqn:Hhigh; simpl negb; cbv iota.
  - destruct (buttonPressed w) eqn:Hpressed.
    + repeat step. tidy. fold (held_for w).
      destruct (held_for w <? 3000) eqn:Hheld.
      * apply Z.ltb_lt in Hheld.
        eapply total_weaken; [apply takeAndUploadPhoto_spec |].
        intros u w1 (K & Hshape & _). repeat step.
        assert (E : emitted w (set_buttonPressed false w1)
                    = emitted (set_reads (S (reads w)) w) w1) by reflexivity.
        destruct K as [k1 k2 k3 k4 k5 k6 k7].
        split; [| split; [| split; [exact k2 | exact k5]]].
        -- apply short_release; auto.
        -- constructor; [exact k6 |]. rewrite E. exact k7.
      * apply Z.ltb_ge in Hheld. repeat step.
        split; [| split; [tick_keeps_now | split; reflexivity]].
        apply late_release; auto. emitted_now. reflexivity.
    + repeat step.
      split; [| split; [tick_keeps_now | split; reflexivity]].
      apply no_press; auto. emitted_now. reflexivity.
  - destruct (buttonPressed w) eqn:Hpressed; simpl negb; cbv iota.
    + repeat step. tidy. fold (held_for w).
      destruct (held_for w >? 3000) eqn:Hheld.
      * rewrite Z.gtb_ltb in Hheld. apply Z.ltb_lt in Hheld.
        unfold handleShutdown. steps.
        split; [| split; [tick_keeps_now | split; reflexivity]].
        apply long_press; auto. emitted_now. reflexivity.
      * rewrite Z.gtb_ltb in Hheld. apply Z.ltb_ge in Hheld.
        repeat step.
        split; [| split; [tick_keeps_now | split; reflexivity]].
        apply press_held; auto. emitted_now. reflexivity.
    + repeat step.
      split; [| split; [tick_keeps_now | split; reflexivity]].
      apply press_begins; auto. emitted_now. reflexivity.
Qed.

(** The three ways through the timer block of [loop]. *)
Inductive timer_step (w : World) : World -> Prop :=
| capture_due w1 :
    PHOTO_INTERVAL PHOTO_INTERVAL_HOURS <= since_last_photo w ->
    capture_shape (emitted w w1) ->
    lastPhotoTime w1 = U32.wrap (now w1) ->
    timer_step w w1
| idle_window w1 :
    since_last_photo w < PHOTO_INTERVAL PHOTO_INTERVAL_HOURS ->
    60000 < U32.sub (PHOTO_INTERVAL PHOTO_INTERVAL_HOURS) (since_last_photo w) ->
    emitted w w1 = light_sleep_events ->
    lastPhotoTime w1 = lastPhotoTime w ->
    timer_step w w1
| capture_soon w1 :
    since_last_photo w < PHOTO_INTERVAL PHOTO_INTERVAL_HOURS ->
    U32.sub (PHOTO_INTERVAL PHOTO_INTERVAL_HOURS) (since_last_photo w) <= 60000 ->
    emitted w w1 = [] ->
    lastPhotoTime w1 = lastPhotoTime w ->
    timer_step w w1.

Lemma loop_timer_spec w :
  total (loop_timer PHOTO_INTERVAL_HOURS env) w
    (fun _ w1 =>
       timer_step w w1 /\ tick_keeps w w1 /\
       asleep w1 = asleep w /\ buttonPressed w1 = buttonPressed w /\
       buttonPressTime w1 = buttonPressTime w /\
       lastSystemDebugTime w1 = lastSystemDebugTime w).
Proof.
  unfold loop_timer. repeat step. fold (since_last_photo w).
  destruct (since_last_photo w >=? PHOTO_INTERVAL PHOTO_INTERVAL_HOURS) eqn:Hdue.
  - apply Z.geb_le in Hdue.
    eapply total_seq; [apply takeAndUploadPhoto_spec |].
    intros u w1 (K & Hshape & _). repeat step.
    assert (E : emitted w (set_lastPhotoTime (U32.wrap (now w1)) w1) = emitted w w1)
      by reflexivity.
    destruct K as [k1 k2 k3 k4 k5 k6 k7].
    split; [| split; [| repeat split; assumption]].
    + apply capture_due; [exact Hdue | rewrite E; exact Hshape | reflexivity].
    + constructor; [exact k6 |]. rewrite E. exact k7.
  - assert (Hnot : since_last_photo w < PHOTO_INTERVAL PHOTO_INTERVAL_HOURS).
    { rewrite Z.geb_leb in Hdue. apply Z.leb_gt in Hdue. exact Hdue. }
    destruct (U32.sub (PHOTO_INTERVAL PHOTO_INTERVAL_HOURS) (since_last_photo w)
              >? 60000) eqn:Hidle; rewrite Z.gtb_ltb in Hidle.
    + apply Z.ltb_lt in Hidle.
      unfold enterLightSleep, esp_light_sleep_start. repeat step.
      split; [| split; [| repeat split; reflexivity]].
      * apply idle_window; auto. emitted_now. reflexivity.
      * eapply tick_keeps_of_trace.
        -- cbn. lia.
        -- cbn [trace set_trace set_now set_reads]. rewrite <- !app_assoc. reflexivity.
    + apply Z.ltb_ge in Hidle. repeat step.
      split; [| split; [tick_keeps_now | repeat split; reflexivity]].
      apply capture_soon; auto. emitted_now. reflexivity.
Qed.

End LoopFacts.

Lemma count_light_sleep_In evs :
  In EvLightSleep evs <-> count is_light_sleep evs <> 0%nat.
Proof.
  unfold count. induction evs as [| ev evs IH]; simpl.
  - split; [intros [] | congruence].
  - destruct ev; simpl;
      try (rewrite <- IH; split; [intros [H | H]; [discriminate | exact H] | auto]).
    split; [intros _; discriminate | auto].
Qed.

Section TickFacts.

Variable PHOTO_INTERVAL_HOURS : Z.
Variable env : Env.

Lemma loop_unfold w continue w1 :
  loop_button env w = Some (continue, w1) ->
  loop PHOTO_INTERVAL_HOURS env w
  = (if continue
     then loop_timer PHOTO_INTERVAL_HOURS env ;; loop_debug ;; delay 100
     else ret tt) w1.
Proof. intros H. unfold loop. unfold bind at 1. rewrite H. reflexivity. Qed.

(** The status block and the closing [delay(100)]. *)
Lemma loop_rest_spec w :
  total (loop_debug ;; delay 100) w
    (fun _ w' =>
       tick_keeps w w' /\ emitted w w' = [EvDelay 100] /\
       lastPhotoTime w' = lastPhotoTime w /\ asleep w' = asleep w /\
       buttonPressed w' = buttonPressed w /\
       buttonPressTime w' = buttonPressTime w).
Proof.
  unfold loop_debug. steps.
  destruct (U32.sub (U32.wrap (now w)) (lastSystemDebugTime w) >? 300000); steps;
    (split; [tick_keeps_now | split; [emitted_now; reflexivity | repeat split]]).
Qed.

(** A tick, block by block. *)
Inductive tick (w w' : World) : Prop :=
| tick_shutdown :
    loop_button env w = Some (false, w') ->
    button_step env w false w' ->
    lastPhotoTime w' = lastPhotoTime w ->
    tick w w'
| tick_through w1 w2 :
    loop_button env w = Some (true, w1) ->
    button_step env w true w1 -> tick_keeps w w1 ->
    lastPhotoTime w1 = lastPhotoTime w ->
    loop_timer PHOTO_INTERVAL_HOURS env w1 = Some (tt, w2) ->
    timer_step PHOTO_INTERVAL_HOURS w1 w2 -> tick_keeps w1 w2 ->
    buttonPressed w2 = buttonPressed w1 -> asleep w2 = asleep w1 ->
    tick_keeps w2 w' -> emitted w2 w' = [EvDelay 100] ->
    lastPhotoTime w' = lastPhotoTime w2 ->
    buttonPressed w' = buttonPressed w2 -> asleep w' = asleep w2 ->
    tick w w'.

Theorem loop_spec w :
  exists w', loop PHOTO_INTERVAL_HOURS env w = Some (tt, w') /\ tick w w'.
Proof.
  destruct (loop_button_spec env w)
    as (continue & w1 & Hb & Hstep & Hk1 & Hlast1 & _).
  rewrite (loop_unfold w continue w1 Hb).
  destruct continue.
  - destruct (loop_timer_spec PHOTO_INTERVAL_HOURS env w1)
      as ([] & w2 & Ht & Htimer & Hk2 & Ha2 & Hp2 & _).
    destruct (loop_rest_spec w2) as ([] & w' & Hr & Hk3 & He3 & Hl3 & Ha3 & Hp3 & _).
    exists w'. split.
    + unfold bind at 1. rewrite Ht. exact Hr.
    + eapply tick_through; eauto.
  - exists w1. split; [reflexivity |]. apply tick_shutdown; assumption.
Qed.

Lemma button_step_counts w continue w1 :
  button_step env w continue w1 ->
  count is_light_sleep (emitted w w1) = 0%nat /\
  (count is_capture (emitted w w1) <= 1)%nat /\
  (button_high env (reads w) = true -> buttonPressed w = false ->
   count is_capture (emitted w w1) = 0%nat).
Proof.
  intros [w0 Hh Hp _ _ _ E | w0 Hh Hp _ _ _ _ E | w0 Hh Hp _ _ E
          | w0 Hh Hp _ _ _ Hshape | w0 Hh Hp _ _ _ E | w0 Hh Hp _ _ E];
    try (rewrite E; repeat split; auto; congruence).
  destruct (capture_shape_facts _ Hshape) as (Hc & Hl & _).
  rewrite Hc, Hl. repeat split; auto. congruence.
Qed.

Lemma timer_step_counts w1 w2 :
  timer_step PHOTO_INTERVAL_HOURS w1 w2 ->
  (PHOTO_INTERVAL PHOTO_INTERVAL_HOURS <= since_last_photo w1 ->
   count is_capture (emitted w1 w2) = 1%nat /\
   count is_light_sleep (emitted w1 w2) = 0%nat /\
   lastPhotoTime w2 = U32.wrap (now w2)) /\
  (since_last_photo w1 < PHOTO_INTERVAL PHOTO_INTERVAL_HOURS ->
   count is_capture (emitted w1 w2) = 0%nat /\
   lastPhotoTime w2 = lastPhotoTime w1 /\
   (count is_light_sleep (emitted w1 w2) <= 1)%nat /\
   (count is_light_sleep (emitted w1 w2) <> 0%nat <->
    60000 < U32.sub (PHOTO_INTERVAL PHOTO_INTERVAL_HOURS) (since_last_photo w1))).
Proof.
  intros [w0 Hdue Hshape Hlast | w0 Hnot Hidle E Hlast | w0 Hnot Hsoon E Hlast].
  - destruct (capture_shape_facts _ Hshape) as (Hc & Hl & _).
    split; [intros _; auto | intros; lia].
  - split; [intros; lia | intros _]. rewrite E.
    repeat split; auto; unfold count; simpl; try congruence; try lia.
  - split; [intros; lia | intros _]. rewrite E.
    repeat split; auto; unfold count; simpl; try congruence; try lia.
Qed.

End TickFacts.

Lemma button_step_false env w w1 :
  button_step env w false w1 ->
  button_high env (reads w) = false /\ buttonPressed w = true /\
  3000 < held_for w /\ asleep w1 = true /\ emitted w w1 = shutdown_events.
Proof. intros H. inversion H; subst; auto. Qed.

Lemma tick_through_emitted w w1 w2 w' :
  tick_keeps w w1 -> tick_keeps w1 w2 -> tick_keeps w2 w' ->
  emitted w w' = (emitted w w1 ++ emitted w1 w2 ++ emitted w2 w')%list.
Proof.
  intros K1 K2 K3.
  destruct (tick_keeps_trans _ _ _ K1 K2) as [K12 E12].
  destruct (tick_keeps_trans _ _ _ K12 K3) as [_ E].
  rewrite E, E12, <- app_assoc. reflexivity.
Qed.

Lemma wrap_sub_self z : U32.sub (U32.wrap z) (U32.wrap z) = 0.
Proof. rewrite U32.sub_wrap_wrap, Z.sub_diag. reflexivity. Qed.

Lemma count_deep_sleep_In evs :
  count is_deep_sleep evs <> 0%nat -> In EvDeepSleep evs.
Proof.
  unfold count. induction evs as [| ev evs IH]; simpl; [congruence |].
  destruct ev; simpl; auto.
Qed.

(** ** Startup *)

(** Anything but a call of [takeAndUploadPhoto]. *)
Definition no_capture (ev : Event) : bool := negb (is_capture ev).

Lemma background_no_capture ev : background ev = true -> no_capture ev = true.
Proof. unfold no_capture. destruct ev; simpl; congruence. Qed.

(** What [setup] does when the camera does not initialise: LED on, the
    failed [begin], then ten toggles 200 ms apart. *)
Definition init_failure_events : list Event :=
  EvLed true :: EvCamBegin false ::
  List.concat (repeat [EvLed false; EvDelay 200; EvLed true; EvDelay 200] 5).

Section SetupFacts.

Variable env : Env.

Lemma time_sync_quiet n timeoutCount :
  quietly no_capture (time_sync env n timeoutCount).
Proof.
  revert timeoutCount. induction n as [| n IH]; intros timeoutCount; simpl time_sync.
  - apply quietly_bind; [apply quietly_observe | intros lt].
    destruct (is_some lt); apply quietly_ret.
  - apply quietly_bind; [apply quietly_observe | intros lt].
    destruct (is_some lt); [apply quietly_ret |].
    apply quietly_bind; [apply quietly_delay; [reflexivity | lia] | intros _].
    apply IH.
Qed.

Lemma setup_spec w :
  total (setup env) w
    (fun _ w' =>
       asleep w' = asleep w /\
       count is_capture (emitted w w') = 0%nat /\
       (camera_begin env (reads w) = false ->
        emitted w w' = init_failure_events /\
        lastPhotoTime w' = lastPhotoTime w /\ now w' = now w + 2000) /\
       (camera_begin env (reads w) = true ->
        lastPhotoTime w' = U32.wrap (now w'))).
Proof.
  unfold setup. steps.
  destruct (camera_begin env (reads w)) eqn:Hbegin; cbn [negb].
  - steps.
    set (w0 := set_trace _ _).
    assert (A0 : advance no_capture w w0) by (subst w0; advance_now).
    eapply total_quiet_seq with (P := no_capture).
    { eapply quietly_weaken; [apply background_no_capture | apply connectToWiFi_quiet]. }
    intros online w1 A1.
    eapply total_quiet_seq with (P := no_capture).
    { destruct online; cbn [negb]; [| apply quietly_ret].
      apply quietly_bind; [apply quietly_emit; reflexivity | intros _].
      apply quietly_bind; [apply time_sync_quiet | intros timeoutCount].
      destruct (timeoutCount <? 10); [| apply quietly_ret].
      apply quietly_bind; [apply getFormattedTimestamp_quiet | intros _].
      apply quietly_ret. }
    intros u2 w2 A2.
    eapply total_quiet_seq with (P := no_capture).
    { apply quietly_led. reflexivity. }
    intros u3 w3 A3.
    eapply total_quiet_seq with (P := no_capture).
    { apply quietly_blink; [apply background_no_capture | lia | lia]. }
    intros u4 w4 A4. steps.
    assert (A : advance no_capture w w4).
    { eapply advance_trans; [exact A0 |]. eapply advance_trans; [exact A1 |].
      eapply advance_trans; [exact A2 |]. eapply advance_trans; eauto. }
    split; [apply (adv_asleep _ _ _ A) |].
    split; [| split; [discriminate | reflexivity]].
    erewrite emitted_app.
    2:{ cbn [trace set_trace set_lastPhotoTime].
        rewrite (advance_trace _ _ _ A), <- app_assoc. reflexivity. }
    rewrite count_app.
    rewrite (count_none is_capture no_capture _ (advance_emitted _ _ _ A)).
    + reflexivity.
    + intros ev Hev. unfold no_capture in Hev. destruct (is_capture ev); [discriminate | reflexivity].
  - do 11 (steps; cbn [negb]).
    split; [reflexivity |]. emitted_now.
    split; [reflexivity |]. split; [| discriminate].
    intros _. split; [reflexivity |]. split; [reflexivity | lia].
Qed.

End SetupFacts.

(** ** Sample surroundings for concrete runs *)

Definition CR : ascii := Ascii.ascii_of_nat 13.
Definition LF : ascii := Ascii.ascii_of_nat 10.
Definition CRLF : string := String CR (String LF EmptyString).

(** Button released, WiFi up, the camera initialises, the clock is not
    synchronised, the socket connects and takes every byte; the free heap,
    the frame the sensor delivers and the server's reply (there on the
    first poll) are given. *)
Definition env_with (heap : Z) (frame : option camera_fb_t) (reply : string) : Env :=
  mkEnv (fun _ => true) (fun _ => true) (fun _ => heap) (fun _ => true)
        (fun _ => frame) (fun _ => None) (fun _ => true)
        (fun _ n => n) (fun _ => reply) (fun _ => 30000).

Definition ok_reply : string := ("HTTP/1.1 200 OK" ++ CRLF ++ CRLF)%string.

(** Everything works: plenty of heap, a 2500-byte frame at address 1000,
    and a 200 reply. *)
Definition nominal_env : Env := env_with 100000 (Some (mk_fb 1000 2500)) ok_reply.

Definition low_heap_env : Env := env_with 19999 (Some (mk_fb 1000 2500)) ok_reply.

(** As [env_with] with a working camera and a 2500-byte frame, but the
    clock is synchronised, the button follows [button] (by observation
    number; [setup] makes observations 0 to 4, so the first tick of
    [loop] reads the button at number 5) and a light sleep lasts [sleep]
    ms. *)
Definition synced_env (button : nat -> bool) (sleep : Z) : Env :=
  mkEnv button (fun _ => true) (fun _ => 100000) (fun _ => true)
        (fun _ => Some (mk_fb 1000 2500)) (fun _ => Some "20250724_120000"%string)
        (fun _ => true) (fun _ n => n) (fun _ => ok_reply) (fun _ => sleep).

(** Reset, [setup], then [ticks] calls of [loop]. *)
Definition power_on (hours : Z) (env : Env) (ticks : nat) : option (unit * World) :=
  bind (setup env) (fun _ => run_loop hours env ticks) boot.

(** What [setup] does in [synced_env]; it ends at 1800 ms. *)
Definition startup_events : list Event :=
  [EvLed true; EvCamBegin true; EvCamConfig; EvWifiMode true;
   EvWifiSetSleep false; EvWifiBegin; EvConfigTime; EvLed false;
   EvLed true; EvDelay 300; EvLed false; EvDelay 300;
   EvLed true; EvDelay 300; EvLed false; EvDelay 300;
   EvLed true; EvDelay 300; EvLed false; EvDelay 300; EvExt0Wakeup].

Definition is_tls (ev : Event) : bool :=
  match ev with
  | EvTlsConnect _ | EvTlsPrint _ _ | EvTlsWrite _ _ _ | EvTlsRecv _ | EvTlsStop => true
  | _ => false
  end.

(** The button is down at every read. *)
Definition hold_env : Env :=
  mkEnv (fun _ => false) (fun _ => true) (fun _ => 100000) (fun _ => true)
        (fun _ => Some (mk_fb 1000 2500)) (fun _ => None) (fun _ => true)
        (fun _ n => n) (fun _ => ok_reply) (fun _ => 30000).

(** The camera never initialises; everything else works and the button
    is left alone. *)
Definition broken_camera_env : Env :=
  mkEnv (fun _ => true) (fun _ => true) (fun _ => 100000) (fun _ => false)
        (fun _ => None) (fun _ => None) (fun _ => true)
        (fun _ n => n) (fun _ => ok_reply) (fun _ => 30000).

(** ** Runs, event by event *)

(** Milliseconds of [delay()] requested by a list of events. *)
Definition delay_total (evs : list Event) : Z :=
  fold_right (fun ev acc => match ev with EvDelay ms => ms + acc | _ => acc end) 0 evs.

Lemma delay_total_app l1 l2 :
  delay_total (l1 ++ l2) = delay_total l1 + delay_total l2.
Proof.
  induction l1 as [| ev l1 IH]; [reflexivity |].
  simpl. rewrite IH. destruct ev; lia.
Qed.

Lemma delay_total_repeat ms j :
  delay_total (repeat (EvDelay ms) j) = ms * Z.of_nat j.
Proof.
  induction j as [| j IH]; [simpl; lia |].
  cbn [repeat delay_total fold_right]. fold (delay_total (repeat (EvDelay ms) j)).
  rewrite IH. lia.
Qed.

Lemma count_repeat p ev j :
  count p (repeat ev j) = if p ev then j else 0%nat.
Proof.
  unfold count. induction j as [| j IH]; simpl.
  - destruct (p ev); reflexivity.
  - destruct (p ev); simpl; rewrite IH; reflexivity.
Qed.

Lemma forallb_repeat (p : Event -> bool) ev j :
  p ev = true -> forallb p (repeat ev j) = true.
Proof. intros H. induction j as [| j IH]; simpl; [| rewrite H, IH]; reflexivity. Qed.

(** *** [takePhoto] *)

(** What [takePhoto] accepts: a non-empty frame of at most 500000 bytes
    with a buffer. *)
Definition valid_frame (f : camera_fb_t) : Prop :=
  0 < Z.of_N (len f) <= 500000 /\ buf f <> 0.

Inductive photo_taken (env : Env) (w : World) : bool -> World -> Prop :=
| photo_low_heap w' :
    free_heap env (reads w) < 20000 ->
    fb w' = fb w -> emitted w w' = [] ->
    photo_taken env w false w'
| photo_no_frame w' :
    20000 <= free_heap env (reads w) ->
    fb_get env (S (reads w)) = None ->
    fb w' = None -> emitted w w' = [EvCamGet false] ->
    photo_taken env w false w'
| photo_bad_frame f w' :
    20000 <= free_heap env (reads w) ->
    fb_get env (S (reads w)) = Some f -> ~ valid_frame f ->
    fb w' = None -> emitted w w' = [EvCamGet true; EvCamFree] ->
    photo_taken env w false w'
| photo_ok f w' :
    20000 <= free_heap env (reads w) ->
    fb_get env (S (reads w)) = Some f -> valid_frame f ->
    fb w' = Some f -> emitted w w' = [EvCamGet true] ->
    reads w' = S (S (reads w)) -> now w' = now w ->
    photo_taken env w true w'.

Lemma takePhoto_run env w :
  total (takePhoto env) w
    (fun ok w' => photo_taken env w ok w' /\ keeps w w' /\ led w' = led w).
Proof.
  unfold takePhoto. steps.
  destruct (free_heap env (reads w) <? 20000) eqn:Hheap.
  { apply Z.ltb_lt in Hheap. steps.
    split; [| split; [keeps_now | reflexivity]].
    apply photo_low_heap; auto. emitted_now. reflexivity. }
  apply Z.ltb_ge in Hheap.
  unfold Camera_get. steps.
  destruct (fb_get env (S (reads w))) as [f |] eqn:Hget; cbn [is_some].
  2:{ steps. split; [| split; [keeps_now | reflexivity]].
      apply photo_no_frame; auto. emitted_now. reflexivity. }
  apply total_bind. eapply total_Camera_fb; [reflexivity |].
  destruct (Z.eqb_spec (Z.of_N (len f)) 0) as [Hz | Hz].
  { unfold Camera_free. steps. split; [| split; [keeps_now | reflexivity]].
    eapply photo_bad_frame; eauto.
    - unfold valid_frame. lia.
    - emitted_now. reflexivity. }
  destruct (Z.of_N (len f) >? 500000) eqn:Hbig.
  { rewrite Z.gtb_ltb in Hbig. apply Z.ltb_lt in Hbig.
    unfold Camera_free. steps. split; [| split; [keeps_now | reflexivity]].
    eapply photo_bad_frame; eauto.
    - unfold valid_frame. lia.
    - emitted_now. reflexivity. }
  rewrite Z.gtb_ltb in Hbig. apply Z.ltb_ge in Hbig.
  destruct (Z.eqb_spec (buf f) 0) as [Hnull | Hnull].
  { unfold Camera_free. steps. split; [| split; [keeps_now | reflexivity]].
    eapply photo_bad_frame; eauto.
    - unfold valid_frame. tauto.
    - emitted_now. reflexivity. }
  steps. split; [| split; [keeps_now | reflexivity]].
  eapply photo_ok; eauto.
  - unfold valid_frame. lia.
  - emitted_now. reflexivity.
Qed.

(** *** [connectToWiFi] *)

Definition is_wifi_begin (ev : Event) : bool :=
  match ev with EvWifiBegin => true | _ => false end.

(** What [connectToWiFi] may do. *)
Definition wifi_class (ev : Event) : bool :=
  match ev with
  | EvWifiMode _ | EvWifiSetSleep _ | EvWifiBegin | EvDelay _ => true
  | _ => false
  end.

Lemma is_delay_wifi_class ev : is_delay ev = true -> wifi_class ev = true.
Proof. destruct ev; simpl; congruence. Qed.

Lemma wifi_class_background ev : wifi_class ev = true -> background ev = true.
Proof. destruct ev; simpl; congruence. Qed.

(** The attempts of [connectToWiFi] with [n] of them left: [WiFi.begin],
    up to thirty 500 ms polls, and 5 s of back-off before every attempt
    but the first. *)
Inductive wifi_tries : nat -> bool -> list Event -> Prop :=
| tries_over : wifi_tries 0 false []
| tries_up n j :
    (j <= 30)%nat ->
    wifi_tries (S n) true (EvWifiBegin :: repeat (EvDelay 500) j)
| tries_down n j ok rest :
    (j <= 30)%nat -> wifi_tries n ok rest ->
    wifi_tries (S n) ok
      (EvWifiBegin :: repeat (EvDelay 500) j ++
       (if (n =? 0)%nat then [] else [EvDelay 5000]) ++ rest).

(** The pause of the poll loop: each one follows a status read. *)
Definition is_status_wait (ev : Event) : bool :=
  match ev with EvDelay 500 => true | _ => false end.

(** One attempt: the counts that give the number of status reads. *)
Lemma attempt_reads j :
  count is_status_wait ([EvWifiBegin] ++ repeat (EvDelay 500) j) = j /\
  count is_wifi_begin ([EvWifiBegin] ++ repeat (EvDelay 500) j) = 1%nat.
Proof.
  rewrite !count_app, !count_repeat. split; reflexivity.
Qed.

(** Status reads made by a [connectToWiFi] that succeeded with these
    events; none when it was not called. *)
Definition wifi_reads (evs : list Event) : nat :=
  (count is_status_wait evs + 3 * count is_wifi_begin evs - 1)%nat.

Section WifiRuns.

Variable env : Env.

(** The poll loop, entered [500 k] ms after [startTime]. *)
Lemma wifi_wait_run fuel k T0 w :
  now w - T0 = 500 * Z.of_nat k -> (k <= 30)%nat -> (31 <= fuel + k)%nat ->
  total (wifi_wait env fuel (U32.wrap T0)) w
    (fun _ w' =>
       advance wifi_class w w' /\
       exists j, (k + j <= 30)%nat /\
                 emitted w w' = repeat (EvDelay 500) j /\
                 now w' = now w + 500 * Z.of_nat j /\
                 led w' = led w /\
                 reads w' = (reads w + S j)%nat).
Proof.
  revert k w. induction fuel as [| fuel IH]; intros k w Hel Hk Hfuel; [lia |].
  simpl wifi_wait. unfold WiFi_status. steps.
  destruct (wifi_connected env (reads w)).
  - steps. split; [advance_now |].
    exists O. split; [lia |]. split; [emitted_now; reflexivity |].
    split; [lia |]. split; [reflexivity | lia].
  - steps. rewrite U32.sub_wrap_wrap.
    rewrite U32.wrap_small by (unfold U32.in_range; rewrite U32.modulus_eq; lia).
    destruct (now w - T0 <? 15000) eqn:Hlt.
    + apply Z.ltb_lt in Hlt. steps.
      set (w1 := set_trace _ _).
      assert (A1 : advance wifi_class w w1) by (subst w1; advance_now).
      assert (E1 : emitted w w1 = [EvDelay 500]) by (apply emitted_app; reflexivity).
      eapply total_weaken.
      * apply (IH (S k) w1); subst w1; tidy_goal; lia.
      * intros u w' (A2 & j & Hj & E2 & Hn & Hl & Hr).
        destruct (advance_step _ _ _ _ _ _ A1 E1 A2 E2) as [A E].
        split; [exact A |].
        exists (S j). split; [lia |]. split; [exact E |].
        split; [| split; [exact Hl |]].
        -- rewrite Hn. subst w1. tidy_goal. lia.
        -- rewrite Hr. subst w1. tidy_goal. lia.
    + steps. split; [advance_now |].
      exists O. split; [lia |]. split; [emitted_now; reflexivity |].
      split; [lia |]. split; [reflexivity | lia].
Qed.

(** The attempts.  A run that made [a] of them with [j] pauses in all
    has read the status [j + 3 a] times when it fails, and once less
    when it succeeds: before each pause, at the end of each wait, to
    decide after each wait, and for the log after each failure. *)
Lemma wifi_attempts_run n w :
  (n <= 3)%nat ->
  total (wifi_attempts env n (3 - Z.of_nat n)) w
    (fun ok w' =>
       advance wifi_class w w' /\
       wifi_tries n ok (emitted w w') /\
       now w' = now w + delay_total (emitted w w') /\
       led w' = led w /\
       (n <> O ->
        exists k, reads w' = (if ok then S k else S (S k)) /\
                  wifi_connected env k = ok) /\
       (reads w' + (if ok then 1 else 0)
        = reads w + count is_status_wait (emitted w w')
          + 3 * count is_wifi_begin (emitted w w'))%nat).
Proof.
  revert w. induction n as [| n IH]; intros w Hn; cbn [wifi_attempts].
  - steps. split; [apply advance_refl |]. rewrite emitted_refl.
    split; [constructor |]. split; [simpl; lia |]. split; [reflexivity |].
    split; [congruence |]. unfold count. simpl. lia.
  - steps.
    set (w0 := set_trace _ w).
    assert (A0 : advance wifi_class w w0) by (subst w0; advance_now).
    assert (E0 : emitted w w0 = [EvWifiBegin]) by (apply emitted_app; reflexivity).
    eapply total_seq.
    { apply (wifi_wait_run 31 0 (now w0) w0); simpl; lia. }
    intros u w1 (A1 & j & Hj & E1 & N1 & L1 & R1). cbv beta.
    change (reads w0) with (reads w) in R1.
    destruct (advance_step _ _ _ _ _ _ A0 E0 A1 E1) as [B1 F1].
    unfold WiFi_status. steps.
    set (w2 := set_reads _ w1).
    assert (A2 : advance wifi_class w1 w2) by (subst w2; advance_now).
    assert (E2 : emitted w1 w2 = []) by (apply emitted_app; rewrite app_nil_r; reflexivity).
    destruct (advance_step _ _ _ _ _ _ B1 F1 A2 E2) as [B2 F2].
    rewrite app_nil_r in F2.
    assert (N2 : now w2 = now w + delay_total (emitted w w2)).
    { rewrite F2. change (now w2) with (now w1). rewrite N1.
      change (now w0) with (now w).
      change (delay_total ([EvWifiBegin] ++ repeat (EvDelay 500) j))
        with (delay_total (repeat (EvDelay 500) j)).
      rewrite delay_total_repeat. reflexivity. }
    destruct (attempt_reads j) as [Cw Cb].
    destruct (wifi_connected env (reads w1)) eqn:Hup.
    + steps. split; [exact B2 |]. split; [rewrite F2; apply tries_up; lia |].
      split; [exact N2 |]. split; [exact L1 |].
      split; [intros _; exists (reads w1); split; [reflexivity | exact Hup] |].
      rewrite F2, Cw, Cb. change (reads w2) with (S (reads w1)). lia.
    + replace (3 - Z.of_nat (S n) <? MAX_WIFI_RETRY - 1) with (negb (n =? 0)%nat).
      2:{ unfold MAX_WIFI_RETRY. destruct (Nat.eqb_spec n 0) as [-> | Hn0]; simpl negb.
          - reflexivity.
          - symmetry. apply Z.ltb_lt. lia. }
      replace (3 - Z.of_nat (S n) + 1) with (3 - Z.of_nat n) by lia.
      apply total_bind, total_observe. cbv beta.
      set (w2b := set_reads _ w2).
      assert (A2b : advance wifi_class w2 w2b) by (subst w2b; advance_now).
      assert (E2b : emitted w2 w2b = [])
        by (apply emitted_app; rewrite app_nil_r; reflexivity).
      destruct (advance_step _ _ _ _ _ _ B2 F2 A2b E2b) as [B2b F2b].
      rewrite app_nil_r in F2b.
      assert (N2b : now w2b = now w + delay_total (emitted w w2b)).
      { rewrite F2b, <- F2. exact N2. }
      assert (R2b : reads w2b = (reads w + j + 3)%nat).
      { change (reads w2b) with (S (S (reads w1))). lia. }
      destruct (Nat.eqb_spec n 0) as [Hn0 | Hn0]; simpl negb; cbv iota.
      * steps. subst n. cbn [wifi_attempts]. steps.
        split; [exact B2b |].
        split.
        { rewrite F2b.
          replace (repeat (EvDelay 500) j)
            with (repeat (EvDelay 500) j ++ [] ++ [])%list by (rewrite !app_nil_r; reflexivity).
          apply (tries_down 0 j false []); [lia | constructor]. }
        split; [exact N2b |]. split; [exact L1 |].
        split; [intros _; exists (reads w1); split; [reflexivity | exact Hup] |].
        rewrite F2b, Cw, Cb, R2b. lia.
      * unfold WIFI_RETRY_DELAY. steps.
        set (w3 := set_trace _ _).
        assert (A3 : advance wifi_class w2b w3) by (subst w3; advance_now).
        assert (E3 : emitted w2b w3 = [EvDelay 5000])
          by (apply emitted_app; reflexivity).
        destruct (advance_step _ _ _ _ _ _ B2b F2b A3 E3) as [B3 F3].
        eapply total_weaken; [apply (IH w3); lia |].
        intros ok w' (A4 & T4 & N4 & L4 & R4 & C4).
        destruct (advance_step _ _ _ _ _ _ B3 F3 A4 eq_refl) as [B4 F4].
        split; [exact B4 |].
        split.
        { rewrite F4. simpl app. rewrite <- app_assoc.
          pose proof (tries_down n j ok (emitted w3 w') ltac:(lia) T4) as T.
          destruct (Nat.eqb_spec n 0); [contradiction |]. exact T. }
        split.
        { rewrite N4, F4. rewrite (delay_total_app _ (emitted w3 w')).
          rewrite (delay_total_app _ [EvDelay 5000]).
          rewrite <- F2b.
          change (delay_total [EvDelay 5000]) with 5000.
          change (now w3) with (now w2b + 5000). lia. }
        split; [rewrite L4; exact L1 |].
        split; [intros _; apply R4; exact Hn0 |].
        rewrite F4, !count_app, !count_repeat.
        change (count is_status_wait [EvWifiBegin]) with 0%nat.
        change (count is_wifi_begin [EvWifiBegin]) with 1%nat.
        change (is_status_wait (EvDelay 500)) with true.
        change (is_wifi_begin (EvDelay 500)) with false. cbv iota.
        change (count is_status_wait [EvDelay 5000]) with 0%nat.
        change (count is_wifi_begin [EvDelay 5000]) with 0%nat.
        change (reads w3) with (reads w2b) in C4. rewrite R2b in C4. lia.
Qed.

End WifiRuns.

Lemma wifi_tries_facts n ok evs :
  wifi_tries n ok evs ->
  forallb wifi_class evs = true /\
  (count is_wifi_begin evs <= n)%nat /\
  (n <> O -> (1 <= count is_wifi_begin evs)%nat) /\
  (ok = false -> count is_wifi_begin evs = n) /\
  0 <= delay_total evs <= 20000 * Z.of_nat n - 5000 * Z.min 1 (Z.of_nat n) /\
  (ok = false -> 5000 * (Z.of_nat n - 1) <= delay_total evs).
Proof.
  induction 1 as [| n j Hj | n j ok rest Hj Hrest IH].
  - unfold count. simpl. repeat split; auto; try lia; try congruence.
  - change (EvWifiBegin :: repeat (EvDelay 500) j)
      with ([EvWifiBegin] ++ repeat (EvDelay 500) j)%list.
    rewrite forallb_app, count_app, delay_total_app, delay_total_repeat.
    rewrite forallb_repeat by reflexivity. rewrite count_repeat.
    change (count is_wifi_begin [EvWifiBegin]) with 1%nat.
    change (delay_total [EvWifiBegin]) with 0.
    cbn [is_wifi_begin forallb wifi_class andb].
    repeat split; auto; try lia; try congruence.
  - destruct IH as (Hall & Hle & Hge & Hfail & Hd & Hdf).
    change (EvWifiBegin :: ?l) with ([EvWifiBegin] ++ l)%list.
    rewrite !forallb_app, !count_app, !delay_total_app, delay_total_repeat.
    rewrite forallb_repeat by reflexivity. rewrite count_repeat, Hall.
    change (count is_wifi_begin [EvWifiBegin]) with 1%nat.
    change (delay_total [EvWifiBegin]) with 0.
    cbn [is_wifi_begin forallb wifi_class andb].
    destruct (Nat.eqb_spec n 0) as [-> | Hn0].
    + change (count is_wifi_begin []) with 0%nat. change (delay_total []) with 0.
      cbn [forallb]. repeat split; auto; try lia.
    + change (count is_wifi_begin [EvDelay 5000]) with 0%nat.
      change (delay_total [EvDelay 5000]) with 5000.
      cbn [forallb wifi_class andb].
      repeat split; auto; try lia;
        intros Hok; try rewrite (Hfail Hok); try specialize (Hdf Hok); lia.
Qed.

Lemma connectToWiFi_run env w :
  total (connectToWiFi env) w
    (fun ok w' =>
       advance wifi_class w w' /\
       (exists tries,
           emitted w w' = EvWifiMode true :: EvWifiSetSleep false :: tries /\
           wifi_tries 3 ok tries /\
           now w' = now w + delay_total tries) /\
       led w' = led w /\
       (exists k, reads w' = (if ok then S k else S (S k)) /\
                  wifi_connected env k = ok) /\
       (reads w' + (if ok then 1 else 0)
        = reads w + count is_status_wait (emitted w w')
          + 3 * count is_wifi_begin (emitted w w'))%nat).
Proof.
  unfold connectToWiFi. steps.
  set (w0 := set_trace _ _).
  assert (A0 : advance wifi_class w w0) by (subst w0; advance_now).
  assert (E0 : emitted w w0 = [EvWifiMode true; EvWifiSetSleep false]).
  { subst w0. emitted_now. reflexivity. }
  eapply total_weaken; [apply (wifi_attempts_run env 3 w0); lia |].
  intros ok w' (A1 & T1 & N1 & L1 & R1 & C1).
  destruct (advance_step _ _ _ _ _ _ A0 E0 A1 eq_refl) as [A E].
  split; [exact A |].
  split; [| split; [exact L1 | split; [apply R1; discriminate |]]].
  - exists (emitted w0 w'). split; [exact E |]. split; [exact T1 | exact N1].
  - rewrite E.
    change (EvWifiMode true :: EvWifiSetSleep false :: emitted w0 w')
      with ([EvWifiMode true; EvWifiSetSleep false] ++ emitted w0 w')%list.
    rewrite !count_app.
    change (count is_status_wait [EvWifiMode true; EvWifiSetSleep false]) with 0%nat.
    change (count is_wifi_begin [EvWifiMode true; EvWifiSetSleep false]) with 0%nat.
    change (reads w0) with (reads w) in C1. lia.
Qed.

(** *** [uploadPhotoToSupabase]: the connection stage and the wait *)

(** Three refused connections, 2 s apart. *)
Definition refused : list Event :=
  [EvTlsConnect false; EvDelay 2000; EvTlsConnect false; EvDelay 2000;
   EvTlsConnect false].

(** A connection made after [k] refused attempts. *)
Definition connected_after (k : nat) : list Event :=
  (List.concat (repeat [EvTlsConnect false; EvDelay 2000] k) ++ [EvTlsConnect true])%list.

Definition is_tls_stop (ev : Event) : bool :=
  match ev with EvTlsStop => true | _ => false end.

Definition is_connect_ok (ev : Event) : bool :=
  match ev with EvTlsConnect true => true | _ => false end.

Lemma total_both {A} (m : M A) w (Q1 Q2 : A -> World -> Prop) :
  total m w Q1 -> total m w Q2 -> total m w (fun a w' => Q1 a w' /\ Q2 a w').
Proof.
  intros (a1 & w1 & H1 & HQ1) (a2 & w2 & H2 & HQ2).
  rewrite H1 in H2. injection H2 as <- <-.
  exists a1, w1. auto.
Qed.

Section UploadRuns.

Variable env : Env.

Lemma connect_attempts_run w :
  total (connect_attempts env (Z.to_nat connectionRetries) 0) w
    (fun connected w' =>
       advance connect_class w w' /\
       if connected
       then exists k, (k <= 2)%nat /\ emitted w w' = connected_after k /\
                      tls_connect env (reads w + k) = true /\
                      (forall i, (i < k)%nat -> tls_connect env (reads w + i) = false) /\
                      reads w' = (reads w + S k)%nat
       else emitted w w' = refused /\
            forall i, (i < 3)%nat -> tls_connect env (reads w + i) = false).
Proof.
  change (Z.to_nat connectionRetries) with 3%nat.
  cbn [connect_attempts]. unfold client_connect, connectionRetries.
  change (0 <? 3 - 1) with true. change (0 + 1 <? 3 - 1) with true.
  change (0 + 1 + 1 <? 3 - 1) with false. cbv iota. steps.
  destruct (tls_connect env (reads w)) eqn:H0.
  { steps. split; [advance_now |].
    exists O. split; [lia |]. split; [emitted_now; reflexivity |].
    rewrite Nat.add_0_r. split; [exact H0 |].
    split; [intros i Hi; lia | lia]. }
  steps. destruct (tls_connect env (S (reads w))) eqn:H1.
  { steps. split; [advance_now |].
    exists 1%nat. split; [lia |]. split; [emitted_now; reflexivity |].
    rewrite Nat.add_1_r. split; [exact H1 |]. split; [| lia].
    intros i Hi. replace i with O by lia. rewrite Nat.add_0_r. exact H0. }
  steps. destruct (tls_connect env (S (S (reads w)))) eqn:H2.
  { steps. split; [advance_now |].
    exists 2%nat. split; [lia |]. split; [emitted_now; reflexivity |].
    replace (reads w + 2)%nat with (S (S (reads w))) by lia. split; [exact H2 |].
    split; [| lia].
    intros i Hi. destruct i as [| [| i]]; [| | lia].
    - rewrite Nat.add_0_r. exact H0.
    - rewrite Nat.add_1_r. exact H1. }
  steps. split; [advance_now |].
  split; [emitted_now; reflexivity |].
  intros i Hi. destruct i as [| [| [| i]]]; [| | | lia].
  - rewrite Nat.add_0_r. exact H0.
  - rewrite Nat.add_1_r. exact H1.
  - replace (reads w + 2)%nat with (S (S (reads w))) by lia. exact H2.
Qed.

(** The socket takes the first [j] chunks whole, the writes being
    observations [base], [base + 1], ... *)
Definition answered (base : nat) (N : Z) (j : nat) : Prop :=
  forall m, (m < j)%nat ->
            tls_write env (base + m) (chunk_len N m) = chunk_len N m.

(** What stops the chunk loop at chunk [j]: the socket takes it short;
    the loop then closes the connection at once. *)
Definition cut_short (base : nat) (d N : Z) (j : nat) (ws : list Event) : Prop :=
  tls_write env (base + j) (chunk_len N j) <> chunk_len N j /\
  ws = (chunks_from d N 0 j ++
        [EvTlsWrite (d + 1024 * Z.of_nat j) (chunk_len N j)
                    (tls_write env (base + j) (chunk_len N j)); EvTlsStop])%list.

(** The chunk loop against the answers of the socket, from chunk [i]
    on: it goes on for as long as the chunks are taken whole. *)
Lemma send_chunks_answers d N :
  U32.in_range N ->
  forall r i fuel w,
    (i + r = chunk_count N)%nat -> (r < fuel)%nat ->
    total (send_chunks env fuel d N (Z.min N (1024 * Z.of_nat i))) w
      (fun sent w' =>
         advance background w w' /\
         exists m,
           (forall m', (m' < m)%nat ->
                       tls_write env (reads w + m') (chunk_len N (i + m'))
                       = chunk_len N (i + m')) /\
           if sent then m = r
           else (m < r)%nat /\
                tls_write env (reads w + m) (chunk_len N (i + m))
                <> chunk_len N (i + m) /\
                emitted w w'
                = (chunks_from d N i m ++
                   [EvTlsWrite (d + 1024 * Z.of_nat (i + m)) (chunk_len N (i + m))
                               (tls_write env (reads w + m) (chunk_len N (i + m)));
                    EvTlsStop])%list).
Proof.
  intros HN. pose proof HN as HN'. unfold U32.in_range in HN'.
  rewrite U32.modulus_eq in HN'.
  pose proof (chunk_count_spec N ltac:(lia)) as Hcc.
  induction r as [| r IH]; intros i fuel w Hi Hf;
    (destruct fuel as [| fuel]; [lia |]); unfold send_chunks; fold send_chunks.
  - replace (Z.min N (1024 * Z.of_nat i)) with N by lia.
    rewrite Z.ltb_irrefl. step. split; [apply advance_refl |].
    exists O. split; [intros m' Hm'; lia | reflexivity].
  - assert (Hlt : 1024 * Z.of_nat i < N) by lia.
    replace (Z.min N (1024 * Z.of_nat i)) with (1024 * Z.of_nat i) by lia.
    apply Z.ltb_lt in Hlt as Hltb. rewrite Hltb.
    rewrite U32.sub_small by (rewrite U32.modulus_eq; lia).
    unfold chunkSize. fold (chunk_len N i).
    unfold client_write. step.
    set (written := tls_write env (reads w) (chunk_len N i)).
    set (w0 := set_trace _ _).
    destruct (Z.eqb_spec written (chunk_len N i)) as [Heq | Hne]; simpl negb; cbv iota.
    + step.
      set (w1 := set_trace _ _).
      assert (H1 : advance background w w1) by (subst w1 w0; advance_now).
      assert (E1 : emitted w w1 = chunk_at d N i).
      { apply emitted_app. subst w1 w0. cbn [trace set_trace set_now set_reads].
        rewrite <- app_assoc. unfold chunk_at. rewrite <- Heq. reflexivity. }
      assert (R1 : reads w1 = S (reads w)) by reflexivity.
      replace (U32.add (1024 * Z.of_nat i) written)
        with (Z.min N (1024 * Z.of_nat (S i))).
      2:{ unfold U32.add. rewrite Heq. unfold chunk_len.
          rewrite U32.wrap_small by (unfold U32.in_range; rewrite U32.modulus_eq; lia).
          lia. }
      eapply total_weaken; [apply (IH (S i) fuel w1); lia |].
      intros sent w2 (H2 & m & Hans & Hres). cbv beta.
      split; [eapply advance_trans; eauto |].
      exists (S m). split.
      { intros m' Hm'. destruct m' as [| m'].
        - rewrite !Nat.add_0_r. exact Heq.
        - replace (reads w + S m')%nat with (reads w1 + m')%nat by (rewrite R1; lia).
          replace (i + S m')%nat with (S i + m')%nat by lia.
          apply Hans. lia. }
      destruct sent.
      * lia.
      * destruct Hres as (Hm & Hshort & E2).
        replace (reads w + S m)%nat with (reads w1 + m)%nat by (rewrite R1; lia).
        replace (i + S m)%nat with (S i + m)%nat by lia.
        split; [lia |]. split; [exact Hshort |].
        rewrite (emitted_trans _ _ _ _ _ H1 H2), E1, E2.
        rewrite chunks_from_S, <- app_assoc. reflexivity.
    + unfold client_stop. step.
      split; [subst w0; advance_now |].
      exists O. split; [intros m' Hm'; lia |].
      rewrite !Nat.add_0_r. split; [lia |]. split; [exact Hne |].
      apply emitted_app. subst w0.
      cbn [trace set_trace set_reads]. rewrite <- app_assoc. reflexivity.
Qed.

(** The wait for the response, entered [10 k] ms after the last chunk:
    a poll every 10 ms, given up after the 1501st pause. *)
Lemma await_response_run fuel k T0 w :
  now w - T0 = 10 * Z.of_nat k -> (k <= 1501)%nat -> (1502 <= fuel + k)%nat ->
  total (await_response env fuel (U32.wrap T0)) w
    (fun reply w' =>
       advance background w w' /\
       exists j, (k + j <= 1501)%nat /\
         match reply with
         | Some rx => rx <> EmptyString /\
                      emitted w w' = (repeat (EvDelay 10) j ++ [EvTlsRecv rx])%list
         | None => (k + j = 1501)%nat /\
                   emitted w w' = (repeat (EvDelay 10) j ++ [EvTlsStop])%list
         end).
Proof.
  revert k w. induction fuel as [| fuel IH]; intros k w Hel Hk Hfuel; [lia |].
  cbn [await_response]. steps.
  destruct (tls_reply env (reads w)) as [| c data] eqn:Hreply.
  - steps. rewrite U32.sub_wrap_wrap.
    rewrite U32.wrap_small by (unfold U32.in_range; rewrite U32.modulus_eq; lia).
    destruct (now w - T0 >? 15000) eqn:Hgt; rewrite Z.gtb_ltb in Hgt.
    + apply Z.ltb_lt in Hgt. unfold client_stop. steps.
      split; [advance_now |].
      exists O. split; [lia |]. split; [lia |]. emitted_now. reflexivity.
    + apply Z.ltb_ge in Hgt. steps.
      set (w1 := set_trace _ _).
      assert (A1 : advance background w w1) by (subst w1; advance_now).
      assert (E1 : emitted w w1 = [EvDelay 10]) by (apply emitted_app; reflexivity).
      eapply total_weaken.
      * apply (IH (S k) w1); subst w1; tidy_goal; lia.
      * intros reply w' (A2 & j & Hj & Hshape).
        split; [eapply advance_trans; eauto |].
        rewrite (emitted_trans _ _ _ _ _ A1 A2), E1.
        exists (S j). split; [lia |].
        destruct reply as [rx |].
        -- destruct Hshape as [Hrx ->]. split; [exact Hrx | reflexivity].
        -- destruct Hshape as [Hend ->]. split; [lia | reflexivity].
  - steps. split; [advance_now |].
    exists O. split; [lia |]. split; [discriminate |]. emitted_now. reflexivity.
Qed.

(** Every run of [uploadPhotoToSupabase], event by event. *)
Inductive upload_run (d N : Z) (f : string) (w : World)
  : Outcome -> list Event -> Prop :=
| run_offline :
    wifi_connected env (reads w) = false ->
    upload_run d N f w WifiNotConnected []
| run_invalid :
    wifi_connected env (reads w) = true -> d = 0 \/ N = 0 ->
    upload_run d N f w InvalidImage []
| run_unreachable :
    upload_starts env d N w ->
    (forall i, (i < 3)%nat -> tls_connect env (S (reads w) + i) = false) ->
    upload_run d N f w ConnectFailed refused
| run_short_write k ws :
    upload_starts env d N w -> (k <= 2)%nat ->
    tls_connect env (S (reads w) + k) = true ->
    send_shape env d N 0 false ws ->
    (forall i, (i < k)%nat -> tls_connect env (S (reads w) + i) = false) ->
    (exists j, (j < chunk_count N)%nat /\
               answered (S (S (reads w)) + k) N j /\
               cut_short (S (S (reads w)) + k) d N j ws) ->
    upload_run d N f w WriteError (connected_after k ++ EvTlsPrint f N :: ws)
| run_timeout k :
    upload_starts env d N w -> (k <= 2)%nat ->
    tls_connect env (S (reads w) + k) = true ->
    (forall i, (i < k)%nat -> tls_connect env (S (reads w) + i) = false) ->
    answered (S (S (reads w)) + k) N (chunk_count N) ->
    upload_run d N f w ResponseTimeout
      (connected_after k ++ EvTlsPrint f N :: chunks_from d N 0 (chunk_count N) ++
       repeat (EvDelay 10) 1501 ++ [EvTlsStop])
| run_reply k j rx :
    upload_starts env d N w -> (k <= 2)%nat ->
    tls_connect env (S (reads w) + k) = true ->
    (j <= 1501)%nat -> rx <> EmptyString ->
    (forall i, (i < k)%nat -> tls_connect env (S (reads w) + i) = false) ->
    answered (S (S (reads w)) + k) N (chunk_count N) ->
    upload_run d N f w (if status_ok rx then Uploaded else Rejected)
      (connected_after k ++ EvTlsPrint f N :: chunks_from d N 0 (chunk_count N) ++
       repeat (EvDelay 10) j ++ [EvTlsRecv rx; EvTlsStop]).

Theorem upload_run_spec d N f w :
  U32.in_range N ->
  total (uploadPhotoToSupabase env d N f) w
    (fun o w' => advance background w w' /\ upload_run d N f w o (emitted w w')).
Proof.
  intros HN. pose proof HN as [HN0 _].
  unfold uploadPhotoToSupabase, WiFi_status. steps.
  set (w0 := set_reads _ _).
  assert (A0 : advance background w w0) by (subst w0; advance_now).
  assert (E0 : emitted w w0 = []) by (apply emitted_app; rewrite app_nil_r; reflexivity).
  destruct (wifi_connected env (reads w)) eqn:Hup; simpl negb; cbv iota.
  2:{ steps. split; [exact A0 |]. rewrite E0. constructor. exact Hup. }
  destruct (Z.eqb_spec d 0) as [Hd | Hd]; simpl orb; cbv iota.
  { steps. split; [exact A0 |]. rewrite E0. constructor; auto. }
  destruct (Z.eqb_spec N 0) as [HN1 | HN1]; cbv iota.
  { steps. split; [exact A0 |]. rewrite E0. constructor; auto. }
  assert (Hstart : upload_starts env d N w) by (repeat split; assumption).
  eapply total_seq; [apply connect_attempts_run |].
  intros connected w1 [A1 C1]. cbv beta in A1, C1.
  change (reads w0) with (S (reads w)) in C1.
  apply (advance_weaken _ _ _ _ connect_class_background) in A1 as A1'.
  destruct (advance_step _ _ _ _ _ _ A0 E0 A1' eq_refl) as [B1 F1].
  simpl in F1.
  destruct connected; simpl negb; cbv iota.
  2:{ destruct C1 as [E1 Hall]. steps. split; [exact B1 |]. rewrite F1, E1.
      constructor; assumption. }
  destruct C1 as (k & Hk & E1 & Hok & Hbefore & R1).
  steps. set (w2 := set_trace _ w1).
  assert (R2 : reads w2 = (S (S (reads w)) + k)%nat).
  { change (reads w2) with (reads w1). rewrite R1. lia. }
  assert (A2 : advance background w1 w2) by (subst w2; advance_now).
  destruct (advance_step _ _ _ _ _ _ B1 F1 A2
              (emitted_app w1 w2 [EvTlsPrint f N] eq_refl)) as [B2 F2].
  eapply total_seq.
  { apply total_both.
    - apply send_chunks_from_start; [exact HN | apply upload_fuel, HN0].
    - replace 0 with (Z.min N (1024 * Z.of_nat 0)) at 1 by (simpl; lia).
      apply (send_chunks_answers d N HN (chunk_count N) O);
        [reflexivity | apply upload_fuel, HN0]. }
  intros sent w3 [[A3 S3] (_ & m & Hans & Hres)]. cbv beta in A3, S3.
  rewrite R2 in Hans, Hres.
  destruct (advance_step _ _ _ _ _ _ B2 F2 A3 eq_refl) as [B3 F3].
  destruct sent; simpl negb; cbv iota.
  2:{ destruct Hres as (Hm & Hshort & E3). simpl in Hshort, E3.
      steps. split; [exact B3 |]. rewrite F3, E1, <- app_assoc. simpl.
      constructor; try assumption.
      exists m. split; [exact Hm |]. split; [exact Hans |].
      split; [exact Hshort | exact E3]. }
  subst m.
  unfold send_shape in S3. rewrite Nat.sub_0_r in S3.
  steps.
  eapply total_seq.
  { apply (await_response_run 1502 0 (now w3) w3); simpl; lia. }
  intros reply w4 [A4 (j & Hj & S4)]. cbv beta in A4.
  destruct (advance_step _ _ _ _ _ _ B3 F3 A4 eq_refl) as [B4 F4].
  destruct reply as [rx |].
  2:{ destruct S4 as [Hend S4]. steps. split; [exact B4 |].
      rewrite F4, S4, S3, E1, <- !app_assoc. simpl.
      replace j with 1501%nat by lia.
      constructor; assumption. }
  destruct S4 as [Hrx S4].
  destruct (read_headers_total (S (String.length rx)) rx false ltac:(lia))
    as [[success rest] Hread].
  assert (Hok' : status_ok rx = success) by (unfold status_ok; rewrite Hread; reflexivity).
  rewrite Hread.
  assert (Hbody : forall v,
            (if (negb success && nonempty rest)%bool
             then lift (read_body (S (String.length rest)) rest)
             else ret tt) v = Some (tt, v)).
  { intros v. destruct (negb success && nonempty rest)%bool; [| reflexivity].
    unfold lift. rewrite read_body_total by lia. reflexivity. }
  apply total_bind. apply total_ret. cbv beta iota.
  apply total_bind. exists tt, w4. split; [apply Hbody |].
  unfold client_stop. steps.
  set (w5 := set_trace _ w4).
  assert (A5 : advance background w4 w5) by (subst w5; advance_now).
  destruct (advance_step _ _ _ _ _ _ B4 F4 A5
              (emitted_app w4 w5 [EvTlsStop] eq_refl)) as [B5 F5].
  split; [exact B5 |].
  rewrite F5, S4, S3, E1, <- !app_assoc. simpl.
  rewrite <- Hok'. constructor; assumption.
Qed.

End UploadRuns.

(** *** What the events of an upload add up to *)

(** Socket writes and the pauses between them. *)
Definition wire_class (ev : Event) : bool :=
  match ev with EvTlsWrite _ _ _ | EvDelay _ => true | _ => false end.

Lemma chunks_wire d N i k : forallb wire_class (chunks_from d N i k) = true.
Proof.
  revert i. induction k as [| k IH]; intros i; [reflexivity |].
  rewrite chunks_from_S, forallb_app, IH. reflexivity.
Qed.

Lemma connected_after_class k : forallb connect_class (connected_after k) = true.
Proof.
  unfold connected_after. rewrite forallb_app.
  induction k as [| k IH]; [reflexivity | exact IH].
Qed.

Lemma connected_after_counts k :
  count is_connect (connected_after k) = S k /\
  count is_connect_ok (connected_after k) = 1%nat /\
  delay_total (connected_after k) = 2000 * Z.of_nat k.
Proof.
  unfold connected_after. rewrite !count_app, delay_total_app.
  induction k as [| k (IH1 & IH2 & IH3)]; [repeat split |].
  cbn [repeat List.concat].
  rewrite !(count_app _ [EvTlsConnect false; EvDelay 2000]).
  rewrite !(delay_total_app [EvTlsConnect false; EvDelay 2000]).
  change (count is_connect [EvTlsConnect false; EvDelay 2000]) with 1%nat.
  change (count is_connect_ok [EvTlsConnect false; EvDelay 2000]) with 0%nat.
  change (delay_total [EvTlsConnect false; EvDelay 2000]) with 2000.
  change (count is_connect [EvTlsConnect true]) with 1%nat in *.
  change (count is_connect_ok [EvTlsConnect true]) with 1%nat in *.
  change (delay_total [EvTlsConnect true]) with 0 in *.
  repeat split; lia.
Qed.

(** The addresses [p], [p + 1], ..., [n] of them. *)
Fixpoint span (p : Z) (n : nat) : list Z :=
  match n with
  | O => []
  | S n' => p :: span (p + 1) n'
  end.

(** The addresses of a buffer of [n] bytes at [p]. *)
Definition addresses (p n : Z) : list Z := span p (Z.to_nat n).

(** The addresses of the bytes that the socket took, in the order sent. *)
Definition bytes_sent (evs : list Event) : list Z :=
  flat_map (fun ev => match ev with
                      | EvTlsWrite ptr _ written => addresses ptr written
                      | _ => []
                      end) evs.

Lemma span_app p n m :
  span p (n + m) = (span p n ++ span (p + Z.of_nat n) m)%list.
Proof.
  revert p. induction n as [| n IH]; intros p.
  - simpl. replace (p + 0) with p by lia. reflexivity.
  - cbn [Nat.add span app]. rewrite IH.
    replace (p + 1 + Z.of_nat n) with (p + Z.of_nat (S n)) by lia. reflexivity.
Qed.

Lemma addresses_app p a b :
  0 <= a -> 0 <= b ->
  addresses p (a + b) = (addresses p a ++ addresses (p + a) b)%list.
Proof.
  intros Ha Hb. unfold addresses.
  rewrite Z2Nat.inj_add by assumption. rewrite span_app.
  rewrite Z2Nat.id by assumption. reflexivity.
Qed.

Lemma addresses_none p n : n <= 0 -> addresses p n = [].
Proof.
  intros H. unfold addresses.
  replace (Z.to_nat n) with O by lia. reflexivity.
Qed.

Lemma bytes_sent_app l1 l2 :
  bytes_sent (l1 ++ l2) = (bytes_sent l1 ++ bytes_sent l2)%list.
Proof. unfold bytes_sent. apply flat_map_app. Qed.

Lemma bytes_sent_none p l :
  forallb p l = true -> (forall ptr n r, p (EvTlsWrite ptr n r) = false) ->
  bytes_sent l = [].
Proof.
  intros Hall Hp. unfold bytes_sent. apply (flat_map_none _ p); [exact Hall |].
  intros ev Hev. destruct ev; try reflexivity. rewrite Hp in Hev. discriminate.
Qed.

(** Chunk [j] of a payload lies inside the payload. *)
Lemma chunk_inside N j :
  0 <= N -> (j < chunk_count N)%nat ->
  0 < chunk_len N j <= 1024 /\ 1024 * Z.of_nat j + chunk_len N j <= N.
Proof.
  intros HN Hj. pose proof (chunk_count_spec N HN) as Hcc.
  unfold chunk_len. lia.
Qed.

Lemma In_chunks_inv d N i k ptr n r :
  In (EvTlsWrite ptr n r) (chunks_from d N i k) ->
  exists j, (i <= j < i + k)%nat /\ ptr = d + 1024 * Z.of_nat j /\
            n = chunk_len N j /\ r = n.
Proof.
  revert i. induction k as [| k IH]; intros i; [intros [] |].
  rewrite chunks_from_S. intros H. apply in_app_or in H as [H | H].
  - destruct H as [H | [H | []]]; [| discriminate].
    injection H as <- <- <-. exists i. repeat split; lia.
  - destruct (IH _ H) as (j & Hj & Hrest). exists j. split; [lia | exact Hrest].
Qed.

(** The chunks from number [i] on carry the rest of the buffer, byte by
    byte. *)
Lemma bytes_sent_chunks d N :
  0 <= N ->
  forall k i, (i + k = chunk_count N)%nat ->
    bytes_sent (chunks_from d N i k)
    = addresses (d + 1024 * Z.of_nat i) (N - 1024 * Z.of_nat i).
Proof.
  intros HN. pose proof (chunk_count_spec N HN) as Hcc.
  induction k as [| k IH]; intros i Hi.
  - change (chunks_from d N i 0) with (@nil Event).
    symmetry. apply addresses_none. lia.
  - rewrite chunks_from_S, bytes_sent_app, (IH (S i)) by lia.
    destruct (chunk_inside N i HN ltac:(lia)) as [Hlen Hin].
    assert (Hsplit : addresses (d + 1024 * Z.of_nat i) (N - 1024 * Z.of_nat i)
                     = (addresses (d + 1024 * Z.of_nat i) (chunk_len N i) ++
                        addresses (d + 1024 * Z.of_nat i + chunk_len N i)
                                  (N - 1024 * Z.of_nat i - chunk_len N i))%list).
    { rewrite <- addresses_app by lia. f_equal. lia. }
    rewrite Hsplit.
    cbn [chunk_at bytes_sent flat_map]. rewrite !app_nil_r. f_equal.
    unfold chunk_len in *.
    destruct (Z_le_gt_dec 1024 (N - 1024 * Z.of_nat i)) as [Hfull | Hlast].
    + rewrite Z.min_l by lia. f_equal; lia.
    + rewrite !addresses_none by lia. reflexivity.
Qed.

Section UploadRunCounts.

Variable env : Env.

Lemma upload_run_connects d N f w o evs :
  upload_run env d N f w o evs ->
  (count is_connect evs <= 3)%nat /\ (count is_connect_ok evs <= 1)%nat.
Proof.
  assert (Hwire : forall p, (forall ptr n r, p (EvTlsWrite ptr n r) = false) ->
                            (forall ms, p (EvDelay ms) = false) ->
                            forall i k, count p (chunks_from d N i k) = 0%nat).
  { intros p Hw Hd i k. apply (count_none p wire_class); [apply chunks_wire |].
    intros ev Hev. destruct ev; try discriminate; auto. }
  assert (Hdelay : forall p j, (forall ms, p (EvDelay ms) = false) ->
                               count p (repeat (EvDelay 10) j) = 0%nat).
  { intros p j Hd. rewrite count_repeat, Hd. reflexivity. }
  intros [Hoff | Hup Hbad | Hs Hall | k ws Hs Hk Hok Hws _ _ | k Hs Hk Hok _ _
          | k j rx Hs Hk Hok Hj Hrx _ _]; try (split; unfold count; simpl; lia);
    destruct (connected_after_counts k) as (C1 & C2 & _).
  - destruct Hws as (j & r & Hj & Hshort & ->).
    change (EvTlsPrint f N :: ?l) with ([EvTlsPrint f N] ++ l)%list.
    rewrite !count_app, C1, C2, !Hwire by reflexivity.
    unfold count. simpl. lia.
  - change (EvTlsPrint f N :: ?l) with ([EvTlsPrint f N] ++ l)%list.
    rewrite !count_app, C1, C2, !Hwire, !Hdelay by reflexivity.
    unfold count. simpl. lia.
  - change (EvTlsPrint f N :: ?l) with ([EvTlsPrint f N] ++ l)%list.
    rewrite !count_app, C1, C2, !Hwire, !Hdelay by reflexivity.
    unfold count. simpl. lia.
Qed.

End UploadRunCounts.

(** Outcomes reached with a connection open. *)
Definition reached_server (o : Outcome) : bool :=
  match o with
  | WriteError | ResponseTimeout | Rejected | Uploaded => true
  | _ => false
  end.

(** A 10 ms pause: one poll of the wait for the response. *)
Definition is_poll (ev : Event) : bool :=
  match ev with EvDelay ms => ms =? 10 | _ => false end.

Lemma count_chunks_none p d N i k :
  p (EvDelay 1) = false -> (forall ptr n r, p (EvTlsWrite ptr n r) = false) ->
  count p (chunks_from d N i k) = 0%nat.
Proof.
  intros Hd Hw. revert i. induction k as [| k IH]; intros i; [reflexivity |].
  rewrite chunks_from_S, count_app, IH.
  unfold count, chunk_at. simpl. rewrite Hw, Hd. reflexivity.
Qed.

Lemma count_connected_after_none p k :
  (forall ok, p (EvTlsConnect ok) = false) -> p (EvDelay 2000) = false ->
  count p (connected_after k) = 0%nat.
Proof.
  intros Hc Hd. unfold connected_after. rewrite count_app.
  replace (count p [EvTlsConnect true]) with 0%nat
    by (unfold count; simpl; rewrite Hc; reflexivity).
  induction k as [| k IH]; [reflexivity |].
  cbn [repeat List.concat]. rewrite count_app, Nat.add_0_r in *. rewrite IH.
  unfold count. simpl. rewrite Hc, Hd. reflexivity.
Qed.

Lemma In_connected_after ev k :
  In ev (connected_after k) ->
  ev = EvTlsConnect false \/ ev = EvDelay 2000 \/ ev = EvTlsConnect true.
Proof.
  unfold connected_after. intros H. apply in_app_or in H as [H | [H | []]]; [| auto].
  induction k as [| k IH]; [destruct H |].
  cbn [repeat List.concat] in H. apply in_app_or in H as [[H | [H | []]] | H]; auto.
Qed.

Section UploadRunBytes.

Variable env : Env.

Lemma upload_run_stops d N f w o evs :
  upload_run env d N f w o evs ->
  count is_tls_stop evs = (if reached_server o then 1 else 0)%nat /\
  (reached_server o = true -> exists pre, evs = (pre ++ [EvTlsStop])%list) /\
  (In (EvTlsConnect true) evs <-> reached_server o = true) /\
  (reached_server o = false -> count is_tls evs = count is_connect evs).
Proof.
  assert (Hin : forall k rest, In (EvTlsConnect true) (connected_after k ++ rest)).
  { intros k rest. apply in_or_app. left. unfold connected_after.
    apply in_or_app. right. left. reflexivity. }
  assert (Hcs : forall k, count is_tls_stop (connected_after k) = 0%nat)
    by (intros k; apply count_connected_after_none; reflexivity).
  assert (Hch : forall i k, count is_tls_stop (chunks_from d N i k) = 0%nat)
    by (intros i k; apply count_chunks_none; reflexivity).
  intros [Hoff | Hup Hbad | Hs Hall | k ws Hs Hk Hok Hws _ _ | k Hs Hk Hok _ _
          | k j rx Hs Hk Hok Hj Hrx _ _].
  - repeat split; try discriminate; simpl; tauto.
  - repeat split; try discriminate; simpl; tauto.
  - repeat split; try discriminate; try reflexivity.
    simpl. intros [H | [H | [H | [H | [H | []]]]]]; discriminate.
  - destruct Hws as (j & r & Hj & Hshort & ->). rewrite Nat.sub_0_r.
    cbn [reached_server]. split; [| split; [| split; [| discriminate]]].
    + change (EvTlsPrint f N :: ?l) with ([EvTlsPrint f N] ++ l)%list.
      rewrite !count_app, Hcs, Hch. reflexivity.
    + intros _. eexists.
      change (EvTlsPrint f N :: ?l) with ([EvTlsPrint f N] ++ l)%list.
      change [?a; EvTlsStop] with ([a] ++ [EvTlsStop])%list.
      rewrite !app_assoc. reflexivity.
    + split; [reflexivity | intros _; apply Hin].
  - cbn [reached_server]. split; [| split; [| split; [| discriminate]]].
    + change (EvTlsPrint f N :: ?l) with ([EvTlsPrint f N] ++ l)%list.
      rewrite !count_app, Hcs, Hch, count_repeat. reflexivity.
    + intros _. eexists.
      change (EvTlsPrint f N :: ?l) with ([EvTlsPrint f N] ++ l)%list.
      rewrite !app_assoc. reflexivity.
    + split; [reflexivity | intros _; apply Hin].
  - assert (Hr : reached_server (if status_ok rx then Uploaded else Rejected) = true)
      by (destruct (status_ok rx); reflexivity).
    rewrite Hr. split; [| split; [| split; [| discriminate]]].
    + change (EvTlsPrint f N :: ?l) with ([EvTlsPrint f N] ++ l)%list.
      rewrite !count_app, Hcs, Hch, count_repeat. reflexivity.
    + intros _. eexists.
      change (EvTlsPrint f N :: ?l) with ([EvTlsPrint f N] ++ l)%list.
      change [?a; EvTlsStop] with ([a] ++ [EvTlsStop])%list.
      rewrite !app_assoc. reflexivity.
    + split; [reflexivity | intros _; apply Hin].
Qed.

Lemma upload_run_polls d N f w o evs :
  upload_run env d N f w o evs -> (count is_poll evs <= 1501)%nat.
Proof.
  assert (Hcs : forall k, count is_poll (connected_after k) = 0%nat)
    by (intros k; apply count_connected_after_none; reflexivity).
  assert (Hch : forall i k, count is_poll (chunks_from d N i k) = 0%nat)
    by (intros i k; apply count_chunks_none; reflexivity).
  intros [Hoff | Hup Hbad | Hs Hall | k ws Hs Hk Hok Hws _ _ | k Hs Hk Hok _ _
          | k j rx Hs Hk Hok Hj Hrx _ _]; try (unfold count; simpl; lia).
  - destruct Hws as (j & r & Hj & Hshort & ->).
    change (EvTlsPrint f N :: ?l) with ([EvTlsPrint f N] ++ l)%list.
    rewrite !count_app, Hcs, Hch. unfold count. simpl. lia.
  - change (EvTlsPrint f N :: ?l) with ([EvTlsPrint f N] ++ l)%list.
    rewrite !count_app, Hcs, Hch, count_repeat. unfold count. simpl. lia.
  - change (EvTlsPrint f N :: ?l) with ([EvTlsPrint f N] ++ l)%list.
    rewrite !count_app, Hcs, Hch, count_repeat. unfold count. simpl. lia.
Qed.

Lemma upload_run_writes d N f w o evs :
  0 <= N -> upload_run env d N f w o evs ->
  forall ptr n r,
    In (EvTlsWrite ptr n r) evs ->
    exists j, (j < chunk_count N)%nat /\ ptr = d + 1024 * Z.of_nat j /\
              n = chunk_len N j.
Proof.
  intros HN Hrun ptr n r Hin.
  assert (Hcs : forall k, ~ In (EvTlsWrite ptr n r) (connected_after k)).
  { intros k H. apply In_connected_after in H as [H | [H | H]]; discriminate. }
  assert (Hch : forall k, (k <= chunk_count N)%nat ->
                          In (EvTlsWrite ptr n r) (chunks_from d N 0 k) ->
                          exists j, (j < chunk_count N)%nat /\
                                    ptr = d + 1024 * Z.of_nat j /\ n = chunk_len N j).
  { intros k Hk H. apply In_chunks_inv in H as (j & Hj & Hp & Hn & _).
    exists j. repeat split; [lia | exact Hp | exact Hn]. }
  destruct Hrun as [Hoff | Hup Hbad | Hs Hall | k ws Hs Hk Hok Hws _ _ | k Hs Hk Hok _ _
                    | k j rx Hs Hk Hok Hj Hrx _ _].
  - destruct Hin.
  - destruct Hin.
  - simpl in Hin. destruct Hin as [H | [H | [H | [H | [H | []]]]]]; discriminate.
  - destruct Hws as (j & r' & Hj & Hshort & ->). rewrite Nat.sub_0_r in Hin.
    apply in_app_or in Hin as [H | [H | H]]; [destruct (Hcs _ H) | discriminate |].
    apply in_app_or in H as [H | [H | [H | []]]]; [apply (Hch j); [lia | exact H] | | discriminate].
    injection H as <- <- _. exists j. repeat split; lia.
  - apply in_app_or in Hin as [H | [H | H]]; [destruct (Hcs _ H) | discriminate |].
    apply in_app_or in H as [H | H]; [apply (Hch (chunk_count N)); [lia | exact H] |].
    apply in_app_or in H as [H | [H | []]]; [| discriminate].
    apply repeat_spec in H. discriminate.
  - apply in_app_or in Hin as [H | [H | H]]; [destruct (Hcs _ H) | discriminate |].
    apply in_app_or in H as [H | H]; [apply (Hch (chunk_count N)); [lia | exact H] |].
    apply in_app_or in H as [H | [H | [H | []]]]; try discriminate.
    apply repeat_spec in H. discriminate.
Qed.

Lemma upload_run_bytes d N f w o evs :
  0 <= N -> upload_run env d N f w o evs ->
  o = ResponseTimeout \/ o = Rejected \/ o = Uploaded ->
  bytes_sent evs = addresses d N.
Proof.
  intros HN Hrun Ho.
  assert (Hcs : forall k, bytes_sent (connected_after k) = []).
  { intros k. apply (bytes_sent_none connect_class);
      [apply connected_after_class | reflexivity]. }
  assert (Hch : bytes_sent (chunks_from d N 0 (chunk_count N)) = addresses d N).
  { rewrite (bytes_sent_chunks d N HN (chunk_count N) 0) by reflexivity.
    f_equal; simpl; lia. }
  assert (Hds : forall j, bytes_sent (repeat (EvDelay 10) j) = []).
  { intros j. apply (bytes_sent_none is_delay);
      [apply forallb_repeat | ]; reflexivity. }
  destruct Hrun as [Hoff | Hup Hbad | Hs Hall | k ws Hs Hk Hok Hws _ _ | k Hs Hk Hok _ _
                    | k j rx Hs Hk Hok Hj Hrx _ _];
    try (destruct Ho as [Ho | [Ho | Ho]]; discriminate).
  - change (EvTlsPrint f N :: ?l) with ([EvTlsPrint f N] ++ l)%list.
    rewrite !bytes_sent_app, Hcs, Hch, Hds. simpl. apply app_nil_r.
  - change (EvTlsPrint f N :: ?l) with ([EvTlsPrint f N] ++ l)%list.
    rewrite !bytes_sent_app, Hcs, Hch, Hds. simpl. apply app_nil_r.
Qed.

End UploadRunBytes.

(** *** [takeAndUploadPhoto], event by event *)

(** [n] blinks of the LED. *)
Definition blink_events (n : nat) (on off : Z) : list Event :=
  List.concat (repeat [EvLed true; EvDelay on; EvLed false; EvDelay off] n).

Definition is_led_on (ev : Event) : bool :=
  match ev with EvLed true => true | _ => false end.

(** The LED report after an upload: two slow blinks for success, five
    fast ones for failure. *)
Definition upload_report (o : Outcome) : list Event :=
  if succeeded o then EvLed false :: blink_events 2 150 150
  else blink_events 5 100 100.

(** The file name made from a time stamp. *)
Definition photo_name (stamp : string) : string :=
  ("photo_" ++ stamp ++ ".jpg")%string.

Section CaptureRuns.

Variable env : Env.

(** The time stamp made from observation [k] with the clock at [t]: the
    answer of [getLocalTime] if it has one, else the numeral of
    [millis()]. *)
Definition stamp_at (k : nat) (t : Z) : string :=
  match local_time env k with
  | Some stamp => stamp
  | None => String_of_ulong (U32.wrap t)
  end.

Lemma getFormattedTimestamp_run w :
  total (getFormattedTimestamp env) w
    (fun stamp w' =>
       advance background w w' /\ emitted w w' = [] /\ now w' = now w /\
       stamp = stamp_at (reads w) (now w) /\ reads w' = S (reads w)).
Proof.
  unfold getFormattedTimestamp, stamp_at. steps.
  destruct (local_time env (reads w)) as [t |]; steps;
    (split; [advance_now | split; [emitted_now; reflexivity | repeat split]]).
Qed.

(** The stamp of a capture that started in [w] and spent [reconnect] on
    getting WiFi back, and the state [w1] in which its upload starts.
    [takePhoto] makes two observations and the status check a third, so
    the stamp is made from observation number
    [reads w + 3 + wifi_reads reconnect], with a clock that only the
    delays of [reconnect] have moved since [w]; the upload starts right
    after. *)
Definition stamped (w : World) (reconnect : list Event)
           (stamp : string) (w1 : World) : Prop :=
  stamp = stamp_at (3 + reads w + wifi_reads reconnect)
                   (now w + delay_total reconnect) /\
  reads w1 = S (3 + reads w + wifi_reads reconnect) /\
  now w1 = now w + delay_total reconnect.

(** Every run of [takeAndUploadPhoto] from [w]. *)
Inductive capture_run (w : World) : list Event -> Prop :=
| crun_low_heap :
    free_heap env (reads w) < 20000 ->
    capture_run w [EvTakeAndUpload; EvLed true; EvLed false]
| crun_no_frame :
    20000 <= free_heap env (reads w) ->
    fb_get env (S (reads w)) = None ->
    capture_run w [EvTakeAndUpload; EvLed true; EvCamGet false; EvLed false]
| crun_bad_frame f :
    20000 <= free_heap env (reads w) ->
    fb_get env (S (reads w)) = Some f -> ~ valid_frame f ->
    capture_run w [EvTakeAndUpload; EvLed true; EvCamGet true; EvCamFree; EvLed false]
| crun_offline f tries :
    20000 <= free_heap env (reads w) ->
    fb_get env (S (reads w)) = Some f -> valid_frame f ->
    wifi_connected env (S (S (reads w))) = false ->
    wifi_tries 3 false tries ->
    capture_run w
      ([EvTakeAndUpload; EvLed true; EvCamGet true;
        EvWifiMode true; EvWifiSetSleep false] ++ tries ++
       EvLed false :: blink_events 3 100 100 ++ [EvCamFree])
| crun_upload f reconnect stamp w1 o up :
    20000 <= free_heap env (reads w) ->
    fb_get env (S (reads w)) = Some f -> valid_frame f ->
    forallb wifi_class reconnect = true ->
    (wifi_connected env (S (S (reads w))) = true -> reconnect = []) ->
    0 <= delay_total reconnect <= 55000 ->
    stamped w reconnect stamp w1 ->
    upload_run env (buf f) (Z.of_N (len f)) (photo_name stamp) w1 o up ->
    capture_run w
      ([EvTakeAndUpload; EvLed true; EvCamGet true] ++ reconnect ++ up ++
       upload_report o ++ [EvCamFree]).

Lemma upload_and_free_run f w :
  fb w = Some f -> valid_frame f ->
  total (timestamp <- getFormattedTimestamp env ;;
         f <- Camera_fb ;;
         o <- uploadPhotoToSupabase env (buf f) (Z.of_N (len f))
                ("photo_" ++ timestamp ++ ".jpg")%string ;;
         (if succeeded o
          then digitalWrite_led false ;; blink 2 150 150
          else blink 5 100 100) ;;
         Camera_free) w
    (fun _ w' =>
       keeps w w' /\ fb w' = None /\ led w' = false /\
       exists stamp w1 o up,
         (stamp = stamp_at (reads w) (now w) /\
          reads w1 = S (reads w) /\ now w1 = now w) /\
         upload_run env (buf f) (Z.of_N (len f)) (photo_name stamp) w1 o up /\
         emitted w w' = (up ++ upload_report o ++ [EvCamFree])%list).
Proof.
  intros Hfb [Hlen Hbuf].
  eapply total_seq; [apply getFormattedTimestamp_run |].
  intros stamp w1 (A1 & E1 & N1 & Hstamp & R1). cbv beta.
  assert (Hsrc : stamp = stamp_at (reads w) (now w) /\
                 reads w1 = S (reads w) /\ now w1 = now w) by auto.
  apply total_bind. eapply total_Camera_fb.
  { rewrite (adv_fb _ _ _ A1). exact Hfb. }
  eapply total_seq.
  { apply upload_run_spec. unfold U32.in_range. rewrite U32.modulus_eq. lia. }
  intros o w2 [A2 Hrun]. cbv beta.
  destruct (advance_step _ _ _ _ _ _ A1 E1 A2 eq_refl) as [B2 F2].
  apply advance_keeps in B2 as K2. simpl in F2.
  unfold Camera_free.
  destruct (succeeded o) eqn:Hs; steps.
  - set (w' := set_fb _ _).
    assert (K' : keeps w2 w') by (subst w'; keeps_now).
    assert (E' : emitted w2 w'
                 = (EvLed false :: blink_events 2 150 150 ++ [EvCamFree])%list).
    { subst w'. emitted_now. reflexivity. }
    destruct (keeps_step w w2 w' _ _ K2 F2 K' E') as [K E].
    split; [exact K |]. split; [reflexivity |]. split; [reflexivity |].
    exists stamp, w1, o, (emitted w1 w2).
    split; [exact Hsrc |]. split; [exact Hrun |].
    unfold upload_report. rewrite Hs. exact E.
  - set (w' := set_fb _ _).
    assert (K' : keeps w2 w') by (subst w'; keeps_now).
    assert (E' : emitted w2 w' = (blink_events 5 100 100 ++ [EvCamFree])%list).
    { subst w'. emitted_now. reflexivity. }
    destruct (keeps_step w w2 w' _ _ K2 F2 K' E') as [K E].
    split; [exact K |]. split; [reflexivity |]. split; [reflexivity |].
    exists stamp, w1, o, (emitted w1 w2).
    split; [exact Hsrc |]. split; [exact Hrun |].
    unfold upload_report. rewrite Hs. exact E.
Qed.

Theorem takeAndUploadPhoto_run w :
  total (takeAndUploadPhoto env) w
    (fun _ w' =>
       keeps w w' /\ capture_run w (emitted w w') /\ led w' = false /\
       (fb w' = None \/ free_heap env (reads w) < 20000 /\ fb w' = fb w)).
Proof.
  unfold takeAndUploadPhoto. steps.
  set (w0 := set_trace _ _).
  assert (K0 : keeps w w0) by (subst w0; keeps_now).
  assert (E0 : emitted w w0 = [EvTakeAndUpload; EvLed true])
    by (subst w0; emitted_now; reflexivity).
  eapply total_seq; [apply takePhoto_run |].
  intros ok w1 (Hphoto & K1 & L1). cbv beta.
  change (reads w0) with (reads w) in Hphoto.
  change (fb w0) with (fb w) in Hphoto.
  destruct (keeps_step w w0 w1 _ _ K0 E0 K1 eq_refl) as [K01 E01].
  assert (Hfail : forall photo,
             emitted w0 w1 = photo ->
             capture_run w ([EvTakeAndUpload; EvLed true] ++ photo ++ [EvLed false]) ->
             fb w1 = None \/ free_heap env (reads w) < 20000 /\ fb w1 = fb w ->
             total (digitalWrite_led false) w1
               (fun _ w' =>
                  keeps w w' /\ capture_run w (emitted w w') /\ led w' = false /\
                  (fb w' = None \/ free_heap env (reads w) < 20000 /\ fb w' = fb w))).
  { intros photo Ephoto Hshape Hfb. steps.
    set (w' := set_trace _ _).
    assert (K' : keeps w1 w') by (subst w'; keeps_now).
    assert (E' : emitted w1 w' = [EvLed false]) by (subst w'; emitted_now; reflexivity).
    destruct (keeps_step w w1 w' _ _ K01 E01 K' E') as [K E].
    split; [exact K |]. split; [| split; [reflexivity | exact Hfb]].
    rewrite E, Ephoto, <- app_assoc. exact Hshape. }
  destruct Hphoto as [w1 Hheap Hfb E1 | w1 Hheap Hget Hfb E1
                      | f w1 Hheap Hget Hbad Hfb E1 | f w1 Hheap Hget Hok Hfb E1 R1 N1].
  - apply (Hfail []); [exact E1 | apply crun_low_heap; exact Hheap | auto].
  - apply (Hfail [EvCamGet false]); [exact E1 | apply crun_no_frame; assumption | auto].
  - apply (Hfail [EvCamGet true; EvCamFree]);
      [exact E1 | eapply crun_bad_frame; eassumption | auto].
  - clear Hfail. rewrite E1 in E01. simpl in E01.
    change (reads w0) with (reads w) in Hheap, Hget, R1.
    change (now w0) with (now w) in N1.
    unfold WiFi_status. steps. rewrite R1.
    set (w2 := set_reads _ w1).
    assert (K2 : keeps w1 w2) by (subst w2; keeps_now).
    assert (E2 : emitted w1 w2 = []) by (subst w2; emitted_now; reflexivity).
    destruct (keeps_step w w1 w2 _ _ K01 E01 K2 E2) as [K02 E02].
    rewrite app_nil_r in E02.
    assert (F2 : fb w2 = Some f) by exact Hfb.
    assert (Hfinish : forall w3 w' reconnect,
               keeps w2 w3 -> emitted w2 w3 = reconnect ->
               forallb wifi_class reconnect = true ->
               (wifi_connected env (S (S (reads w))) = true -> reconnect = []) ->
               0 <= delay_total reconnect <= 55000 ->
               reads w3 = (3 + reads w + wifi_reads reconnect)%nat ->
               now w3 = now w + delay_total reconnect ->
               (keeps w3 w' /\ fb w' = None /\ led w' = false /\
                exists stamp w1 o up,
                  (stamp = stamp_at (reads w3) (now w3) /\
                   reads w1 = S (reads w3) /\ now w1 = now w3) /\
                  upload_run env (buf f) (Z.of_N (len f)) (photo_name stamp) w1 o up /\
                  emitted w3 w' = (up ++ upload_report o ++ [EvCamFree])%list) ->
               keeps w w' /\ capture_run w (emitted w w') /\ led w' = false /\
               (fb w' = None \/ free_heap env (reads w) < 20000 /\ fb w' = fb w)).
    { intros w3 w' reconnect K3 E3 Hclass Hnone Hdelay Hreads Hnow
             (K' & Hfree & Hled & stamp & wu & o & up & Hsrc & Hrun & E').
      destruct (keeps_step w w2 w3 _ _ K02 E02 K3 E3) as [K03 E03].
      destruct (keeps_step w w3 w' _ _ K03 E03 K' E') as [K E].
      split; [exact K |]. split; [| split; [exact Hled | left; exact Hfree]].
      rewrite E, <- app_assoc.
      rewrite Hreads, Hnow in Hsrc.
      eapply crun_upload; eassumption. }
    destruct (wifi_connected env (S (S (reads w)))) eqn:Hup; simpl negb; cbv iota.
    + apply total_bind. apply total_ret. simpl negb. cbv iota.
      eapply total_weaken; [apply (upload_and_free_run f w2 F2 Hok) |].
      intros u w' Hpost.
      apply (Hfinish w2 w' []); auto;
        first [ subst w2; keeps_now
              | change (now w2) with (now w1); rewrite N1; simpl; lia
              | simpl; lia ].
    + eapply total_seq; [apply connectToWiFi_run |].
      intros online w3 (A3 & (tries & E3 & T3 & N3) & _ & _ & C3). cbv beta.
      assert (F3 : fb w3 = Some f) by (rewrite (adv_fb _ _ _ A3); exact F2).
      apply advance_keeps in A3 as K3.
      destruct online; simpl negb; cbv iota.
      * eapply total_weaken; [apply (upload_and_free_run f w3 F3 Hok) |].
        intros u w' Hpost.
        destruct (wifi_tries_facts _ _ _ T3) as (_ & _ & Hge & _ & Hd & _).
        specialize (Hge ltac:(discriminate)).
        assert (Htries : count is_wifi_begin (emitted w2 w3)
                         = count is_wifi_begin tries).
        { rewrite E3. reflexivity. }
        apply (Hfinish w3 w' (emitted w2 w3)); auto.
        -- apply (advance_emitted _ _ _ A3).
        -- discriminate.
        -- rewrite E3.
           change (delay_total (EvWifiMode true :: EvWifiSetSleep false :: tries))
             with (delay_total tries).
           simpl in Hd. lia.
        -- unfold wifi_reads.
           change (reads w2) with (S (S (S (reads w)))) in C3. lia.
        -- rewrite N3, E3.
           change (delay_total (EvWifiMode true :: EvWifiSetSleep false :: tries))
             with (delay_total tries).
           change (now w2) with (now w1). rewrite N1. reflexivity.
      * unfold Camera_free. steps.
        set (w' := set_fb _ _).
        assert (K' : keeps w3 w') by (subst w'; keeps_now).
        assert (E' : emitted w3 w'
                     = (EvLed false :: blink_events 3 100 100 ++ [EvCamFree])%list).
        { subst w'. emitted_now. reflexivity. }
        destruct (keeps_step w w2 w3 _ _ K02 E02 K3 E3) as [K03 E03].
        destruct (keeps_step w w3 w' _ _ K03 E03 K' E') as [K E].
        split; [exact K |]. split; [| split; [reflexivity | left; reflexivity]].
        rewrite E. simpl app.
        apply (crun_offline w f tries); assumption.
Qed.

End CaptureRuns.

(** *** Consequences for the LED and for what goes on the wire *)

Definition no_tls (ev : Event) : bool := negb (is_tls ev).

Lemma wifi_class_no_tls ev : wifi_class ev = true -> no_tls ev = true.
Proof. unfold no_tls. destruct ev; simpl; congruence. Qed.

Lemma wifi_class_not_led_on ev : wifi_class ev = true -> is_led_on ev = false.
Proof. destruct ev; simpl; congruence. Qed.

Lemma upload_report_no_tls o : forallb no_tls (upload_report o) = true.
Proof. unfold upload_report. destruct (succeeded o); reflexivity. Qed.

Lemma upload_report_blinks o :
  count is_led_on (upload_report o) = if succeeded o then 2%nat else 5%nat.
Proof. unfold upload_report. destruct (succeeded o); reflexivity. Qed.

Section CaptureRunFacts.

Variable env : Env.

Lemma upload_run_shape d N f w o evs :
  upload_run env d N f w o evs -> upload_shape env d N f w o evs.
Proof.
  assert (Hcs : forall k, connect_stage (connected_after k)).
  { intros k. split; [apply connected_after_class |].
    unfold connected_after. destruct k as [| k]; simpl; eauto. }
  intros [Hoff | Hup Hbad | Hs Hall | k ws Hs Hk Hok Hws _ _ | k Hs Hk Hok _ _
          | k j rx Hs Hk Hok Hj Hrx _ _].
  - constructor; assumption.
  - constructor; assumption.
  - constructor; [assumption |]. split; [reflexivity |]. unfold refused. eauto.
  - constructor; auto.
  - constructor; auto; apply forallb_repeat; reflexivity.
  - constructor; auto; apply forallb_repeat; reflexivity.
Qed.

Lemma upload_run_no_led d N f w o evs :
  upload_run env d N f w o evs -> count is_led_on evs = 0%nat.
Proof.
  intros Hrun. apply upload_run_shape in Hrun.
  destruct Hrun as [Hoff | Hup Hbad | cs Hs [Hcs _] | cs ws Hs [Hcs _] Hws
                    | cs ds Hs [Hcs _] Hds | cs ds rx Hs [Hcs _] Hds Hrx];
    try reflexivity;
    assert (C : count is_led_on cs = 0%nat)
      by (apply (count_none _ connect_class); [exact Hcs |];
          intros ev; destruct ev; simpl; congruence);
    try exact C;
    change (EvTlsPrint f N :: ?l) with ([EvTlsPrint f N] ++ l)%list.
  - destruct Hws as (j & r & Hj & Hshort & ->).
    rewrite !count_app, C, count_chunks_none by reflexivity. reflexivity.
  - rewrite !count_app, C, count_chunks_none by reflexivity.
    rewrite (count_none _ is_delay ds Hds)
      by (intros ev; destruct ev; simpl; congruence).
    reflexivity.
  - rewrite !count_app, C, count_chunks_none by reflexivity.
    rewrite (count_none _ is_delay ds Hds)
      by (intros ev; destruct ev; simpl; congruence).
    reflexivity.
Qed.

(** An upload reports success exactly when it received a response that
    the status test accepts. *)
Lemma upload_run_accepted d N f w o evs :
  upload_run env d N f w o evs ->
  (succeeded o = true <->
   exists rx, In (EvTlsRecv rx) evs /\ status_ok rx = true).
Proof.
  intros Hrun. split.
  - intros Hs.
    destruct Hrun as [Hoff | Hup Hbad | Hs' Hall | k ws Hs' Hk Hok Hws _ _ | k Hs' Hk Hok _ _
                      | k j rx Hs' Hk Hok Hj Hrx _ _]; try discriminate Hs.
    destruct (status_ok rx) eqn:Hyes; [| discriminate Hs].
    exists rx. split; [| exact Hyes].
    apply in_or_app. right. right.
    apply in_or_app. right. apply in_or_app. right. left. reflexivity.
  - intros (rx & Hin & Hyes). apply upload_run_shape in Hrun.
    apply received_In in Hin.
    destruct (upload_shape_received env _ _ _ _ _ _ Hrun)
      as [Hnone | (rx0 & _ & Hone & ->)].
    + rewrite Hnone in Hin. destruct Hin.
    + rewrite Hone in Hin. destruct Hin as [<- | []].
      rewrite Hyes. reflexivity.
Qed.

(** An upload that does anything starts with a connection attempt. *)
Lemma upload_run_head d N f w o evs :
  upload_run env d N f w o evs ->
  evs = [] \/ exists ok rest, evs = EvTlsConnect ok :: rest.
Proof.
  assert (Hcs : forall k tail, exists ok rest,
               (connected_after k ++ tail)%list = EvTlsConnect ok :: rest).
  { intros k tail. unfold connected_after. destruct k as [| k]; simpl; eauto. }
  intros [Hoff | Hup Hbad | Hs Hall | k ws Hs Hk Hok Hws _ _ | k Hs Hk Hok _ _
          | k j rx Hs Hk Hok Hj Hrx _ _]; auto; right; try apply Hcs.
  unfold refused. eauto.
Qed.

Lemma upload_run_print d N f w o evs name L :
  upload_run env d N f w o evs -> In (EvTlsPrint name L) evs -> name = f /\ L = N.
Proof.
  intros Hrun Hin.
  assert (Hcs : forall k, ~ In (EvTlsPrint name L) (connected_after k)).
  { intros k H. apply In_connected_after in H as [H | [H | H]]; discriminate. }
  assert (Hch : forall i k, ~ In (EvTlsPrint name L) (chunks_from d N i k)).
  { intros i k. apply (forallb_not_In wire_class); [apply chunks_wire | reflexivity]. }
  assert (Hds : forall j, ~ In (EvTlsPrint name L) (repeat (EvDelay 10) j)).
  { intros j H. apply repeat_spec in H. discriminate. }
  destruct Hrun as [Hoff | Hup Hbad | Hs Hall | k ws Hs Hk Hok Hws _ _ | k Hs Hk Hok _ _
                    | k j rx Hs Hk Hok Hj Hrx _ _].
  - destruct Hin.
  - destruct Hin.
  - simpl in Hin. destruct Hin as [H | [H | [H | [H | [H | []]]]]]; discriminate.
  - destruct Hws as (j & r' & Hj & Hshort & ->).
    apply in_app_or in Hin as [H | [H | H]]; [destruct (Hcs _ H) | |].
    + injection H as <- <-. auto.
    + apply in_app_or in H as [H | [H | [H | []]]];
        [destruct (Hch _ _ H) | discriminate | discriminate].
  - apply in_app_or in Hin as [H | [H | H]]; [destruct (Hcs _ H) | |].
    + injection H as <- <-. auto.
    + apply in_app_or in H as [H | H]; [destruct (Hch _ _ H) |].
      apply in_app_or in H as [H | [H | []]]; [destruct (Hds _ H) | discriminate].
  - apply in_app_or in Hin as [H | [H | H]]; [destruct (Hcs _ H) | |].
    + injection H as <- <-. auto.
    + apply in_app_or in H as [H | H]; [destruct (Hch _ _ H) |].
      apply in_app_or in H as [H | [H | [H | []]]];
        [destruct (Hds _ H) | discriminate | discriminate].
Qed.

(** Whatever went over the socket during a capture went over it in the
    upload of the frame just captured, under the name stamped on the
    way. *)
Lemma capture_run_tls w evs ev :
  capture_run env w evs -> is_tls ev = true -> In ev evs ->
  exists f reconnect stamp w1 o up,
    fb_get env (S (reads w)) = Some f /\ valid_frame f /\
    stamped env w reconnect stamp w1 /\
    upload_run env (buf f) (Z.of_N (len f)) (photo_name stamp) w1 o up /\
    In ev up /\
    forallb wifi_class reconnect = true /\
    (wifi_connected env (S (S (reads w))) = true -> reconnect = []) /\
    evs = ([EvTakeAndUpload; EvLed true; EvCamGet true] ++ reconnect ++ up ++
           upload_report o ++ [EvCamFree])%list.
Proof.
  intros Hrun Htls Hin.
  assert (Hno : forall l, forallb no_tls l = true -> ~ In ev l).
  { intros l Hl. apply (forallb_not_In no_tls); [exact Hl |].
    unfold no_tls. rewrite Htls. reflexivity. }
  destruct Hrun as [Hheap | Hheap Hget | f Hheap Hget Hbad
                    | f tries Hheap Hget Hok Hup Htries
                    | f reconnect stamp w1 o up Hheap Hget Hok Hclass Hnone Hdelay Hsrc Hupload].
  - exfalso. revert Hin. apply Hno. reflexivity.
  - exfalso. revert Hin. apply Hno. reflexivity.
  - exfalso. revert Hin. apply Hno. reflexivity.
  - exfalso. revert Hin. apply Hno.
    rewrite forallb_app. simpl forallb at 1.
    change (EvLed false :: ?l) with ([EvLed false] ++ l)%list.
    rewrite !forallb_app.
    rewrite (forallb_weaken _ _ _ wifi_class_no_tls
               (proj1 (wifi_tries_facts _ _ _ Htries))).
    reflexivity.
  - apply in_app_or in Hin as [H | H]; [exfalso; revert H; apply Hno; reflexivity |].
    apply in_app_or in H as [H | H].
    { exfalso. revert H. apply Hno. apply (forallb_weaken _ _ _ wifi_class_no_tls Hclass). }
    apply in_app_or in H as [H | H].
    { exists f, reconnect, stamp, w1, o, up.
      split; [exact Hget |]. split; [exact Hok |]. split; [exact Hsrc |].
      split; [exact Hupload |]. split; [exact H |]. split; [exact Hclass |].
      split; [exact Hnone | reflexivity]. }
    exfalso. revert H. apply Hno.
    rewrite forallb_app, upload_report_no_tls. reflexivity.
Qed.

Lemma capture_run_blinks w evs :
  capture_run env w evs ->
  let blinks := count is_led_on evs in
  (blinks = 1 \/ blinks = 3 \/ blinks = 4 \/ blinks = 6)%nat /\
  (blinks = 1%nat <->
   ~ (20000 <= free_heap env (reads w) /\
      exists f, fb_get env (S (reads w)) = Some f /\ valid_frame f)) /\
  (blinks = 3%nat <->
   exists rx, In (EvTlsRecv rx) evs /\ status_ok rx = true).
Proof.
  intros Hrun. cbv zeta.
  assert (Hrecv : forall rx, In (EvTlsRecv rx) evs ->
            exists f stamp w1 o up,
              upload_run env (buf f) (Z.of_N (len f)) (photo_name stamp) w1 o up /\
              In (EvTlsRecv rx) up /\
              count is_led_on evs = (1 + (if succeeded o then 2 else 5))%nat).
  { intros rx Hin.
    destruct (capture_run_tls w evs (EvTlsRecv rx) Hrun eq_refl Hin)
      as (f & re & stamp & w1 & o & up & Hget & Hok & Hsrc & Hupload & Hup & _).
    destruct Hrun as [Hheap | Hheap Hget' | f' Hheap Hget' Hbad
                      | f' tries Hheap Hget' Hok' Hdown Htries
                      | f' reconnect stamp' w1' o' up' Hheap Hget' Hok' Hclass Hnone
                          Hdelay Hsrc' Hupload'].
    - exfalso. revert Hin. apply (forallb_not_In no_tls); reflexivity.
    - exfalso. revert Hin. apply (forallb_not_In no_tls); reflexivity.
    - exfalso. revert Hin. apply (forallb_not_In no_tls); reflexivity.
    - exfalso. revert Hin. apply (forallb_not_In no_tls); [| reflexivity].
      rewrite forallb_app. simpl forallb at 1.
      change (EvLed false :: ?l) with ([EvLed false] ++ l)%list.
      rewrite !forallb_app.
      rewrite (forallb_weaken _ _ _ wifi_class_no_tls
                 (proj1 (wifi_tries_facts _ _ _ Htries))).
      reflexivity.
    - exists f', stamp', w1', o', up'. split; [exact Hupload' |]. split.
      + apply in_app_or in Hin as [H | H];
          [exfalso; revert H; apply (forallb_not_In no_tls); reflexivity |].
        apply in_app_or in H as [H | H].
        { exfalso. revert H. apply (forallb_not_In no_tls); [| reflexivity].
          apply (forallb_weaken _ _ _ wifi_class_no_tls Hclass). }
        apply in_app_or in H as [H | H]; [exact H |].
        exfalso. revert H. apply (forallb_not_In no_tls); [| reflexivity].
        rewrite forallb_app, upload_report_no_tls. reflexivity.
      + rewrite !count_app, (upload_run_no_led _ _ _ _ _ _ Hupload'),
          upload_report_blinks.
        rewrite (count_none _ wifi_class reconnect Hclass wifi_class_not_led_on).
        change (count is_led_on [EvTakeAndUpload; EvLed true; EvCamGet true]) with 1%nat.
        change (count is_led_on [EvCamFree]) with 0%nat. lia. }
  destruct Hrun as [Hheap | Hheap Hget | f Hheap Hget Hbad
                    | f tries Hheap Hget Hok Hdown Htries
                    | f reconnect stamp w1 o up Hheap Hget Hok Hclass Hnone Hdelay Hsrc Hupload].
  - change (count is_led_on _) with 1%nat.
    split; [auto |]. split.
    + split; [intros _ [H _]; lia | reflexivity].
    + split; [discriminate |].
      intros (rx & Hin & _). exfalso. revert Hin.
      apply (forallb_not_In no_tls); reflexivity.
  - change (count is_led_on _) with 1%nat.
    split; [auto |]. split.
    + split; [intros _ (_ & f & Hf & _); congruence | reflexivity].
    + split; [discriminate |].
      intros (rx & Hin & _). exfalso. revert Hin.
      apply (forallb_not_In no_tls); reflexivity.
  - change (count is_led_on _) with 1%nat.
    split; [auto |]. split.
    + split; [| reflexivity].
      intros _ (_ & f' & Hf & Hv). rewrite Hget in Hf. injection Hf as <-. auto.
    + split; [discriminate |].
      intros (rx & Hin & _). exfalso. revert Hin.
      apply (forallb_not_In no_tls); reflexivity.
  - assert (C : count is_led_on
                  ([EvTakeAndUpload; EvLed true; EvCamGet true;
                    EvWifiMode true; EvWifiSetSleep false] ++ tries ++
                   EvLed false :: blink_events 3 100 100 ++ [EvCamFree]) = 4%nat).
    { rewrite !count_app.
      rewrite (count_none _ wifi_class tries
                 (proj1 (wifi_tries_facts _ _ _ Htries)) wifi_class_not_led_on).
      reflexivity. }
    rewrite C. split; [auto |]. split.
    + split; [discriminate |]. intros H. exfalso. apply H. eauto.
    + split; [discriminate |].
      intros (rx & Hin & _).
      destruct (Hrecv rx Hin) as (f' & s' & w' & o' & up' & _ & _ & Hc).
      rewrite C in Hc. destruct (succeeded o'); discriminate.
  - assert (C : count is_led_on
                  ([EvTakeAndUpload; EvLed true; EvCamGet true] ++ reconnect ++ up ++
                   upload_report o ++ [EvCamFree])
                = (1 + (if succeeded o then 2 else 5))%nat).
    { rewrite !count_app, (upload_run_no_led _ _ _ _ _ _ Hupload), upload_report_blinks.
      rewrite (count_none _ wifi_class reconnect Hclass wifi_class_not_led_on).
      change (count is_led_on [EvTakeAndUpload; EvLed true; EvCamGet true]) with 1%nat.
      change (count is_led_on [EvCamFree]) with 0%nat. lia. }
    rewrite C.
    pose proof (upload_run_accepted _ _ _ _ _ _ Hupload) as Hacc.
    split; [destruct (succeeded o); auto |]. split.
    + split; [destruct (succeeded o); discriminate |].
      intros H. exfalso. apply H. eauto.
    + split.
      * intros Hc. destruct (succeeded o) eqn:Hs; [| discriminate].
        destruct (proj1 Hacc eq_refl) as (rx & Hin & Hok').
        exists rx. split; [| exact Hok'].
        apply in_or_app. right. apply in_or_app. right.
        apply in_or_app. left. exact Hin.
      * intros (rx & Hin & Hok').
        destruct (succeeded o) eqn:Hs; [reflexivity | exfalso].
        assert (Hup : In (EvTlsRecv rx) up).
        { apply in_app_or in Hin as [H | H];
            [exfalso; revert H; apply (forallb_not_In no_tls); reflexivity |].
          apply in_app_or in H as [H | H].
          { exfalso. revert H. apply (forallb_not_In no_tls); [| reflexivity].
            apply (forallb_weaken _ _ _ wifi_class_no_tls Hclass). }
          apply in_app_or in H as [H | H]; [exact H |].
          exfalso. revert H. apply (forallb_not_In no_tls); [| reflexivity].
          rewrite forallb_app, upload_report_no_tls. reflexivity. }
        assert (Hyes : false = true) by (apply Hacc; eauto).
        discriminate.
Qed.

End CaptureRunFacts.

(** *** The blocks of [loop], with the clock and the frame *)

Lemma since_last_photo_range w : U32.in_range (since_last_photo w).
Proof.
  unfold since_last_photo, U32.sub, U32.wrap, U32.in_range.
  apply Z.mod_pos_bound. reflexivity.
Qed.

Lemma PHOTO_INTERVAL_range hours : U32.in_range (PHOTO_INTERVAL hours).
Proof.
  unfold PHOTO_INTERVAL, U32.wrap, U32.in_range.
  apply Z.mod_pos_bound. reflexivity.
Qed.

(** The time since the last photo grows with the clock, modulo 2^32. *)
Lemma since_later w w' dt :
  lastPhotoTime w' = lastPhotoTime w -> now w' = now w + dt ->
  since_last_photo w' = U32.wrap (since_last_photo w + dt).
Proof.
  intros Hl Hn. unfold since_last_photo, U32.sub, U32.wrap. rewrite Hl, Hn.
  rewrite !Zminus_mod_idemp_l, Zplus_mod_idemp_l.
  f_equal. lia.
Qed.

Definition any_event (ev : Event) : bool := true.

Section BlockRuns.

Variable PHOTO_INTERVAL_HOURS : Z.
Variable env : Env.

(** The timer block when it goes to sleep: the sleep is over within
    30 s, which the 60 s margin covers. *)
Lemma loop_timer_sleeps w :
  since_last_photo w < PHOTO_INTERVAL PHOTO_INTERVAL_HOURS ->
  60000 < U32.sub (PHOTO_INTERVAL PHOTO_INTERVAL_HOURS) (since_last_photo w) ->
  total (loop_timer PHOTO_INTERVAL_HOURS env) w
    (fun _ w2 =>
       advance any_event w w2 /\ led w2 = led w /\
       emitted w w2 = light_sleep_events /\
       now w <= now w2 <= now w + 30000 /\
       since_last_photo w2 = since_last_photo w + (now w2 - now w) /\
       since_last_photo w2 + 30000 < PHOTO_INTERVAL PHOTO_INTERVAL_HOURS).
Proof.
  intros Hnot Hidle.
  pose proof (since_last_photo_range w) as Hs.
  pose proof (PHOTO_INTERVAL_range PHOTO_INTERVAL_HOURS) as Hi.
  unfold U32.in_range in Hs, Hi. rewrite U32.modulus_eq in Hs, Hi.
  rewrite U32.sub_small in Hidle by (rewrite U32.modulus_eq; lia).
  unfold loop_timer. steps. fold (since_last_photo w).
  replace (since_last_photo w >=? PHOTO_INTERVAL PHOTO_INTERVAL_HOURS) with false
    by (symmetry; rewrite Z.geb_leb; apply Z.leb_gt; exact Hnot).
  rewrite U32.sub_small by (rewrite U32.modulus_eq; lia).
  replace (PHOTO_INTERVAL PHOTO_INTERVAL_HOURS - since_last_photo w >? 60000) with true
    by (symmetry; rewrite Z.gtb_ltb; apply Z.ltb_lt; exact Hidle).
  unfold enterLightSleep, esp_light_sleep_start, LIGHT_SLEEP_DURATION. steps.
  change (30000000 / 1000) with 30000.
  set (dt := Z.max 0 (Z.min (sleep_ms env (reads w)) 30000)).
  assert (Hdt : 0 <= dt <= 30000) by (subst dt; lia).
  set (w2 := set_trace _ _).
  assert (A : advance any_event w w2) by (subst w2; advance_now).
  assert (Hsince : since_last_photo w2 = since_last_photo w + dt).
  { rewrite (since_later w w2 dt); [| reflexivity | reflexivity].
    apply U32.wrap_small. unfold U32.in_range. rewrite U32.modulus_eq. lia. }
  split; [exact A |]. split; [reflexivity |].
  split; [subst w2; emitted_now; reflexivity |].
  change (now w2) with (now w + dt).
  split; [lia |]. split; [rewrite Hsince; lia |]. rewrite Hsince. lia.
Qed.

(** The timer block with the capture close: nothing happens. *)
Lemma loop_timer_waits w :
  since_last_photo w < PHOTO_INTERVAL PHOTO_INTERVAL_HOURS ->
  U32.sub (PHOTO_INTERVAL PHOTO_INTERVAL_HOURS) (since_last_photo w) <= 60000 ->
  loop_timer PHOTO_INTERVAL_HOURS env w = Some (tt, w).
Proof.
  intros Hnot Hsoon.
  unfold loop_timer, bind, millis, gets. fold (since_last_photo w).
  replace (since_last_photo w >=? PHOTO_INTERVAL PHOTO_INTERVAL_HOURS) with false
    by (symmetry; rewrite Z.geb_leb; apply Z.leb_gt; exact Hnot).
  replace (U32.sub (PHOTO_INTERVAL PHOTO_INTERVAL_HOURS) (since_last_photo w) >? 60000)
    with false by (symmetry; rewrite Z.gtb_ltb; apply Z.ltb_ge; exact Hsoon).
  reflexivity.
Qed.

(** The timer block with the capture due. *)
Lemma loop_timer_captures w :
  PHOTO_INTERVAL PHOTO_INTERVAL_HOURS <= since_last_photo w ->
  total (loop_timer PHOTO_INTERVAL_HOURS env) w
    (fun _ w2 =>
       capture_run env w (emitted w w2) /\ tick_keeps w w2 /\
       lastPhotoTime w2 = U32.wrap (now w2) /\ led w2 = false /\
       asleep w2 = asleep w /\ buttonPressed w2 = buttonPressed w /\
       buttonPressTime w2 = buttonPressTime w /\
       (fb w2 = None \/ fb w2 = fb w)).
Proof.
  intros Hdue.
  unfold loop_timer. steps. fold (since_last_photo w).
  replace (since_last_photo w >=? PHOTO_INTERVAL PHOTO_INTERVAL_HOURS) with true
    by (symmetry; apply Z.geb_le; exact Hdue).
  eapply total_seq; [apply takeAndUploadPhoto_run |].
  intros u w1 (K & Hrun & Hled & Hfb). cbv beta. steps.
  assert (E : emitted w (set_lastPhotoTime (U32.wrap (now w1)) w1) = emitted w w1)
    by reflexivity.
  destruct K as [k1 k2 k3 k4 k5 k6 k7].
  rewrite E. split; [exact Hrun |].
  split; [constructor; [exact k6 | rewrite E; exact k7] |].
  split; [reflexivity |]. split; [exact Hled |].
  split; [exact k1 |]. split; [exact k4 |]. split; [exact k3 |].
  destruct Hfb as [H | [_ H]]; auto.
Qed.

(** What the timer block does to the frame pointer. *)
Lemma loop_timer_frame w :
  total (loop_timer PHOTO_INTERVAL_HOURS env) w
    (fun _ w2 => fb w2 = None \/ fb w2 = fb w).
Proof.
  destruct (Z_lt_le_dec (since_last_photo w) (PHOTO_INTERVAL PHOTO_INTERVAL_HOURS))
    as [Hnot | Hdue].
  - destruct (Z_lt_le_dec 60000
                (U32.sub (PHOTO_INTERVAL PHOTO_INTERVAL_HOURS) (since_last_photo w)))
      as [Hidle | Hsoon].
    + eapply total_weaken; [apply (loop_timer_sleeps w Hnot Hidle) |].
      intros u w2 (A & _). right. apply (adv_fb _ _ _ A).
    + exists tt, w. split; [apply (loop_timer_waits w Hnot Hsoon) | auto].
  - eapply total_weaken; [apply (loop_timer_captures w Hdue) |].
    intros u w2 H. apply H.
Qed.

(** What the button block does to the frame pointer. *)
Lemma loop_button_frame w :
  total (loop_button env) w (fun _ w1 => fb w1 = None \/ fb w1 = fb w).
Proof.
  unfold loop_button. steps.
  destruct (button_high env (reads w)); simpl negb; cbv iota.
  - destruct (buttonPressed w).
    + steps. destruct (_ <? 3000); cbv iota.
      * eapply total_weaken; [apply takeAndUploadPhoto_run |].
        intros u w1 (_ & _ & _ & Hfb). steps.
        destruct Hfb as [H | [_ H]]; auto.
      * steps. auto.
    + steps. auto.
  - destruct (buttonPressed w); simpl negb; cbv iota.
    + steps. destruct (_ >? 3000); cbv iota.
      * unfold handleShutdown. steps. auto.
      * steps. auto.
    + steps. auto.
Qed.

Lemma loop_rest_frame w :
  total (loop_debug ;; delay 100) w
    (fun _ w' => fb w' = fb w /\ now w' = now w + 100 /\ led w' = led w).
Proof.
  unfold loop_debug. steps.
  destruct (_ >? 300000); steps; auto.
Qed.

(** A tick never picks up a frame and keeps it. *)
Lemma loop_frame w :
  total (loop PHOTO_INTERVAL_HOURS env) w (fun _ w' => fb w' = None \/ fb w' = fb w).
Proof.
  unfold loop. eapply total_seq; [apply loop_button_frame |].
  intros continue w1 H1. cbv beta. destruct continue.
  - eapply total_seq; [apply loop_timer_frame |].
    intros u w2 H2. cbv beta.
    eapply total_weaken; [apply loop_rest_frame |].
    intros u' w' (H3 & _). rewrite H3.
    destruct H2 as [H2 | H2]; [auto |]. rewrite H2. exact H1.
  - steps. exact H1.
Qed.

End BlockRuns.

(** *** [setup], event by event *)

(** The clock moved by exactly the delays on the trace. *)
Definition clocked (w w' : World) : Prop :=
  now w' = now w + delay_total (emitted w w').

Lemma clocked_trans P Q w w1 w2 :
  advance P w w1 -> advance Q w1 w2 ->
  clocked w w1 -> clocked w1 w2 -> clocked w w2.
Proof.
  unfold clocked. intros A1 A2 C1 C2.
  rewrite (emitted_trans _ _ _ _ _ A1 A2), delay_total_app. lia.
Qed.

Lemma advance_any P w w' : advance P w w' -> advance any_event w w'.
Proof. apply advance_weaken. reflexivity. Qed.

Section SetupRuns.

Variable env : Env.

(** The wait for the clock: a poll of [getLocalTime] every second, over
    at the first success or after [n] failures. *)
Lemma time_sync_run n c w :
  total (time_sync env n c) w
    (fun c' w' =>
       advance wifi_class w w' /\ led w' = led w /\
       exists j, (j <= n)%nat /\
         emitted w w' = repeat (EvDelay 1000) j /\
         now w' = now w + 1000 * Z.of_nat j /\
         c' = c + Z.of_nat j /\ reads w' = (reads w + S j)%nat /\
         (forall i, (i < j)%nat -> local_time env (reads w + i) = None) /\
         ((j < n)%nat -> local_time env (reads w + j) <> None)).
Proof.
  revert c w. induction n as [| n IH]; intros c w; cbn [time_sync]; steps.
  - destruct (local_time env (reads w)) as [t |] eqn:Ht; cbn [is_some]; steps;
      (split; [advance_now | split; [reflexivity |]]);
      exists O; (split; [lia |]); (split; [emitted_now; reflexivity |]);
      (split; [simpl; lia |]);
      (split; [lia |]); (split; [lia |]); (split; [intros i Hi; lia | lia]).
  - destruct (local_time env (reads w)) as [t |] eqn:Ht; cbn [is_some].
    + steps. split; [advance_now | split; [reflexivity |]].
      exists O. split; [lia |]. split; [emitted_now; reflexivity |].
      split; [simpl; lia |].
      split; [lia |]. split; [lia |]. split; [intros i Hi; lia |].
      intros _. rewrite Nat.add_0_r, Ht. discriminate.
    + steps.
      set (w1 := set_trace _ _).
      assert (A1 : advance wifi_class w w1) by (subst w1; advance_now).
      assert (E1 : emitted w w1 = [EvDelay 1000]) by (subst w1; emitted_now; reflexivity).
      eapply total_weaken; [apply (IH (c + 1) w1) |].
      intros c' w' (A2 & L2 & j & Hj & E2 & Hn & Hc & Hr & Hnone & Hsome).
      destruct (advance_step _ _ _ _ _ _ A1 E1 A2 E2) as [A E].
      split; [exact A |]. split; [exact L2 |].
      change (reads w1) with (S (reads w)) in Hr, Hnone, Hsome.
      change (now w1) with (now w + 1000) in Hn.
      exists (S j). split; [lia |]. split; [exact E |].
      split; [lia |].
      split; [lia |]. split; [lia |]. split.
      * intros i Hi. destruct i as [| i].
        -- rewrite Nat.add_0_r. exact Ht.
        -- replace (reads w + S i)%nat with (S (reads w) + i)%nat by lia.
           apply Hnone. lia.
      * intros Hlt. replace (reads w + S j)%nat with (S (reads w) + j)%nat by lia.
        apply Hsome. lia.
Qed.

(** Every run of [setup] from [w]. *)
Inductive setup_run (w : World) : list Event -> Prop :=
| srun_no_camera :
    camera_begin env (reads w) = false ->
    setup_run w init_failure_events
| srun_offline tries :
    camera_begin env (reads w) = true ->
    wifi_tries 3 false tries ->
    setup_run w
      ([EvLed true; EvCamBegin true; EvCamConfig;
        EvWifiMode true; EvWifiSetSleep false] ++ tries ++
       EvLed false :: blink_events 3 300 300 ++ [EvExt0Wakeup])
| srun_online tries j :
    camera_begin env (reads w) = true ->
    wifi_tries 3 true tries -> (j <= 10)%nat ->
    setup_run w
      ([EvLed true; EvCamBegin true; EvCamConfig;
        EvWifiMode true; EvWifiSetSleep false] ++ tries ++
       EvConfigTime :: repeat (EvDelay 1000) j ++
       EvLed false :: blink_events 3 300 300 ++ [EvExt0Wakeup]).

(** The end of a [setup] whose camera works. *)
Lemma setup_tail w :
  total (digitalWrite_led false ;; blink 3 300 300 ;;
         t <- millis ;; modify (set_lastPhotoTime t) ;; emit EvExt0Wakeup) w
    (fun _ w' =>
       tick_keeps w w' /\
       emitted w w' = (EvLed false :: blink_events 3 300 300 ++ [EvExt0Wakeup])%list /\
       now w' = now w + 1800 /\ led w' = false /\
       lastPhotoTime w' = U32.wrap (now w') /\
       fb w' = fb w /\ asleep w' = asleep w /\
       buttonPressed w' = buttonPressed w /\ buttonPressTime w' = buttonPressTime w).
Proof.
  steps. split; [tick_keeps_now |]. split; [emitted_now; reflexivity |].
  split; [lia |]. repeat split; reflexivity.
Qed.

Theorem setup_run_spec w :
  total (setup env) w
    (fun _ w' =>
       setup_run w (emitted w w') /\ tick_keeps w w' /\ clocked w w' /\
       fb w' = fb w /\ asleep w' = asleep w /\
       buttonPressed w' = buttonPressed w /\ buttonPressTime w' = buttonPressTime w /\
       (if camera_begin env (reads w)
        then led w' = false /\ lastPhotoTime w' = U32.wrap (now w')
        else led w' = true /\ lastPhotoTime w' = lastPhotoTime w)).
Proof.
  unfold setup. steps.
  destruct (camera_begin env (reads w)) eqn:Hbegin; cbn [negb].
  2:{ do 11 (steps; cbn [negb]).
      split; [emitted_now; apply srun_no_camera; exact Hbegin |].
      split; [tick_keeps_now |].
      split; [unfold clocked; emitted_now; simpl; lia |].
      repeat split; reflexivity. }
  steps.
  set (w0 := set_trace _ _).
  assert (A0 : advance any_event w w0) by (subst w0; advance_now).
  assert (E0 : emitted w w0 = [EvLed true; EvCamBegin true; EvCamConfig])
    by (subst w0; emitted_now; reflexivity).
  assert (C0 : clocked w w0) by (unfold clocked; rewrite E0; simpl; lia).
  eapply total_seq; [apply connectToWiFi_run |].
  intros online w1 (A1 & (tries & E1 & T1 & N1) & _ & _). cbv beta.
  apply advance_any in A1 as A1'.
  destruct (advance_step _ _ _ _ _ _ A0 E0 A1' E1) as [B1 F1].
  assert (C1 : clocked w w1).
  { eapply clocked_trans; [exact A0 | exact A1 | exact C0 |].
    unfold clocked. rewrite E1. exact N1. }
  assert (Hend : forall w2 sync,
             advance any_event w1 w2 -> emitted w1 w2 = sync -> clocked w1 w2 ->
             setup_run w
               (([EvLed true; EvCamBegin true; EvCamConfig] ++
                 EvWifiMode true :: EvWifiSetSleep false :: tries) ++ sync ++
                EvLed false :: blink_events 3 300 300 ++ [EvExt0Wakeup]) ->
             total (digitalWrite_led false ;; blink 3 300 300 ;;
                    t <- millis ;; modify (set_lastPhotoTime t) ;; emit EvExt0Wakeup) w2
               (fun _ w' =>
                  setup_run w (emitted w w') /\ tick_keeps w w' /\ clocked w w' /\
                  fb w' = fb w /\ asleep w' = asleep w /\
                  buttonPressed w' = buttonPressed w /\
                  buttonPressTime w' = buttonPressTime w /\
                  led w' = false /\ lastPhotoTime w' = U32.wrap (now w'))).
  { intros w2 sync A2 E2 C2 Hshape.
    destruct (advance_step _ _ _ _ _ _ B1 F1 A2 E2) as [B2 F2].
    eapply total_weaken; [apply setup_tail |].
    intros u w' (K3 & E3 & N3 & L3 & P3 & f3 & a3 & p3 & t3).
    assert (K2 : tick_keeps w w2).
    { constructor; [apply (adv_now _ _ _ B2) | apply (advance_trace _ _ _ B2)]. }
    destruct (tick_keeps_trans _ _ _ K2 K3) as [K E].
    split; [rewrite E, F2, E3, <- app_assoc; exact Hshape |].
    split; [exact K |].
    split.
    { unfold clocked in *. rewrite E, delay_total_app, E3, N3.
      assert (Cw2 : now w2 = now w + delay_total (emitted w w2)).
      { rewrite (emitted_trans _ _ _ _ _ B1 A2), delay_total_app. lia. }
      rewrite Cw2.
      change (delay_total (EvLed false :: blink_events 3 300 300 ++ [EvExt0Wakeup]))
        with 1800. lia. }
    rewrite f3, a3, p3, t3.
    rewrite (adv_fb _ _ _ B2), (adv_asleep _ _ _ B2), (adv_buttonPressed _ _ _ B2),
      (adv_buttonPressTime _ _ _ B2).
    repeat split; assumption. }
  destruct online; cbn [negb].
  - (* online: NTP *)
    apply total_bind. apply total_bind. apply total_emit.
    set (w2 := set_trace _ w1).
    assert (A2 : advance any_event w1 w2) by (subst w2; advance_now).
    assert (E2 : emitted w1 w2 = [EvConfigTime]) by (subst w2; emitted_now; reflexivity).
    assert (C2 : clocked w1 w2) by (unfold clocked; rewrite E2; subst w2; simpl; lia).
    apply total_bind.
    eapply total_weaken; [apply time_sync_run |].
    intros c w3 (A3 & _ & j & Hj & E3 & N3 & Hc & _). cbv beta.
    apply advance_any in A3 as A3'.
    destruct (advance_step _ _ _ _ _ _ A2 E2 A3' E3) as [B3 F3].
    assert (C3 : clocked w1 w3).
    { eapply clocked_trans; [exact A2 | exact A3 | exact C2 |].
      unfold clocked. rewrite E3, delay_total_repeat. exact N3. }
    assert (Hshape : setup_run w
              (([EvLed true; EvCamBegin true; EvCamConfig] ++
                EvWifiMode true :: EvWifiSetSleep false :: tries) ++
               ([EvConfigTime] ++ repeat (EvDelay 1000) j) ++
               EvLed false :: blink_events 3 300 300 ++ [EvExt0Wakeup])).
    { rewrite <- !app_assoc. simpl app.
      apply (srun_online w tries j); [exact Hbegin | exact T1 | exact Hj]. }
    destruct (c <? 10).
    + apply total_bind.
      eapply total_weaken; [apply getFormattedTimestamp_run |].
      intros stamp w4 (A4 & E4 & N4 & _). cbv beta.
      apply advance_any in A4 as A4'.
      destruct (advance_step _ _ _ _ _ _ B3 F3 A4' E4) as [B4 F4].
      rewrite app_nil_r in F4.
      apply total_ret.
      eapply total_weaken.
      * apply (Hend w4 _ B4 F4); [| exact Hshape].
        eapply clocked_trans; [exact B3 | exact A4 | exact C3 |].
        unfold clocked. rewrite E4, N4. simpl. lia.
      * intros u w' H. exact H.
    + apply total_ret.
      eapply total_weaken; [apply (Hend w3 _ B3 F3 C3 Hshape) |].
      intros u w' H. exact H.
  - apply total_bind. apply total_ret.
    eapply total_weaken.
    + apply (Hend w1 []); [apply advance_refl | apply emitted_refl | |].
      * unfold clocked. rewrite emitted_refl. simpl. lia.
      * simpl app. apply (srun_offline w tries); assumption.
    + intros u w' H. exact H.
Qed.

End SetupRuns.

(** *** Runs of many ticks *)

Definition is_cam_get_ok (ev : Event) : bool :=
  match ev with EvCamGet true => true | _ => false end.

Lemma capture_shape_balanced evs :
  capture_shape evs -> count is_cam_get_ok evs = count is_cam_free evs.
Proof.
  intros [| | | bg Hbg]; try reflexivity.
  rewrite !count_app.
  rewrite (count_none is_cam_get_ok background bg Hbg),
          (count_none is_cam_free background bg Hbg);
    try (intros ev; destruct ev; simpl; congruence).
  reflexivity.
Qed.

(** Multiples of 3600000 wrap to multiples of 128, so the interval stays
    clear of the top of the 32-bit range. *)
Lemma PHOTO_INTERVAL_ceiling hours : PHOTO_INTERVAL hours <= 4294967296 - 128.
Proof.
  pose proof (PHOTO_INTERVAL_range hours) as Hr.
  unfold U32.in_range in Hr. rewrite U32.modulus_eq in Hr.
  assert (Hmod : PHOTO_INTERVAL hours mod 128 = 0).
  { unfold PHOTO_INTERVAL, U32.wrap. rewrite U32.modulus_eq.
    rewrite Z.mod_mod_divide by (exists 33554432; reflexivity).
    replace (hours * 3600000) with (hours * 28125 * 128) by lia.
    apply Z.mod_mul. lia. }
  pose proof (Z.div_mod (PHOTO_INTERVAL hours) 128 ltac:(lia)) as Hdm.
  lia.
Qed.

Section RunFacts.

Variable PHOTO_INTERVAL_HOURS : Z.
Variable env : Env.

(** An invariant of the ticks of a device that is awake holds after any
    number of them. *)
Lemma run_loop_invariant (I : World -> Prop) :
  (forall w w', I w -> asleep w = false ->
                loop PHOTO_INTERVAL_HOURS env w = Some (tt, w') -> I w') ->
  forall ticks w, I w ->
    exists w', run_loop PHOTO_INTERVAL_HOURS env ticks w = Some (tt, w') /\ I w'.
Proof.
  intros Hstep. induction ticks as [| n IH]; intros w Hw; cbn [run_loop].
  - exists w. split; [reflexivity | exact Hw].
  - unfold bind at 1. unfold gets.
    destruct (asleep w) eqn:Ha.
    + exists w. split; [reflexivity | exact Hw].
    + destruct (loop_spec PHOTO_INTERVAL_HOURS env w) as (w1 & Hrun & _).
      unfold bind. rewrite Hrun. apply IH. apply (Hstep w w1); assumption.
Qed.

(** What a tick puts on the trace, and whether it ends in deep sleep. *)
Lemma tick_summary w :
  exists w',
    loop PHOTO_INTERVAL_HOURS env w = Some (tt, w') /\
    trace w' = (trace w ++ emitted w w')%list /\
    count is_cam_get_ok (emitted w w') = count is_cam_free (emitted w w') /\
    (fb w' = None \/ fb w' = fb w) /\
    ((asleep w' = asleep w /\ count is_deep_sleep (emitted w w') = 0%nat /\
      ~ (button_high env (reads w) = false /\ buttonPressed w = true /\
         3000 < held_for w)) \/
     (asleep w' = true /\ emitted w w' = shutdown_events /\
      button_high env (reads w) = false /\ buttonPressed w = true /\
      3000 < held_for w)).
Proof.
  destruct (loop_spec PHOTO_INTERVAL_HOURS env w) as (w' & Hrun & Htick).
  exists w'. split; [exact Hrun |].
  destruct (loop_frame PHOTO_INTERVAL_HOURS env w) as ([] & w'' & Hrun' & Hfb).
  rewrite Hrun in Hrun'. injection Hrun' as <-.
  destruct Htick as [Hb Hstep _ | w1 w2 Hb Hstep K1 _ Ht Htimer K2 _ Ha2 K3 E3 _ _ Ha3].
  - destruct (loop_button_spec env w) as (c & w1 & Hb' & _ & K & _).
    rewrite Hb in Hb'. injection Hb' as <- <-.
    destruct (button_step_false _ _ _ Hstep) as (Hh & Hp & Hheld & Ha & E).
    split; [apply (tk_trace _ _ K) |]. split; [rewrite E; reflexivity |].
    split; [exact Hfb |]. right. auto.
  - destruct (tick_keeps_trans _ _ _ K1 K2) as [K12 _].
    destruct (tick_keeps_trans _ _ _ K12 K3) as [K _].
    split; [apply (tk_trace _ _ K) |].
    rewrite (tick_through_emitted _ _ _ _ K1 K2 K3), E3, !count_app.
    assert (H1 : count is_cam_get_ok (emitted w w1) = count is_cam_free (emitted w w1) /\
                 count is_deep_sleep (emitted w w1) = 0%nat /\
                 asleep w1 = asleep w /\
                 ~ (button_high env (reads w) = false /\ buttonPressed w = true /\
                    3000 < held_for w)).
    { inversion Hstep as [w0 Hh Hp _ _ Ha E | w0 Hh Hp Hheld _ _ Ha E
                          | | w0 Hh Hp Hheld _ Ha Hshape | w0 Hh Hp Hheld _ Ha E
                          | w0 Hh Hp _ Ha E]; subst;
        try (rewrite E; repeat split; auto;
             intros (Hh' & Hp' & Hheld'); try congruence; lia).
      split; [apply capture_shape_balanced, Hshape |].
      split; [apply (capture_shape_facts _ Hshape) |].
      split; [exact Ha |]. intros (Hh' & _). congruence. }
    assert (H2 : count is_cam_get_ok (emitted w1 w2) = count is_cam_free (emitted w1 w2) /\
                 count is_deep_sleep (emitted w1 w2) = 0%nat).
    { destruct Htimer as [w0 _ Hshape _ | w0 _ _ E _ | w0 _ _ E _];
        try (rewrite E; split; reflexivity).
      split; [apply capture_shape_balanced, Hshape | apply (capture_shape_facts _ Hshape)]. }
    destruct H1 as (G1 & D1 & A1 & Hnot). destruct H2 as (G2 & D2).
    split; [rewrite G1, G2; reflexivity |]. split; [exact Hfb |].
    left. split; [congruence |]. split; [| exact Hnot].
    rewrite D1, D2. reflexivity.
Qed.

End RunFacts.

(** ** Claims *)

(** C1. The length guards on the way to a connection.
    [uploadPhotoToSupabase] has one caller, [takeAndUploadPhoto], which
    hands it the frame that [takePhoto] has just accepted; [takePhoto]
    tests the length against 0 and against 500000, the upload tests it
    against 0 again.  Called with a non-null buffer while the station is
    associated, [uploadPhotoToSupabase] returns, and
    - for every length L with 0 < L <= 500000 its first action is a
      connection attempt;
    - for length 0 it fails at once with no socket activity.
    In a run of [takeAndUploadPhoto] in which the sensor delivers a
    frame:
    - if its length is 0 or above 500000, the frame is released, the
      upload is not entered and the run ends without any connection
      attempt;
    - if it is valid (0 < L <= 500000 and a buffer) and the station is
      associated at the status check and at the entry of the upload, the
      first thing done after the capture is a connection attempt;
    - a connection attempt is made for a valid frame only.
    (In a run from [w] the heap size is observation [reads w], the frame
    the next one, the status check the one after; the time stamp follows
    and then the entry check of the upload.) *)
Theorem upload_length_guards (env : Env) (w : World) :
  (forall d N f,
      wifi_connected env (reads w) = true -> d <> 0 -> 0 <= N <= 500000 ->
      exists o w',
        uploadPhotoToSupabase env d N f w = Some (o, w') /\
        (0 < N -> exists ok rest, emitted w w' = EvTlsConnect ok :: rest) /\
        (N = 0 -> succeeded o = false /\ emitted w w' = [])) /\
  (forall frame,
      20000 <= free_heap env (reads w) ->
      fb_get env (S (reads w)) = Some frame ->
      exists w',
        takeAndUploadPhoto env w = Some (tt, w') /\
        (len frame = 0%N \/ (500000 < len frame)%N ->
         emitted w w' =
           [EvTakeAndUpload; EvLed true; EvCamGet true; EvCamFree; EvLed false] /\
         count is_connect (emitted w w') = 0%nat) /\
        (valid_frame frame ->
         wifi_connected env (S (S (reads w))) = true ->
         wifi_connected env (S (S (S (S (reads w))))) = true ->
         exists ok rest,
           emitted w w'
           = [EvTakeAndUpload; EvLed true; EvCamGet true] ++ EvTlsConnect ok :: rest) /\
        (forall ok, In (EvTlsConnect ok) (emitted w w') -> valid_frame frame)).
Proof.
  split.
  - intros d N f Hup Hd HN.
    assert (HN' : U32.in_range N)
      by (unfold U32.in_range; rewrite U32.modulus_eq; lia).
    destruct (upload_spec env d N f w HN') as (o & w' & Hrun & _ & Hshape).
    exists o, w'. split; [exact Hrun |]. split.
    + intros Hpos. apply (upload_shape_connects env d N f w o); [exact Hshape |].
      repeat split; [exact Hup | exact Hd | lia].
    + intros H0.
      destruct Hshape as [Hoff | _ _ | cs (_ & _ & Hn) _ | cs ws (_ & _ & Hn) _ _
                          | cs ds (_ & _ & Hn) _ _ | cs ds rx (_ & _ & Hn) _ _ _];
        try contradiction.
      * congruence.
      * split; reflexivity.
  - intros frame Hheap Hget.
    destruct (takeAndUploadPhoto_run env w) as ([] & w' & Hrun & _ & Hshape & _).
    exists w'. split; [exact Hrun |]. split; [| split].
    + intros Hbad.
      destruct (bad_length_is_rejected env w frame Hheap Hget Hbad) as (w2 & Hrun2 & He).
      rewrite Hrun in Hrun2. injection Hrun2 as <-.
      split; [exact He |]. rewrite He. reflexivity.
    + intros Hvalid Hup Hup'.
      destruct Hshape as [Hlow | _ Hnone | f _ Hf Hbad
                          | f tries _ Hf _ Hdown _
                          | f reconnect stamp w1 o up _ Hf Hok _ Hdirect _
                              (_ & Hreads & _) Hupload].
      * lia.
      * congruence.
      * rewrite Hget in Hf. injection Hf as <-. contradiction.
      * congruence.
      * rewrite Hget in Hf. injection Hf as <-.
        rewrite (Hdirect Hup) in *. simpl app.
        replace (S (3 + reads w + wifi_reads [])) with (S (S (S (S (reads w)))))
          in Hreads by (unfold wifi_reads, count; simpl; lia).
        destruct (upload_shape_connects env _ _ _ _ _ _
                    (upload_run_shape env _ _ _ _ _ _ Hupload))
          as (ok & rest & ->).
        { destruct Hvalid as [Hlen Hbuf].
          split; [rewrite Hreads; exact Hup' |]. split; [exact Hbuf | lia]. }
        exists ok, (rest ++ upload_report o ++ [EvCamFree])%list. reflexivity.
    + intros ok Hin.
      destruct (capture_run_tls env w _ (EvTlsConnect ok) Hshape eq_refl Hin)
        as (f & _ & _ & _ & _ & _ & Hf & Hok & _).
      rewrite Hget in Hf. injection Hf as <-. exact Hok.
Qed.

Definition oversized_env : Env :=
  env_with 100000 (Some (mk_fb 1000 500001)) ok_reply.

Lemma upload_length_guards_witness :
  (exists o w',
      uploadPhotoToSupabase nominal_env 1000 500000 "photo_0.jpg" boot = Some (o, w') /\
      exists ok rest, emitted boot w' = EvTlsConnect ok :: rest) /\
  (exists o w',
      uploadPhotoToSupabase nominal_env 1000 0 "photo_0.jpg" boot = Some (o, w') /\
      succeeded o = false /\ emitted boot w' = []) /\
  (exists w',
      takeAndUploadPhoto oversized_env boot = Some (tt, w') /\
      emitted boot w' =
        [EvTakeAndUpload; EvLed true; EvCamGet true; EvCamFree; EvLed false] /\
      count is_connect (emitted boot w') = 0%nat) /\
  (exists w' ok rest,
      takeAndUploadPhoto nominal_env boot = Some (tt, w') /\
      emitted boot w'
      = [EvTakeAndUpload; EvLed true; EvCamGet true] ++ EvTlsConnect ok :: rest).
Proof.
  split; [| split; [| split]].
  - destruct (proj1 (upload_length_guards nominal_env boot)
                1000 500000 "photo_0.jpg"%string)
      as (o & w' & Hrun & Hpos & _); [reflexivity | discriminate | lia |].
    exists o, w'. split; [exact Hrun | apply Hpos; lia].
  - destruct (proj1 (upload_length_guards nominal_env boot)
                1000 0 "photo_0.jpg"%string)
      as (o & w' & Hrun & _ & Hzero); [reflexivity | discriminate | lia |].
    exists o, w'. split; [exact Hrun | apply Hzero; reflexivity].
  - destruct (proj2 (upload_length_guards oversized_env boot) (mk_fb 1000 500001))
      as (w' & Hrun & Hbad & _); [vm_compute; discriminate | reflexivity |].
    exists w'. split; [exact Hrun |]. apply Hbad. right. reflexivity.
  - destruct (proj2 (upload_length_guards nominal_env boot) (mk_fb 1000 2500))
      as (w' & Hrun & _ & Hgood & _); [vm_compute; discriminate | reflexivity |].
    destruct Hgood as (ok & rest & E); [| reflexivity | reflexivity |].
    + unfold valid_frame. simpl. lia.
    + exists w', ok, rest. split; [exact Hrun | exact E].
Defined.

(** C2, as the code has it.  [uploadPhotoToSupabase] returns, and for
    the response [rx] it received:
    - if the status line (the first line, trimmed) begins with "HTTP/1.1"
      and contains "200" or "201" anywhere, the upload reports success;
    - if no line that begins with "HTTP/1.1", among those read up to the
      first blank line, contains "200" or "201", it reports failure. *)
Theorem status_line_decides (env : Env) (d N : Z) (f : string) (w : World) :
  U32.in_range N ->
  exists o w',
    uploadPhotoToSupabase env d N f w = Some (o, w') /\
    forall rx,
      In (EvTlsRecv rx) (emitted w w') ->
      (Str.startsWith (status_line rx) "HTTP/1.1" = true ->
       Str.contains (status_line rx) "200" \/ Str.contains (status_line rx) "201" ->
       o = Uploaded /\ succeeded o = true) /\
      ((forall line,
           In line (header_lines rx) ->
           Str.startsWith line "HTTP/1.1" = true ->
           ~ Str.contains line "200" /\ ~ Str.contains line "201") ->
       o = Rejected /\ succeeded o = false).
Proof.
  intros HN.
  destruct (upload_spec env d N f w HN) as (o & w' & Hrun & _ & Hshape).
  exists o, w'. split; [exact Hrun |].
  intros rx Hin. apply received_In in Hin.
  destruct (upload_shape_received env d N f w o _ Hshape)
    as [Hnone | (rx0 & Hrx0 & Hone & Ho)].
  { rewrite Hnone in Hin. destruct Hin. }
  rewrite Hone in Hin. destruct Hin as [<- | []].
  rewrite status_ok_lines in Ho. split.
  - intros Hprefix Hcode.
    assert (Hacc : existsb accepts (header_lines rx0) = true).
    { apply existsb_exists. exists (status_line rx0).
      split; [apply status_line_in_headers, Hrx0 |].
      apply accepts_iff. split; assumption. }
    rewrite Hacc in Ho. subst o. split; reflexivity.
  - intros Hall.
    assert (Hacc : existsb accepts (header_lines rx0) = false).
    { destruct (existsb accepts (header_lines rx0)) eqn:He; [| reflexivity].
      apply existsb_exists in He as (line & Hline & Ha).
      apply accepts_iff in Ha as [Hp Hc].
      destruct (Hall line Hline Hp) as [H0 H1]. destruct Hc; contradiction. }
    rewrite Hacc in Ho. subst o. split; reflexivity.
Qed.

Definition http10_reply : string := ("HTTP/1.0 200 OK" ++ CRLF ++ CRLF)%string.

Definition http10_env : Env := env_with 100000 (Some (mk_fb 1000 2500)) http10_reply.

Lemma status_line_decides_witness :
  exists w',
    uploadPhotoToSupabase nominal_env 1000 2500 "photo_0.jpg" boot
      = Some (Uploaded, w') /\
    In (EvTlsRecv ok_reply) (emitted boot w').
Proof.
  destruct (status_line_decides nominal_env 1000 2500 "photo_0.jpg"%string boot)
    as (o & w' & Hrun & Hall).
  { unfold U32.in_range. rewrite U32.modulus_eq. lia. }
  assert (Hin : In (EvTlsRecv ok_reply) (emitted boot w')).
  { pose proof Hrun as Hc. vm_compute in Hc. injection Hc as _ <-.
    vm_compute. tauto. }
  destruct (Hall ok_reply Hin) as [Hyes _].
  destruct Hyes as [-> _].
  - vm_compute. reflexivity.
  - left. exists "HTTP/1.1 "%string, " OK"%string. vm_compute. reflexivity.
  - exists w'. split; assumption.
Defined.

(** C2, counterexample to the claim as stated: the status line
    "HTTP/1.0 200 OK" contains "200", yet the upload that receives it
    reports failure, because the line does not begin with "HTTP/1.1". *)
Lemma http10_success_is_rejected :
  In (EvTlsRecv http10_reply)
     (events_of (uploadPhotoToSupabase http10_env 1000 2500 "photo_0.jpg" boot)) /\
  status_line http10_reply = "HTTP/1.0 200 OK"%string /\
  Str.contains (status_line http10_reply) "200" /\
  outcome_of (uploadPhotoToSupabase http10_env 1000 2500 "photo_0.jpg" boot)
    = Some Rejected /\
  succeeded Rejected = false.
Proof.
  split; [vm_compute; tauto |].
  split; [vm_compute; reflexivity |].
  split; [exists "HTTP/1.0 "%string, " OK"%string; vm_compute; reflexivity |].
  split; [vm_compute; reflexivity | reflexivity].
Qed.

(** The status test is applied to every line read before the blank one:
    here the status line has neither code, a later line that begins with
    "HTTP/1.1" has one, and the upload reports success. *)
Example later_line_counts_as_status :
  let reply := ("HTTP/1.1 404 Not Found" ++ CRLF ++
                "HTTP/1.1 200" ++ CRLF ++ CRLF)%string in
  header_lines reply
    = ["HTTP/1.1 404 Not Found"; "HTTP/1.1 200"; ""]%string /\
  outcome_of (uploadPhotoToSupabase
                (env_with 100000 (Some (mk_fb 1000 2500)) reply)
                1000 2500 "photo_0.jpg" boot)
    = Some Uploaded.
Proof. split; vm_compute; reflexivity. Qed.

(** C3. [uploadPhotoToSupabase], handed a payload of N > 0 bytes,
    returns.  Take a run with WiFi up and a buffer, in which the server
    accepts the connection at attempt number k of the three (the writes
    of the chunks are then the observations that follow it).
    - If the socket takes every chunk whole, the upload makes exactly
      ceil(N/1024) [client.write] calls, call number j asking for
      min(1024, N - 1024 j) bytes, and it does not end as a write
      error.
    - If chunk j is the first that the socket does not take whole, the
      upload fails as a write error, having sent the request head, the
      j chunks before it, that write, and then only [client.stop()]:
      no retry and nothing else.
    And in every run, whatever the surroundings: a [client.write] that
    returns a count other than the one asked for makes the upload fail as
    a write error, is its last write, comes after whole writes only, and
    is followed by [client.stop()] alone. *)
Theorem chunked_streaming (env : Env) (d N : Z) (f : string) (w : World) :
  U32.in_range N -> 0 < N ->
  exists o w',
    uploadPhotoToSupabase env d N f w = Some (o, w') /\
    (forall k,
        wifi_connected env (reads w) = true -> d <> 0 ->
        (k <= 2)%nat ->
        tls_connect env (S (reads w) + k) = true ->
        (forall i, (i < k)%nat -> tls_connect env (S (reads w) + i) = false) ->
        (answered env (S (S (reads w)) + k) N (chunk_count N) ->
         write_sizes (emitted w w')
           = map (fun j => Z.min 1024 (N - 1024 * Z.of_nat j))
                 (seq 0 (Z.to_nat ((N + 1023) / 1024))) /\
         Z.of_nat (List.length (write_sizes (emitted w w'))) = (N + 1023) / 1024 /\
         o <> WriteError) /\
        (forall j,
            (j < chunk_count N)%nat ->
            answered env (S (S (reads w)) + k) N j ->
            tls_write env (S (S (reads w)) + k + j) (chunk_len N j) <> chunk_len N j ->
            o = WriteError /\ succeeded o = false /\
            emitted w w'
            = (connected_after k ++ EvTlsPrint f N :: chunks_from d N 0 j ++
               [EvTlsWrite (d + 1024 * Z.of_nat j) (chunk_len N j)
                           (tls_write env (S (S (reads w)) + k + j) (chunk_len N j));
                EvTlsStop])%list)) /\
    (forall ptr n r,
        In (EvTlsWrite ptr n r) (emitted w w') -> r <> n ->
        o = WriteError /\ succeeded o = false /\
        exists pre,
          emitted w w' = (pre ++ [EvTlsWrite ptr n r; EvTlsStop])%list /\
          forall ptr' n' r', In (EvTlsWrite ptr' n' r') pre -> r' = n').
Proof.
  intros HN Hpos.
  destruct (upload_run_spec env d N f w HN) as (o & w' & Hrun & _ & Hruns).
  exists o, w'. split; [exact Hrun |].
  pose proof (upload_run_shape env _ _ _ _ _ _ Hruns) as Hshape.
  set (evs := emitted w w') in *. clearbody evs.
  assert (Hsizes : forall cs tail,
             forallb connect_class cs = true ->
             write_sizes tail = [] ->
             write_sizes (cs ++ EvTlsPrint f N :: chunks_from d N 0 (chunk_count N) ++ tail)
             = map (chunk_len N) (seq 0 (chunk_count N))).
  { intros cs tail Hcs Htail.
    rewrite write_sizes_app, (write_sizes_none connect_class cs Hcs) by reflexivity.
    simpl. change (write_sizes (chunks_from d N 0 (chunk_count N) ++ tail)
                   = map (chunk_len N) (seq 0 (chunk_count N))).
    rewrite write_sizes_app, write_sizes_chunks, Htail, app_nil_r. reflexivity. }
  assert (Hcount : Z.of_nat (List.length (map (chunk_len N) (seq 0 (chunk_count N))))
                   = (N + 1023) / 1024).
  { rewrite length_map, length_seq. unfold chunk_count.
    apply Z2Nat.id. apply Z.div_pos; unfold U32.in_range in HN; lia. }
  split.
  - intros k Hup Hd Hk Hok Hbefore.
    assert (Hsame : forall k',
               tls_connect env (S (reads w) + k') = true ->
               (forall i, (i < k')%nat -> tls_connect env (S (reads w) + i) = false) ->
               k' = k).
    { intros k' Hok' Hbefore'.
      destruct (Nat.lt_trichotomy k' k) as [Hlt | [Heq | Hgt]]; [| exact Heq |].
      - rewrite (Hbefore k' Hlt) in Hok'. discriminate.
      - rewrite (Hbefore' k Hgt) in Hok. discriminate. }
    split.
    + intros Hfull.
      destruct Hruns as [Hoff | Hup' Hbad | Hs Hall | k' ws Hs Hk' Hok' Hws Hb' Hcut
                         | k' Hs Hk' Hok' Hb' Hans | k' j rx Hs Hk' Hok' Hj Hrx Hb' Hans].
      * congruence.
      * destruct Hbad; [contradiction | lia].
      * rewrite (Hall k ltac:(lia)) in Hok. discriminate.
      * exfalso. rewrite (Hsame k' Hok' Hb') in Hcut.
        destruct Hcut as (j & Hj & _ & Hne & _). apply Hne, Hfull, Hj.
      * rewrite Hsizes;
          [split; [reflexivity | split; [exact Hcount | discriminate]]
          | apply connected_after_class |].
        rewrite write_sizes_app,
          (write_sizes_none is_delay (repeat (EvDelay 10) 1501))
          by (try apply forallb_repeat; reflexivity).
        reflexivity.
      * rewrite Hsizes;
          [split; [reflexivity | split; [exact Hcount |]]
          | apply connected_after_class |].
        -- destruct (status_ok rx); discriminate.
        -- rewrite write_sizes_app,
             (write_sizes_none is_delay (repeat (EvDelay 10) j))
             by (try apply forallb_repeat; reflexivity).
           reflexivity.
    + intros j Hj Hwhole Hshort.
      destruct Hruns as [Hoff | Hup' Hbad | Hs Hall | k' ws Hs Hk' Hok' Hws Hb' Hcut
                         | k' Hs Hk' Hok' Hb' Hans | k' j' rx Hs Hk' Hok' Hj' Hrx Hb' Hans].
      * congruence.
      * destruct Hbad; [contradiction | lia].
      * rewrite (Hall k ltac:(lia)) in Hok. discriminate.
      * rewrite (Hsame k' Hok' Hb') in *.
        destruct Hcut as (j' & Hj' & Hwhole' & Hne' & ->).
        assert (j' = j) as ->.
        { destruct (Nat.lt_trichotomy j' j) as [Hlt | [Heq | Hgt]]; [| exact Heq |].
          - exfalso. apply Hne', Hwhole, Hlt.
          - exfalso. apply Hshort, Hwhole', Hgt. }
        split; [reflexivity |]. split; reflexivity.
      * exfalso. rewrite (Hsame k' Hok' Hb') in Hans. apply Hshort, Hans, Hj.
      * exfalso. rewrite (Hsame k' Hok' Hb') in Hans. apply Hshort, Hans, Hj.
  - intros ptr n r Hin Hne.
    destruct Hshape as [Hoff | _ _ | cs _ [Hcs _] | cs ws _ [Hcs _] Hws
                        | cs ds _ [Hcs _] Hds | cs ds rx _ [Hcs _] Hds _].
    + destruct Hin.
    + destruct Hin.
    + exfalso. exact (connect_class_not_write _ _ _ _ Hcs Hin).
    + destruct Hws as (j & k & _ & _ & ->).
      rewrite Nat.sub_0_r in *.
      set (short := EvTlsWrite (d + 1024 * Z.of_nat j) (chunk_len N j)
                               (tls_write env k (chunk_len N j))) in *.
      assert (Hpre : forall ptr' n' r',
                 In (EvTlsWrite ptr' n' r')
                    (cs ++ EvTlsPrint f N :: chunks_from d N 0 j) -> r' = n').
      { intros ptr' n' r' H. apply in_app_or in H as [H | [H | H]].
        - exfalso. exact (connect_class_not_write _ _ _ _ Hcs H).
        - discriminate.
        - exact (In_chunks_full _ _ _ _ _ _ _ H). }
      assert (Hlast : EvTlsWrite ptr n r = short).
      { apply in_app_or in Hin as [H | [H | H]].
        - exfalso. exact (connect_class_not_write _ _ _ _ Hcs H).
        - discriminate.
        - apply in_app_or in H as [H | [H | [H | []]]].
          + exfalso. apply Hne. exact (In_chunks_full _ _ _ _ _ _ _ H).
          + symmetry. exact H.
          + discriminate. }
      split; [reflexivity |]. split; [reflexivity |].
      exists (cs ++ EvTlsPrint f N :: chunks_from d N 0 j)%list.
      split; [| exact Hpre].
      rewrite Hlast, <- app_assoc. reflexivity.
    + exfalso. apply in_app_or in Hin as [H | [H | H]].
      * exact (connect_class_not_write _ _ _ _ Hcs H).
      * discriminate.
      * apply in_app_or in H as [H | H].
        -- apply Hne. exact (In_chunks_full _ _ _ _ _ _ _ H).
        -- apply in_app_or in H as [H | [H | []]].
           ++ exact (is_delay_not_write _ _ _ _ Hds H).
           ++ discriminate.
    + exfalso. apply in_app_or in Hin as [H | [H | H]].
      * exact (connect_class_not_write _ _ _ _ Hcs H).
      * discriminate.
      * apply in_app_or in H as [H | H].
        -- apply Hne. exact (In_chunks_full _ _ _ _ _ _ _ H).
        -- apply in_app_or in H as [H | [H | [H | []]]].
           ++ exact (is_delay_not_write _ _ _ _ Hds H).
           ++ discriminate.
           ++ discriminate.
Qed.

(** A socket that takes only 100 of the 1024 bytes of its second write
    (observation number 3 of the run). *)
Definition short_write_env : Env :=
  mkEnv (fun _ => true) (fun _ => true) (fun _ => 100000) (fun _ => true)
        (fun _ => Some (mk_fb 1000 2500)) (fun _ => None) (fun _ => true)
        (fun k n => if (k =? 3)%nat then 100 else n) (fun _ => ok_reply)
        (fun _ => 30000).

(** A payload of 100000 bytes, beyond 16 bits, goes out in 98 writes;
    the short second write of 2500 bytes ends the upload. *)
Lemma chunked_streaming_witness :
  (exists o w',
      uploadPhotoToSupabase nominal_env 1000 100000 "photo_0.jpg" boot = Some (o, w') /\
      List.length (write_sizes (emitted boot w')) = 98%nat /\ o <> WriteError) /\
  (exists w',
      uploadPhotoToSupabase short_write_env 1000 2500 "photo_0.jpg" boot
        = Some (WriteError, w') /\
      emitted boot w'
      = [EvTlsConnect true; EvTlsPrint "photo_0.jpg" 2500;
         EvTlsWrite 1000 1024 1024; EvDelay 1;
         EvTlsWrite 2024 1024 100; EvTlsStop]).
Proof.
  split.
  - destruct (chunked_streaming nominal_env 1000 100000 "photo_0.jpg"%string boot)
      as (o & w' & Hrun & Hserved & _);
      [unfold U32.in_range; rewrite U32.modulus_eq; lia | lia |].
    destruct (Hserved O) as [Hfull _];
      [reflexivity | discriminate | lia | reflexivity | intros i Hi; lia |].
    destruct Hfull as (_ & Hcount & Hnot); [intros m Hm; reflexivity |].
    exists o, w'. split; [exact Hrun |]. split; [| exact Hnot].
    change ((100000 + 1023) / 1024) with (Z.of_nat 98) in Hcount.
    apply Nat2Z.inj. exact Hcount.
  - destruct (chunked_streaming short_write_env 1000 2500 "photo_0.jpg"%string boot)
      as (o & w' & Hrun & Hserved & _);
      [unfold U32.in_range; rewrite U32.modulus_eq; lia | lia |].
    destruct (Hserved O) as [_ Hshort];
      [reflexivity | discriminate | lia | reflexivity | intros i Hi; lia |].
    destruct (Hshort 1%nat) as (-> & _ & E).
    + vm_compute. lia.
    + intros m Hm. replace m with O by lia. reflexivity.
    + vm_compute. discriminate.
    + exists w'. split; [exact Hrun | exact E].
Defined.

Example nominal_upload_run :
  uploadPhotoToSupabase nominal_env 1000 2500 "photo_0.jpg" boot
  = Some (Uploaded,
          set_trace [EvTlsConnect true; EvTlsPrint "photo_0.jpg" 2500;
                     EvTlsWrite 1000 1024 1024; EvDelay 1;
                     EvTlsWrite 2024 1024 1024; EvDelay 1;
                     EvTlsWrite 3048 452 452; EvDelay 1;
                     EvTlsRecv ok_reply; EvTlsStop]
            (set_now 3 (set_reads 6 boot))).
Proof. vm_compute. reflexivity. Qed.

Example short_write_run :
  uploadPhotoToSupabase short_write_env 1000 2500 "photo_0.jpg" boot
  = Some (WriteError,
          set_trace [EvTlsConnect true; EvTlsPrint "photo_0.jpg" 2500;
                     EvTlsWrite 1000 1024 1024; EvDelay 1;
                     EvTlsWrite 2024 1024 100; EvTlsStop]
            (set_now 1 (set_reads 4 boot))).
Proof. vm_compute. reflexivity. Qed.

(** C4. [takeAndUploadPhoto] always returns, asks the sensor for a frame
    at most once, and on every path on which it got one (upload
    succeeded or failed, WiFi could not be re-established, or the frame
    failed validation) calls [TimerCAM.Camera.free()] exactly once and
    holds no frame afterwards; when it got none, it releases nothing. *)
Theorem frame_released_exactly_once (env : Env) (w : World) :
  exists w',
    takeAndUploadPhoto env w = Some (tt, w') /\
    (count is_cam_get (emitted w w') <= 1)%nat /\
    (In (EvCamGet true) (emitted w w') ->
     count is_cam_free (emitted w w') = 1%nat /\ fb w' = None) /\
    (~ In (EvCamGet true) (emitted w w') ->
     count is_cam_free (emitted w w') = 0%nat).
Proof.
  destruct (takeAndUploadPhoto_spec env w) as ([] & w' & Hrun & _ & Hshape & Hfb).
  exists w'. split; [exact Hrun |].
  destruct (capture_shape_counts _ Hshape) as (Hget & Hone & Hzero).
  repeat split; auto.
Qed.

Lemma frame_released_exactly_once_witness :
  exists w',
    takeAndUploadPhoto nominal_env boot = Some (tt, w') /\
    count is_cam_free (emitted boot w') = 1%nat /\ fb w' = None.
Proof.
  destruct (frame_released_exactly_once nominal_env boot)
    as (w' & Hrun & _ & Hone & _).
  exists w'. split; [exact Hrun |]. apply Hone.
  vm_compute in Hrun. injection Hrun as <-.
  vm_compute. right. right. left. reflexivity.
Defined.

(** WiFi is down and stays down. *)
Definition offline_env : Env :=
  mkEnv (fun _ => true) (fun _ => false) (fun _ => 100000) (fun _ => true)
        (fun _ => Some (mk_fb 1000 2500)) (fun _ => None) (fun _ => true)
        (fun _ n => n) (fun _ => ok_reply) (fun _ => 30000).

(** The four exits with a frame in hand: uploaded, upload rejected, WiFi
    not re-established, frame failed validation.  Each shows one
    [Camera.get()], one [Camera.free()] and no frame left. *)
Example release_on_each_exit :
  let summary env :=
    option_map (fun r => (count is_cam_get (trace (snd r)),
                          count is_cam_free (trace (snd r)),
                          fb (snd r), count is_connect (trace (snd r))))
               (takeAndUploadPhoto env boot) in
  summary nominal_env = Some (1%nat, 1%nat, None, 1%nat) /\
  summary (env_with 100000 (Some (mk_fb 1000 2500))
                    ("HTTP/1.1 403 Forbidden" ++ CRLF ++ CRLF)%string)
    = Some (1%nat, 1%nat, None, 1%nat) /\
  summary offline_env = Some (1%nat, 1%nat, None, 0%nat) /\
  summary (env_with 100000 (Some (mk_fb 1000 0)) ok_reply)
    = Some (1%nat, 1%nat, None, 0%nat).
Proof. repeat split; vm_compute; reflexivity. Qed.

(** C5, as the code has it.  A tick of [loop] always returns.  On a tick
    that gets past the button block (the long-press shutdown is not
    taken), with [w1] the state the timer block starts from:
    - if [timeSinceLastPhoto] is at least the interval, the timer block
      calls [takeAndUploadPhoto] exactly once and then sets
      [lastPhotoTime] to [millis()], whatever the capture and upload did,
      so that the time since the last photo is 0 again; the tick as a
      whole makes that one capture plus the one a short-press release on
      the same tick may have made (none without button activity);
    - if it is below the interval, the timer block makes no capture and
      leaves [lastPhotoTime] alone: nothing is retried early. *)
Theorem timer_capture_on_tick (hours : Z) (env : Env) (w : World) :
  exists w',
    loop hours env w = Some (tt, w') /\
    forall w1,
      loop_button env w = Some (true, w1) ->
      (count is_capture (emitted w w1) <= 1)%nat /\
      (button_high env (reads w) = true -> buttonPressed w = false ->
       count is_capture (emitted w w1) = 0%nat) /\
      (PHOTO_INTERVAL hours <= since_last_photo w1 ->
       exists w2,
         loop_timer hours env w1 = Some (tt, w2) /\
         count is_capture (emitted w1 w2) = 1%nat /\
         lastPhotoTime w2 = U32.wrap (now w2) /\
         since_last_photo w2 = 0 /\
         lastPhotoTime w' = lastPhotoTime w2 /\
         count is_capture (emitted w w') = S (count is_capture (emitted w w1))) /\
      (since_last_photo w1 < PHOTO_INTERVAL hours ->
       exists w2,
         loop_timer hours env w1 = Some (tt, w2) /\
         count is_capture (emitted w1 w2) = 0%nat /\
         lastPhotoTime w' = lastPhotoTime w /\
         count is_capture (emitted w w') = count is_capture (emitted w w1)).
Proof.
  destruct (loop_spec hours env w) as (w' & Hrun & Htick).
  exists w'. split; [exact Hrun |]. intros w1 Hb1.
  destruct Htick as [Hb _ _ | w1' w2 Hb Hstep K1 Hl1 Ht Htimer K2 _ _ K3 E3 Hl3 _ _].
  { rewrite Hb in Hb1. discriminate. }
  rewrite Hb in Hb1. injection Hb1 as ->.
  destruct (button_step_counts _ _ _ _ Hstep) as (_ & Hc1 & Hquiet).
  destruct (timer_step_counts _ _ _ Htimer) as (Hdue & Hnot).
  assert (Hsum : count is_capture (emitted w w')
                 = (count is_capture (emitted w w1)
                    + count is_capture (emitted w1 w2))%nat).
  { rewrite (tick_through_emitted _ _ _ _ K1 K2 K3), E3, !count_app.
    change (count is_capture [EvDelay 100]) with 0%nat. lia. }
  split; [exact Hc1 |]. split; [exact Hquiet |]. split.
  - intros Hge. destruct (Hdue Hge) as (Hc2 & _ & Hl2).
    exists w2. split; [exact Ht |]. split; [exact Hc2 |]. split; [exact Hl2 |].
    split; [unfold since_last_photo; rewrite Hl2; apply wrap_sub_self |].
    split; [exact Hl3 |]. rewrite Hsum, Hc2. lia.
  - intros Hlt. destruct (Hnot Hlt) as (Hc2 & Hl2 & _).
    exists w2. split; [exact Ht |]. split; [exact Hc2 |].
    split; [congruence |]. rewrite Hsum, Hc2. lia.
Qed.

(** One hour after reset, nothing has happened yet. *)
Definition hour_later : World := set_now 3600000 boot.

Lemma timer_capture_on_tick_witness :
  exists w' w1 w2,
    loop 1 nominal_env hour_later = Some (tt, w') /\
    loop_button nominal_env hour_later = Some (true, w1) /\
    loop_timer 1 nominal_env w1 = Some (tt, w2) /\
    count is_capture (emitted w1 w2) = 1%nat /\
    lastPhotoTime w2 = U32.wrap (now w2) /\
    lastPhotoTime w' = lastPhotoTime w2 /\
    count is_capture (emitted hour_later w') = 1%nat.
Proof.
  destruct (timer_capture_on_tick 1 nominal_env hour_later) as (w' & Hrun & Hall).
  destruct (Hall (set_reads 1 hour_later) eq_refl) as (_ & Hquiet & Hdue & _).
  destruct Hdue as (w2 & Ht & Hc & Hl & _ & Hl' & Hsum);
    [vm_compute; discriminate |].
  exists w', (set_reads 1 hour_later), w2.
  repeat split; assumption.
Defined.

(** The button is released up to observation 691 and down from then on:
    after [setup] and 569 ticks, at 3598700 ms. *)
Definition late_press (k : nat) : bool := (k <? 692)%nat.

(** C5, counterexample to the claim as stated.  [setup] ends at 1800 ms
    and sets [lastPhotoTime] to that.  The button goes down at 3598700
    ms and stays down.  When tick 600 starts, at 3601800 ms, the time
    since the last photo has reached the interval of one hour exactly,
    and the button has been down for 3100 ms: [loop] shuts the device
    down and returns before the timer block.  No capture is made and
    [lastPhotoTime] keeps its old value. *)
Lemma due_capture_lost_to_shutdown :
  PHOTO_INTERVAL 1 = 3600000 /\
  option_map (fun r => (now (snd r), lastPhotoTime (snd r), buttonPressed (snd r),
                        buttonPressTime (snd r), asleep (snd r)))
             (power_on 1 (synced_env late_press 30000) 599)
    = Some (3601800, 1800, true, 3598700, false) /\
  option_map (fun r => (count is_capture (trace (snd r)), lastPhotoTime (snd r),
                        asleep (snd r)))
             (power_on 1 (synced_env late_press 30000) 600)
    = Some (0%nat, 1800, true).
Proof. repeat split; vm_compute; reflexivity. Qed.

(** C6, as the code has it.  The button block of [loop] always returns,
    and with a press on record ([buttonPressed]):
    - when the button reads released less than 3000 ms after the press
      was recorded (2999 ms included), it makes one capture at once and
      does not shut down;
    - when the button still reads pressed more than 3000 ms after the
      press was recorded, it runs the shutdown sequence down to
      [esp_deep_sleep_start()], makes no capture, and the tick ends there;
    - when the button reads released 3000 ms or more after the press was
      recorded, it does nothing: no capture and no deep sleep. *)
Theorem press_classification (hours : Z) (env : Env) (w : World) :
  exists continue w1,
    loop_button env w = Some (continue, w1) /\
    (button_high env (reads w) = true -> buttonPressed w = true ->
     held_for w < 3000 ->
     continue = true /\ count is_capture (emitted w w1) = 1%nat /\
     count is_deep_sleep (emitted w w1) = 0%nat /\ asleep w1 = asleep w) /\
    (button_high env (reads w) = false -> buttonPressed w = true ->
     3000 < held_for w ->
     continue = false /\ asleep w1 = true /\
     emitted w w1 = shutdown_events /\ In EvDeepSleep (emitted w w1) /\
     count is_capture (emitted w w1) = 0%nat /\
     loop hours env w = Some (tt, w1)) /\
    (button_high env (reads w) = true -> buttonPressed w = true ->
     3000 <= held_for w ->
     continue = true /\ emitted w w1 = [] /\ asleep w1 = asleep w).
Proof.
  destruct (loop_button_spec env w) as (continue & w1 & Hb & Hstep & _).
  exists continue, w1. split; [exact Hb |].
  pose proof (loop_unfold hours env w continue w1 Hb) as Hloop.
  destruct Hstep as [w0 Hh Hp _ _ _ E | w0 Hh Hp Hheld _ _ _ E | w0 Hh Hp Hheld Ha E
                     | w0 Hh Hp Hheld _ Ha Hshape | w0 Hh Hp Hheld _ Ha E
                     | w0 Hh Hp _ Ha E];
    (split; [| split]); intros Hh' Hp' Hheld'; try congruence; try lia.
  - split; [reflexivity |]. split; [exact Ha |]. split; [exact E |].
    rewrite E. split; [apply count_deep_sleep_In; discriminate |].
    split; [reflexivity | exact Hloop].
  - destruct (capture_shape_facts _ Hshape) as (Hc & _ & Hd). auto.
  - auto.
Qed.

(** A press recorded at 1000 ms, seen 2999 ms later. *)
Definition pressed_2999_ago : World :=
  set_buttonPressTime 1000 (set_buttonPressed true (set_now 3999 boot)).

(** A press recorded at 1000 ms, seen 3001 ms later. *)
Definition pressed_3001_ago : World :=
  set_buttonPressTime 1000 (set_buttonPressed true (set_now 4001 boot)).

Lemma press_classification_witness :
  (exists w1,
      loop_button nominal_env pressed_2999_ago = Some (true, w1) /\
      count is_capture (emitted pressed_2999_ago w1) = 1%nat /\
      asleep w1 = false) /\
  (exists w1,
      loop_button hold_env pressed_3001_ago = Some (false, w1) /\
      asleep w1 = true /\ In EvDeepSleep (emitted pressed_3001_ago w1)) /\
  (exists w1,
      loop_button nominal_env pressed_3001_ago = Some (true, w1) /\
      emitted pressed_3001_ago w1 = [] /\ asleep w1 = false).
Proof.
  split; [| split].
  - destruct (press_classification 1 nominal_env pressed_2999_ago)
      as (c & w1 & Hb & Hshort & _ & _).
    destruct Hshort as (-> & Hc & _ & Ha);
      [reflexivity | reflexivity | vm_compute; reflexivity |].
    exists w1. auto.
  - destruct (press_classification 1 hold_env pressed_3001_ago)
      as (c & w1 & Hb & _ & Hlong & _).
    destruct Hlong as (-> & Ha & _ & Hin & _);
      [reflexivity | reflexivity | vm_compute; reflexivity |].
    exists w1. auto.
  - destruct (press_classification 1 nominal_env pressed_3001_ago)
      as (c & w1 & Hb & _ & _ & Hlate).
    destruct Hlate as (-> & He & Ha);
      [reflexivity | reflexivity | vm_compute; discriminate |].
    exists w1. auto.
Defined.

(** The button is down at observation 5, the first tick's read, and up
    at every other one. *)
Definition tap (k : nat) : bool := negb (k =? 5)%nat.

(** C6, counterexample to the claim as stated.  With light sleeps of
    2800 ms: [setup] ends at 1800 ms, the first tick reads the button
    pressed and records the press at 1800 ms, and ends at 4800 ms; the
    second tick reads the button released, a press of exactly 3000 ms.
    Nothing follows: no capture, no deep sleep. *)
Lemma press_of_3000_does_nothing :
  option_map (fun r => (now (snd r), buttonPressed (snd r), buttonPressTime (snd r)))
             (power_on 1 (synced_env tap 2800) 1)
    = Some (4800, true, 1800) /\
  option_map (fun r => (count is_capture (trace (snd r)),
                        count is_deep_sleep (trace (snd r)),
                        asleep (snd r), buttonPressed (snd r)))
             (power_on 1 (synced_env tap 2800) 2)
    = Some (0%nat, 0%nat, false, false).
Proof. split; vm_compute; reflexivity. Qed.

(** C7, as the code has it.  A tick of [loop] always returns and enters
    light sleep at most once, and it does so exactly when the tick gets
    past the button block and the timer block then finds the capture not
    due with more than 60000 ms left until it is.  Whether a press is in
    progress plays no part. *)
Theorem light_sleep_only_when_idle (hours : Z) (env : Env) (w : World) :
  exists w',
    loop hours env w = Some (tt, w') /\
    (count is_light_sleep (emitted w w') <= 1)%nat /\
    (In EvLightSleep (emitted w w') <->
     exists w1,
       loop_button env w = Some (true, w1) /\
       since_last_photo w1 < PHOTO_INTERVAL hours /\
       60000 < U32.sub (PHOTO_INTERVAL hours) (since_last_photo w1)).
Proof.
  destruct (loop_spec hours env w) as (w' & Hrun & Htick).
  exists w'. split; [exact Hrun |].
  rewrite count_light_sleep_In.
  destruct Htick as [Hb Hstep _ | w1 w2 Hb Hstep K1 _ Ht Htimer K2 _ _ K3 E3 _ _ _].
  - destruct (button_step_false _ _ _ Hstep) as (_ & _ & _ & _ & E).
    rewrite E. split; [unfold count; simpl; lia |].
    split; [intros H; exfalso; apply H; reflexivity |].
    intros (w1 & Hb1 & _). rewrite Hb in Hb1. discriminate.
  - rewrite (tick_through_emitted _ _ _ _ K1 K2 K3), E3, !count_app.
    destruct (button_step_counts _ _ _ _ Hstep) as (Hl1 & _ & _).
    destruct (timer_step_counts _ _ _ Htimer) as (Hdue & Hnot).
    rewrite Hl1. change (count is_light_sleep [EvDelay 100]) with 0%nat.
    rewrite Nat.add_0_l, Nat.add_0_r.
    destruct (Z_lt_le_dec (since_last_photo w1) (PHOTO_INTERVAL hours)) as [Hlt | Hge].
    + destruct (Hnot Hlt) as (_ & _ & Hle & Hiff).
      split; [exact Hle |]. rewrite Hiff. split.
      * intros Hidle. exists w1. auto.
      * intros (w1' & Hb1 & _ & Hidle). rewrite Hb in Hb1.
        injection Hb1 as <-. exact Hidle.
    + destruct (Hdue Hge) as (_ & Hl2 & _). rewrite Hl2.
      split; [lia |]. split; [congruence |].
      intros (w1' & Hb1 & Hlt & _). rewrite Hb in Hb1.
      injection Hb1 as <-. lia.
Qed.

Lemma light_sleep_only_when_idle_witness :
  exists w',
    loop 1 nominal_env boot = Some (tt, w') /\
    (count is_light_sleep (emitted boot w') <= 1)%nat /\
    In EvLightSleep (emitted boot w').
Proof.
  destruct (light_sleep_only_when_idle 1 nominal_env boot) as (w' & Hrun & Hle & Hiff).
  exists w'. split; [exact Hrun |]. split; [exact Hle |].
  apply Hiff. eexists. split; [vm_compute; reflexivity |].
  split; vm_compute; reflexivity.
Defined.

(** C7, counterexample to the claim as stated.  The device is switched
    on with the button held down.  After [setup], the first tick of
    [loop] records the press ([buttonPressed] becomes true) and, the next
    capture being an hour away, goes into light sleep with the press
    still in progress. *)
Lemma sleeps_during_press :
  events_of (power_on 1 (synced_env (fun _ => false) 30000) 1)
  = (startup_events ++
     [EvLed true; EvDelay 100; EvLed false;
      EvWifiSetSleep true; EvTimerWakeup 30000000; EvLightSleep;
      EvWifiSetSleep false; EvDelay 100])%list /\
  option_map (fun r => buttonPressed (snd r))
             (power_on 1 (synced_env (fun _ => false) 30000) 1) = Some true.
Proof. split; vm_compute; reflexivity. Qed.

(** C8, as the code has it.  When [TimerCAM.Camera.begin()] fails,
    [setup] toggles the LED exactly ten times, 200 ms apart (2 s in all,
    eleven LED writes counting the switch-on at the start), and returns:
    no WiFi, no time sync, [lastPhotoTime] untouched, no deep sleep.  The
    device stays up and goes on to run [loop]. *)
Theorem camera_failure_blinks_ten_times (hours : Z) (env : Env) (w : World) :
  camera_begin env (reads w) = false ->
  exists w',
    setup env w = Some (tt, w') /\
    emitted w w' = init_failure_events /\
    count is_led (emitted w w') = 11%nat /\
    now w' = now w + 2000 /\
    asleep w' = asleep w /\
    lastPhotoTime w' = lastPhotoTime w /\
    exists w'', loop hours env w' = Some (tt, w'').
Proof.
  intros Hbegin.
  destruct (setup_spec env w) as ([] & w' & Hrun & Ha & _ & Hfail & _).
  destruct (Hfail Hbegin) as (He & Hl & Hn).
  exists w'. split; [exact Hrun |]. split; [exact He |].
  split; [rewrite He; reflexivity |].
  split; [exact Hn |]. split; [exact Ha |]. split; [exact Hl |].
  destruct (loop_spec hours env w') as (w'' & Hloop & _).
  exists w''. exact Hloop.
Qed.

Lemma camera_failure_blinks_ten_times_witness :
  exists w',
    setup broken_camera_env boot = Some (tt, w') /\
    emitted boot w' = init_failure_events /\
    count is_led (emitted boot w') = 11%nat /\
    now w' = now boot + 2000 /\
    asleep w' = asleep boot /\
    lastPhotoTime w' = lastPhotoTime boot /\
    exists w'', loop 1 broken_camera_env w' = Some (tt, w'').
Proof.
  apply (camera_failure_blinks_ten_times 1 broken_camera_env boot). reflexivity.
Defined.

(** C8, counterexample to the claim as stated: with a camera that fails
    to initialise, [setup] returns after eleven LED writes, the last at
    1800 ms, and over the next hundred ticks of [loop] (fifty minutes)
    the LED is not written again. *)
Lemma blinking_stops_after_two_seconds :
  outcome_of (setup broken_camera_env boot) = Some tt /\
  events_of (setup broken_camera_env boot) = init_failure_events /\
  option_map (fun r => now (snd r)) (setup broken_camera_env boot) = Some 2000 /\
  outcome_of (power_on 1 broken_camera_env 100) = Some tt /\
  count is_led (events_of (power_on 1 broken_camera_env 100)) = 11%nat /\
  option_map (fun r => (asleep (snd r), 3000000 <? now (snd r)))
             (power_on 1 broken_camera_env 100) = Some (false, true).
Proof. repeat split; vm_compute; reflexivity. Qed.

(** The clock at which the capture that the scheduler triggers in the
    tick starting in [w] completes, if the tick has one: the button block
    lets the tick go on, the timer block finds the interval elapsed, and
    [takeAndUploadPhoto] returns at that time. *)
Definition scheduled_capture (hours : Z) (env : Env) (w : World) : option Z :=
  match loop_button env w with
  | Some (true, w1) =>
      if PHOTO_INTERVAL hours <=? since_last_photo w1
      then option_map (fun r => now (snd r)) (takeAndUploadPhoto env w1)
      else None
  | _ => None
  end.

(** What the photo timer should hold after [ticks] ticks from [w], when
    it should hold [last] in [w]: [millis()] at the completion of the most
    recent capture that the scheduler triggered, and [last] if it
    triggered none. *)
Fixpoint photo_timer (hours : Z) (env : Env) (ticks : nat) (last : Z) (w : World) : Z :=
  match ticks with
  | O => last
  | S n =>
      if asleep w then last
      else
        match loop hours env w with
        | Some (_, w') =>
            photo_timer hours env n
              (match scheduled_capture hours env w with
               | Some t => U32.wrap t
               | None => last
               end) w'
        | None => last
        end
  end.

(** The timer block when the capture is due: the capture, then the
    assignment of [millis()]. *)
Lemma loop_timer_due hours env w v :
  PHOTO_INTERVAL hours <= since_last_photo w ->
  takeAndUploadPhoto env w = Some (tt, v) ->
  loop_timer hours env w = Some (tt, set_lastPhotoTime (U32.wrap (now v)) v).
Proof.
  intros Hdue Hrun.
  unfold loop_timer, bind, millis, gets, modify.
  fold (since_last_photo w).
  rewrite (proj2 (Z.geb_le _ _) Hdue), Hrun. reflexivity.
Qed.

(** One tick moves [lastPhotoTime] exactly when the scheduler triggers a
    capture, and then to the clock at which that capture completes. *)
Lemma tick_photo_timer hours env w w' :
  loop hours env w = Some (tt, w') ->
  lastPhotoTime w'
  = match scheduled_capture hours env w with
    | Some t => U32.wrap t
    | None => lastPhotoTime w
    end.
Proof.
  intros Hrun.
  destruct (loop_spec hours env w) as (w2 & Hrun' & Htick).
  rewrite Hrun in Hrun'. injection Hrun' as <-.
  unfold scheduled_capture.
  destruct Htick as [Hb _ Hl | w1 w2 Hb _ _ Hl1 Ht Htimer _ _ _ _ _ Hl3 _ _]; rewrite Hb.
  - exact Hl.
  - destruct (Z.leb_spec (PHOTO_INTERVAL hours) (since_last_photo w1)) as [Hdue | Hnot].
    + destruct (takeAndUploadPhoto_spec env w1) as ([] & v & Hcap & _).
      rewrite Hcap. cbn [option_map snd].
      rewrite (loop_timer_due hours env w1 v Hdue Hcap) in Ht. injection Ht as <-.
      rewrite Hl3. reflexivity.
    + destruct (timer_step_counts _ _ _ Htimer) as [_ Hidle].
      destruct (Hidle Hnot) as (_ & Hl2 & _). congruence.
Qed.

(** Over any number of ticks [lastPhotoTime] is the photo timer. *)
Lemma photo_timer_run hours env ticks w :
  exists w',
    run_loop hours env ticks w = Some (tt, w') /\
    lastPhotoTime w' = photo_timer hours env ticks (lastPhotoTime w) w.
Proof.
  revert w. induction ticks as [| n IH]; intros w.
  - exists w. split; reflexivity.
  - cbn [run_loop photo_timer]. unfold bind at 1. unfold gets at 1.
    destruct (asleep w) eqn:Ha.
    + exists w. split; reflexivity.
    + destruct (loop_spec hours env w) as (w1 & H1 & _).
      destruct (IH w1) as (w' & Hr & Hl).
      exists w'. split.
      * unfold bind. rewrite H1. exact Hr.
      * rewrite H1, Hl, (tick_photo_timer _ _ _ _ H1). reflexivity.
Qed.

(** C9, as the code has it.  [lastPhotoTime] holds [millis()] as read
    when the most recent capture triggered by the scheduler completed;
    before the first one it holds the time at which [setup] ended, or
    its initial value if the camera failed to initialise.  This holds
    after [setup] and any number of ticks of [loop], and over any number
    of ticks from any state.  It is so because [lastPhotoTime] is written
    in two places only: at the end of a [setup] whose camera initialised,
    and by the timer block of [loop] right after a capture it made,
    whatever the outcome.  In particular
    - [takeAndUploadPhoto] itself never writes it;
    - the button block never writes it, not even when a short press
      makes it capture;
    - a tick of [loop] changes it only if the timer block found the
      capture due, and then to [millis()] as read after that capture;
    - [setup] leaves it alone when the camera fails and otherwise sets
      it to [millis()] without any capture. *)
Theorem lastPhotoTime_writers (hours : Z) (env : Env) (w : World) :
  (forall ticks,
      exists s w',
        setup env w = Some (tt, s) /\
        run_loop hours env ticks s = Some (tt, w') /\
        lastPhotoTime w'
        = photo_timer hours env ticks
            (if camera_begin env (reads w) then U32.wrap (now s) else lastPhotoTime w)
            s) /\
  (forall ticks,
      exists w',
        run_loop hours env ticks w = Some (tt, w') /\
        lastPhotoTime w' = photo_timer hours env ticks (lastPhotoTime w) w) /\
  (exists v,
      takeAndUploadPhoto env w = Some (tt, v) /\
      lastPhotoTime v = lastPhotoTime w) /\
  (exists continue w1,
      loop_button env w = Some (continue, w1) /\
      lastPhotoTime w1 = lastPhotoTime w /\
      (button_high env (reads w) = true -> buttonPressed w = true ->
       held_for w < 3000 -> count is_capture (emitted w w1) = 1%nat)) /\
  (exists w2,
      loop_timer hours env w = Some (tt, w2) /\
      (PHOTO_INTERVAL hours <= since_last_photo w ->
       count is_capture (emitted w w2) = 1%nat /\
       lastPhotoTime w2 = U32.wrap (now w2)) /\
      (since_last_photo w < PHOTO_INTERVAL hours ->
       lastPhotoTime w2 = lastPhotoTime w)) /\
  (exists w',
      loop hours env w = Some (tt, w') /\
      (lastPhotoTime w' <> lastPhotoTime w ->
       exists w1 w2,
         loop_button env w = Some (true, w1) /\
         PHOTO_INTERVAL hours <= since_last_photo w1 /\
         loop_timer hours env w1 = Some (tt, w2) /\
         lastPhotoTime w' = U32.wrap (now w2))) /\
  (exists s,
      setup env w = Some (tt, s) /\
      count is_capture (emitted w s) = 0%nat /\
      (camera_begin env (reads w) = false -> lastPhotoTime s = lastPhotoTime w) /\
      (camera_begin env (reads w) = true -> lastPhotoTime s = U32.wrap (now s))).
Proof.
  split; [| split; [| split; [| split; [| split; [| split]]]]].
  - intros ticks.
    destruct (setup_spec env w) as ([] & s & Hrun & _ & _ & Hfail & Hok).
    destruct (photo_timer_run hours env ticks s) as (w' & Hloop & Hl).
    exists s, w'. split; [exact Hrun |]. split; [exact Hloop |].
    rewrite Hl. f_equal.
    destruct (camera_begin env (reads w)) eqn:Hcam.
    + apply Hok. reflexivity.
    + apply (Hfail eq_refl).
  - intros ticks. apply photo_timer_run.
  - destruct (takeAndUploadPhoto_spec env w) as ([] & v & Hrun & K & _).
    exists v. split; [exact Hrun | apply (keeps_lastPhotoTime _ _ K)].
  - destruct (loop_button_spec env w) as (continue & w1 & Hb & Hstep & _ & Hl & _).
    exists continue, w1. split; [exact Hb |]. split; [exact Hl |].
    intros Hh Hp Hheld.
    destruct Hstep as [w0 Hh' Hp' _ _ _ E | w0 Hh' Hp' Hheld' _ _ _ E
                       | w0 Hh' Hp' Hheld' Ha E | w0 Hh' Hp' Hheld' _ Ha Hshape
                       | w0 Hh' Hp' Hheld' _ Ha E | w0 Hh' Hp' _ Ha E];
      try congruence; try lia.
    apply (capture_shape_facts _ Hshape).
  - destruct (loop_timer_spec hours env w) as ([] & w2 & Ht & Htimer & _).
    exists w2. split; [exact Ht |].
    destruct (timer_step_counts _ _ _ Htimer) as (Hdue & Hnot). split.
    + intros Hge. destruct (Hdue Hge) as (Hc & _ & Hl). auto.
    + intros Hlt. apply (Hnot Hlt).
  - destruct (loop_spec hours env w) as (w' & Hrun & Htick).
    exists w'. split; [exact Hrun |]. intros Hchanged.
    destruct Htick as [Hb _ Hl | w1 w2 Hb _ _ Hl1 Ht Htimer _ _ _ _ _ Hl3 _ _].
    + congruence.
    + destruct (timer_step_counts _ _ _ Htimer) as (Hdue & Hnot).
      destruct (Z_lt_le_dec (since_last_photo w1) (PHOTO_INTERVAL hours)) as [Hlt | Hge].
      * destruct (Hnot Hlt) as (_ & Hl2 & _). congruence.
      * destruct (Hdue Hge) as (_ & _ & Hl2).
        exists w1, w2. repeat split; try assumption. congruence.
  - destruct (setup_spec env w) as ([] & s & Hrun & _ & Hnone & Hfail & Hok).
    exists s. split; [exact Hrun |]. split; [exact Hnone |].
    split; [intros H; apply (Hfail H) | exact Hok].
Qed.

(** An hour after reset the first tick captures, at the start, and the
    capture completes 603 ms later; the second tick leaves the timer
    alone.  With a camera that fails, [setup] ends at 2000 ms and the
    timer keeps its initial 0. *)
Lemma lastPhotoTime_writers_witness :
  (exists w',
      run_loop 1 nominal_env 2 hour_later = Some (tt, w') /\
      lastPhotoTime w' = 3600603 /\ now w' = 3630803 /\
      count is_capture (emitted hour_later w') = 1%nat) /\
  (exists s w',
      setup broken_camera_env boot = Some (tt, s) /\
      run_loop 1 broken_camera_env 3 s = Some (tt, w') /\
      now s = 2000 /\ lastPhotoTime w' = 0) /\
  (exists continue w1,
      loop_button nominal_env pressed_2999_ago = Some (continue, w1) /\
      lastPhotoTime w1 = lastPhotoTime pressed_2999_ago /\
      count is_capture (emitted pressed_2999_ago w1) = 1%nat) /\
  (exists w2,
      loop_timer 1 nominal_env hour_later = Some (tt, w2) /\
      count is_capture (emitted hour_later w2) = 1%nat /\
      lastPhotoTime w2 = U32.wrap (now w2)) /\
  (exists s,
      setup nominal_env boot = Some (tt, s) /\
      count is_capture (emitted boot s) = 0%nat /\
      lastPhotoTime s = U32.wrap (now s)).
Proof.
  split; [| split; [| split; [| split]]].
  - destruct (lastPhotoTime_writers 1 nominal_env hour_later)
      as (_ & Hinv & _).
    destruct (Hinv 2%nat) as (w' & Hrun & Hl).
    exists w'. split; [exact Hrun |]. split.
    + rewrite Hl. vm_compute. reflexivity.
    + pose proof Hrun as Hc. vm_compute in Hc. injection Hc as <-.
      split; vm_compute; reflexivity.
  - destruct (lastPhotoTime_writers 1 broken_camera_env boot)
      as (Hinv & _).
    destruct (Hinv 3%nat) as (s & w' & Hs & Hrun & Hl).
    exists s, w'. split; [exact Hs |]. split; [exact Hrun |]. split.
    + pose proof Hs as Hc. vm_compute in Hc. injection Hc as <-. reflexivity.
    + rewrite Hl.
      pose proof Hs as Hc. vm_compute in Hc. injection Hc as <-.
      vm_compute. reflexivity.
  - destruct (lastPhotoTime_writers 1 nominal_env pressed_2999_ago)
      as (_ & _ & _ & (c & w1 & Hb & Hl & Hshort) & _).
    exists c, w1. split; [exact Hb |]. split; [exact Hl |].
    apply Hshort; [reflexivity | reflexivity | vm_compute; reflexivity].
  - destruct (lastPhotoTime_writers 1 nominal_env hour_later)
      as (_ & _ & _ & _ & (w2 & Ht & Hdue & _) & _).
    exists w2. split; [exact Ht |]. apply Hdue. vm_compute. discriminate.
  - destruct (lastPhotoTime_writers 1 nominal_env boot)
      as (_ & _ & _ & _ & _ & _ & (s & Hrun & Hnone & _ & Hok)).
    exists s. split; [exact Hrun |]. split; [exact Hnone |].
    apply Hok. reflexivity.
Defined.

(** C9, counterexample to the claim as stated.  With light sleeps of
    300 ms: [setup] ends at 1800 ms and writes [lastPhotoTime], having
    made no capture.  The first tick reads the button pressed, the second
    reads it released after 500 ms and captures and uploads a photo with
    success.  When the two ticks are over, at 3303 ms, [lastPhotoTime] is
    still the 1800 that [setup] wrote. *)
Lemma short_press_leaves_lastPhotoTime :
  option_map (fun r => (count is_capture (trace (snd r)),
                        lastPhotoTime (snd r), now (snd r)))
             (power_on 1 (synced_env tap 300) 0)
    = Some (0%nat, 1800, 1800) /\
  option_map (fun r => (count is_capture (trace (snd r)),
                        count is_cam_free (trace (snd r)),
                        lastPhotoTime (snd r), now (snd r)))
             (power_on 1 (synced_env tap 300) 2)
    = Some (1%nat, 1%nat, 1800, 3303).
Proof. split; vm_compute; reflexivity. Qed.

(** C10. When [ESP.getFreeHeap()] reports less than 20000 bytes at a
    capture attempt, [takePhoto] returns [false] having done nothing but
    read the heap size: the sensor is not asked for a frame, so none is
    acquired and none needs releasing, and [takeAndUploadPhoto] only
    switches the LED on and off again, without any socket traffic. *)
Theorem low_heap_skips_capture (env : Env) (w : World) :
  free_heap env (reads w) < 20000 ->
  takePhoto env w = Some (false, set_reads (S (reads w)) w) /\
  exists w',
    takeAndUploadPhoto env w = Some (tt, w') /\
    emitted w w' = [EvTakeAndUpload; EvLed true; EvLed false] /\
    fb w' = fb w /\
    count is_cam_get (emitted w w') = 0%nat /\
    count is_cam_free (emitted w w') = 0%nat /\
    count is_tls (emitted w w') = 0%nat.
Proof.
  intros Hheap. apply Z.ltb_lt in Hheap.
  assert (Htake : takePhoto env w = Some (false, set_reads (S (reads w)) w)).
  { unfold takePhoto, bind, observe. rewrite Hheap. reflexivity. }
  split; [exact Htake |].
  eexists. split.
  - unfold takeAndUploadPhoto, bind, emit, digitalWrite_led.
    unfold takePhoto, bind, observe. tidy. rewrite Hheap.
    unfold ret. reflexivity.
  - emitted_now. repeat split; reflexivity.
Qed.

Lemma low_heap_skips_capture_witness :
  takePhoto low_heap_env boot = Some (false, set_reads 1 boot) /\
  exists w',
    takeAndUploadPhoto low_heap_env boot = Some (tt, w') /\
    emitted boot w' = [EvTakeAndUpload; EvLed true; EvLed false] /\
    fb w' = fb boot /\
    count is_cam_get (emitted boot w') = 0%nat /\
    count is_cam_free (emitted boot w') = 0%nat /\
    count is_tls (emitted boot w') = 0%nat.
Proof. apply (low_heap_skips_capture low_heap_env boot). vm_compute. reflexivity. Defined.

(** ** Further properties *)

(** X1. [takePhoto] returns, and it returns [true] exactly when the heap
    check passes and the sensor delivers a frame that is not empty, not
    above 500000 bytes and has a buffer; that frame is then the one held
    in [TimerCAM.Camera.fb].  When it returns [false], every frame it
    obtained has been released again, and it holds no frame unless it
    stopped at the heap check without touching the camera. *)
Theorem takePhoto_validates (env : Env) (w : World) :
  exists ok w',
    takePhoto env w = Some (ok, w') /\
    (ok = true <->
     20000 <= free_heap env (reads w) /\
     exists f, fb_get env (S (reads w)) = Some f /\ valid_frame f) /\
    (ok = true ->
     fb w' = fb_get env (S (reads w)) /\ emitted w w' = [EvCamGet true]) /\
    (ok = false ->
     (fb w' = None \/ free_heap env (reads w) < 20000 /\ fb w' = fb w) /\
     count is_cam_get_ok (emitted w w') = count is_cam_free (emitted w w')).
Proof.
  destruct (takePhoto_run env w) as (ok & w' & Hrun & Hphoto & _).
  exists ok, w'. split; [exact Hrun |].
  destruct Hphoto as [w' Hheap Hfb E | w' Hheap Hget Hfb E
                      | f w' Hheap Hget Hbad Hfb E | f w' Hheap Hget Hok Hfb E R].
  - split; [split; [discriminate | intros [H _]; lia] |].
    split; [discriminate |]. intros _. rewrite E. auto.
  - split; [split; [discriminate | intros (_ & f & Hf & _); congruence] |].
    split; [discriminate |]. intros _. rewrite E. auto.
  - split.
    { split; [discriminate |]. intros (_ & f' & Hf & Hv).
      rewrite Hget in Hf. injection Hf as <-. contradiction. }
    split; [discriminate |]. intros _. rewrite E. auto.
  - split; [split; [intros _; eauto | reflexivity] |].
    split; [| discriminate]. intros _. rewrite Hget, E. auto.
Qed.

(** X2. [connectToWiFi] returns after one to three [WiFi.begin()] calls.
    The delays it requests add up to at most 55000 ms (three waits of at
    most 15 s and two back-offs of 5 s), and the clock of the model, which
    only delays move, advances by exactly that sum.  It returns [true] on
    the strength of the last [WiFi.status()] it read, which said
    connected.  It returns [false] only after three attempts, which take
    at least the two back-offs; the status read that ended the last
    attempt said not connected, and one more read, made for the log,
    follows it. *)
Theorem wifi_connect_bounded (env : Env) (w : World) :
  exists ok w',
    connectToWiFi env w = Some (ok, w') /\
    (1 <= count is_wifi_begin (emitted w w') <= 3)%nat /\
    now w' = now w + delay_total (emitted w w') /\
    delay_total (emitted w w') <= 55000 /\
    (ok = true ->
     exists k, reads w' = S k /\ wifi_connected env k = true) /\
    (ok = false ->
     (exists k, reads w' = S (S k) /\ wifi_connected env k = false) /\
     count is_wifi_begin (emitted w w') = 3%nat /\
     10000 <= delay_total (emitted w w')) /\
    forallb wifi_class (emitted w w') = true.
Proof.
  destruct (connectToWiFi_run env w)
    as (ok & w' & Hrun & _ & (tries & E & Htries & Hnow) & _ & (k & Hreads & Hk) & _).
  exists ok, w'. split; [exact Hrun |].
  destruct (wifi_tries_facts _ _ _ Htries) as (Hall & Hle & Hge & Hfail & Hd & Hdf).
  rewrite E.
  change (EvWifiMode true :: EvWifiSetSleep false :: tries)
    with ([EvWifiMode true; EvWifiSetSleep false] ++ tries)%list.
  rewrite count_app, delay_total_app, forallb_app, Hall.
  change (count is_wifi_begin [EvWifiMode true; EvWifiSetSleep false]) with 0%nat.
  change (delay_total [EvWifiMode true; EvWifiSetSleep false]) with 0.
  split; [split; [apply Hge; discriminate | exact Hle] |].
  split; [exact Hnow |]. split; [simpl in Hd; lia |].
  split; [| split; [| reflexivity]].
  - intros ->. exists k. split; assumption.
  - intros ->. split; [exists k; split; assumption |].
    split; [apply Hfail; reflexivity |].
    specialize (Hdf eq_refl). simpl in Hdf. lia.
Qed.

(** X4. When the timer block of [loop] goes into light sleep, it is
    back within 30 s, [lastPhotoTime] is untouched, and on waking the
    next capture is still more than 30 s away: the 60 s margin tested
    before [enterLightSleep()] covers the 30 s the sleep may last, so a
    light sleep never runs past the time a capture falls due. *)
Theorem light_sleep_keeps_deadline (hours : Z) (env : Env) (w : World) :
  exists w2,
    loop_timer hours env w = Some (tt, w2) /\
    (In EvLightSleep (emitted w w2) ->
     emitted w w2 = light_sleep_events /\
     now w <= now w2 <= now w + 30000 /\
     lastPhotoTime w2 = lastPhotoTime w /\
     since_last_photo w2 = since_last_photo w + (now w2 - now w) /\
     since_last_photo w2 + 30000 < PHOTO_INTERVAL hours).
Proof.
  destruct (loop_timer_spec hours env w) as ([] & w2 & Hrun & Htimer & _).
  exists w2. split; [exact Hrun |]. intros Hin.
  apply count_light_sleep_In in Hin.
  destruct (timer_step_counts _ _ _ Htimer) as (Hdue & Hnot).
  destruct (Z_lt_le_dec (since_last_photo w) (PHOTO_INTERVAL hours)) as [Hlt | Hge].
  - destruct (Hnot Hlt) as (_ & _ & _ & Hiff). apply Hiff in Hin.
    destruct (loop_timer_sleeps hours env w Hlt Hin)
      as ([] & w2' & Hrun' & A & _ & E & Hn & Hs & Hd).
    rewrite Hrun in Hrun'. injection Hrun' as <-.
    split; [exact E |]. split; [exact Hn |].
    split; [apply (adv_lastPhotoTime _ _ _ A) |]. split; [exact Hs | exact Hd].
  - destruct (Hdue Hge) as (_ & Hzero & _). contradiction.
Qed.

(** X5. The timer survives the roll-over of [millis()].  If
    [lastPhotoTime] was read from the clock at time [t0] and less than
    2^32 ms have passed since, then [timeSinceLastPhoto] is the time that
    really passed, whether or not the 32-bit counter wrapped in between;
    the timer block captures exactly when that time has reached the
    interval. *)
Theorem timer_survives_rollover (hours : Z) (env : Env) (w : World) (t0 : Z) :
  lastPhotoTime w = U32.wrap t0 -> t0 <= now w -> now w - t0 < U32.modulus ->
  since_last_photo w = now w - t0 /\
  exists w2,
    loop_timer hours env w = Some (tt, w2) /\
    (PHOTO_INTERVAL hours <= now w - t0 ->
     count is_capture (emitted w w2) = 1%nat /\
     lastPhotoTime w2 = U32.wrap (now w2)) /\
    (now w - t0 < PHOTO_INTERVAL hours ->
     count is_capture (emitted w w2) = 0%nat /\
     lastPhotoTime w2 = U32.wrap t0).
Proof.
  intros Hlast Hpast Hnear.
  assert (Hsince : since_last_photo w = now w - t0).
  { unfold since_last_photo. rewrite Hlast, U32.sub_wrap_wrap.
    apply U32.wrap_small. unfold U32.in_range. lia. }
  split; [exact Hsince |].
  destruct (loop_timer_spec hours env w) as ([] & w2 & Hrun & Htimer & _).
  exists w2. split; [exact Hrun |].
  destruct (timer_step_counts _ _ _ Htimer) as (Hdue & Hnot).
  rewrite Hsince in Hdue, Hnot. split.
  - intros Hge. destruct (Hdue Hge) as (Hc & _ & Hl). auto.
  - intros Hlt. destruct (Hnot Hlt) as (Hc & Hl & _). rewrite Hl, Hlast. auto.
Qed.

Lemma blink_events_facts n on off :
  count is_led_on (blink_events n on off) = n /\
  delay_total (blink_events n on off) = (on + off) * Z.of_nat n /\
  count is_wifi_begin (blink_events n on off) = 0%nat.
Proof.
  unfold blink_events.
  induction n as [| n (IH1 & IH2 & IH3)]; [repeat split; simpl; lia |].
  cbn [repeat List.concat]. rewrite !count_app, delay_total_app, IH1, IH2, IH3.
  change (count is_led_on [EvLed true; EvDelay on; EvLed false; EvDelay off]) with 1%nat.
  change (count is_wifi_begin [EvLed true; EvDelay on; EvLed false; EvDelay off])
    with 0%nat.
  change (delay_total [EvLed true; EvDelay on; EvLed false; EvDelay off])
    with (on + (off + 0)).
  repeat split; lia.
Qed.

(** X6. With a camera that initialises, [setup] always runs to its end,
    with or without WiFi and with or without a synchronised clock: it
    ends by switching the LED off, blinking it three times and arming
    the button as wake-up source, with [lastPhotoTime] set to
    [millis()].  The LED is switched on four times in all, [WiFi.begin()]
    is called at most three times, and the clock advances by exactly the
    delays requested, between 1800 and 66800 ms.  The camera frame
    pointer, the sleep flag and the button state are untouched. *)
Theorem setup_completes (env : Env) (w : World) :
  camera_begin env (reads w) = true ->
  exists w',
    setup env w = Some (tt, w') /\
    (exists pre,
        emitted w w'
        = (pre ++ EvLed false :: blink_events 3 300 300 ++ [EvExt0Wakeup])%list) /\
    led w' = false /\
    lastPhotoTime w' = U32.wrap (now w') /\
    count is_led_on (emitted w w') = 4%nat /\
    (count is_wifi_begin (emitted w w') <= 3)%nat /\
    now w' = now w + delay_total (emitted w w') /\
    1800 <= delay_total (emitted w w') <= 66800 /\
    fb w' = fb w /\ asleep w' = asleep w /\ buttonPressed w' = buttonPressed w.
Proof.
  intros Hbegin.
  destruct (setup_run_spec env w)
    as ([] & w' & Hrun & Hshape & _ & Hclock & Hfb & Ha & Hp & _ & Hled).
  rewrite Hbegin in Hled. destruct Hled as [Hled Hlast].
  exists w'. split; [exact Hrun |].
  unfold clocked in Hclock.
  destruct (blink_events_facts 3 300 300) as (B1 & B2 & B3).
  assert (Hfacts :
    (exists pre,
        emitted w w'
        = (pre ++ EvLed false :: blink_events 3 300 300 ++ [EvExt0Wakeup])%list) /\
    count is_led_on (emitted w w') = 4%nat /\
    (count is_wifi_begin (emitted w w') <= 3)%nat /\
    1800 <= delay_total (emitted w w') <= 66800).
  { destruct Hshape as [Hfail | tries _ Htries | tries j _ Htries Hj];
      [congruence | |];
      destruct (wifi_tries_facts _ _ _ Htries) as (Hall & Hle & _ & _ & Hd & _);
      pose proof (count_none is_led_on wifi_class tries Hall wifi_class_not_led_on) as Hl;
      simpl in Hd.
    - split.
      { exists ([EvLed true; EvCamBegin true; EvCamConfig;
                 EvWifiMode true; EvWifiSetSleep false] ++ tries)%list.
        rewrite <- app_assoc. reflexivity. }
      change (EvLed false :: ?l) with ([EvLed false] ++ l)%list.
      rewrite !count_app, !delay_total_app, B1, B2, B3, Hl.
      unfold count in *. simpl. lia.
    - split.
      { exists ([EvLed true; EvCamBegin true; EvCamConfig;
                 EvWifiMode true; EvWifiSetSleep false] ++ tries ++
                EvConfigTime :: repeat (EvDelay 1000) j)%list.
        rewrite <- !app_assoc. simpl. rewrite <- ?app_assoc. reflexivity. }
      change (EvConfigTime :: ?l) with ([EvConfigTime] ++ l)%list.
      change (EvLed false :: ?l) with ([EvLed false] ++ l)%list.
      rewrite !count_app, !delay_total_app, B1, B2, B3, Hl, !count_repeat,
        delay_total_repeat.
      assert (Hms : 0 <= 1000 * Z.of_nat j <= 10000) by lia.
      set (ms := 1000 * Z.of_nat j) in *. clearbody ms.
      unfold count in *. simpl. lia. }
  destruct Hfacts as (H1 & H2 & H3 & H4).
  repeat split; try assumption; lia.
Qed.

(** X7. The wait for the clock in [setup] stops at the first successful
    [getLocalTime] or after ten failures.  It makes at most eleven polls
    and does nothing else but ask for a [delay(1000)] after each failed
    poll but the eleventh: at most 10 s of requested delay (the time a
    poll itself blocks comes on top and is not counted here).  The count
    it ends with is the number of failed polls that were followed by a
    delay; it is below 10, the test for a synchronised clock, exactly
    when one of the first ten polls succeeded. *)
Theorem time_sync_bounded (env : Env) (w : World) :
  exists c w',
    time_sync env 10 0 w = Some (c, w') /\
    0 <= c <= 10 /\
    emitted w w' = repeat (EvDelay 1000) (Z.to_nat c) /\
    delay_total (emitted w w') = 1000 * c /\
    reads w' = (reads w + S (Z.to_nat c))%nat /\
    (forall i, (i < Z.to_nat c)%nat -> local_time env (reads w + i) = None) /\
    (c < 10 <-> exists i, (i < 10)%nat /\ local_time env (reads w + i) <> None).
Proof.
  destruct (time_sync_run env 10 0 w)
    as (c & w' & Hrun & _ & _ & j & Hj & E & _ & Hc & Hr & Hnone & Hsome).
  exists c, w'. split; [exact Hrun |].
  simpl in Hc. subst c. rewrite Nat2Z.id.
  split; [lia |]. split; [exact E |].
  split; [rewrite E; apply delay_total_repeat |]. split; [exact Hr |].
  split; [exact Hnone |]. split.
  - intros Hlt. exists j. split; [lia | apply Hsome; lia].
  - intros (i & Hi & Hfound).
    destruct (Nat.lt_ge_cases i j) as [Hij | Hij]; [| lia].
    exfalso. apply Hfound, Hnone, Hij.
Qed.

(** X8. An upload that gets past its entry checks tries [client.connect]
    at most three times, 2 s apart, and stops trying at the first
    success.  It gives up as a connection failure exactly when all three
    attempts are refused; it has then done nothing but those attempts and
    the two pauses between them. *)
Theorem connection_retries (env : Env) (d N : Z) (f : string) (w : World) :
  U32.in_range N ->
  exists o w',
    uploadPhotoToSupabase env d N f w = Some (o, w') /\
    (count is_connect (emitted w w') <= 3)%nat /\
    (count is_connect_ok (emitted w w') <= 1)%nat /\
    (o = ConnectFailed <->
     upload_starts env d N w /\
     forall i, (i < 3)%nat -> tls_connect env (S (reads w) + i) = false) /\
    (o = ConnectFailed ->
     emitted w w' = refused /\ delay_total (emitted w w') = 4000) /\
    (In (EvTlsConnect true) (emitted w w') ->
     exists k rest,
       (k <= 2)%nat /\
       emitted w w' = (connected_after k ++ EvTlsPrint f N :: rest)%list /\
       count is_connect rest = 0%nat).
Proof.
  intros HN.
  destruct (upload_run_spec env d N f w HN) as (o & w' & Hrun & _ & Hshape).
  exists o, w'. split; [exact Hrun |].
  destruct (upload_run_connects env _ _ _ _ _ _ Hshape) as [Hc3 Hc1].
  split; [exact Hc3 |]. split; [exact Hc1 |].
  assert (Hrest : forall i k tail,
             count is_connect tail = 0%nat ->
             count is_connect (chunks_from d N i k ++ tail) = 0%nat).
  { intros i k tail Ht. rewrite count_app, count_chunks_none by reflexivity. exact Ht. }
  destruct Hshape as [Hoff | Hup Hbad | Hs Hall | k ws Hs Hk Hok Hws _ _ | k Hs Hk Hok _ _
                      | k j rx Hs Hk Hok Hj Hrx _ _].
  - split; [split; [discriminate | intros [(Hup & _) _]; congruence] |].
    split; [discriminate | intros []].
  - split; [split; [discriminate | intros [(_ & Hd & Hn) _]; tauto] |].
    split; [discriminate | intros []].
  - split; [split; auto |]. split; [auto |].
    simpl. intros [H | [H | [H | [H | [H | []]]]]]; discriminate.
  - split; [split; [discriminate | intros [_ Hall]; rewrite (Hall k) in Hok; [discriminate | lia]] |].
    split; [discriminate |]. intros _. exists k, ws. split; [exact Hk |].
    split; [reflexivity |].
    destruct Hws as (j & r & _ & _ & ->). apply Hrest. reflexivity.
  - split; [split; [discriminate | intros [_ Hall]; rewrite (Hall k) in Hok; [discriminate | lia]] |].
    split; [discriminate |]. intros _. eexists k, _. split; [exact Hk |].
    split; [reflexivity |].
    apply Hrest. rewrite count_app, count_repeat. reflexivity.
  - assert (Ho : (if status_ok rx then Uploaded else Rejected) <> ConnectFailed)
      by (destruct (status_ok rx); discriminate).
    split; [split; [intros H; contradiction | intros [_ Hall]; rewrite (Hall k) in Hok; [discriminate | lia]] |].
    split; [intros H; contradiction |]. intros _. eexists k, _. split; [exact Hk |].
    split; [reflexivity |].
    apply Hrest. rewrite count_app, count_repeat. reflexivity.
Qed.

(** X9. An upload closes the connection it opened exactly once, as the
    last thing it does, on every path: short write, response timeout,
    rejection and success.  When no connection was made it closes
    nothing and sends nothing: its only socket calls are the refused
    connection attempts. *)
Theorem socket_closed_once (env : Env) (d N : Z) (f : string) (w : World) :
  U32.in_range N ->
  exists o w',
    uploadPhotoToSupabase env d N f w = Some (o, w') /\
    (In (EvTlsConnect true) (emitted w w') <-> reached_server o = true) /\
    (In (EvTlsConnect true) (emitted w w') ->
     count is_tls_stop (emitted w w') = 1%nat /\
     exists pre, emitted w w' = (pre ++ [EvTlsStop])%list) /\
    (~ In (EvTlsConnect true) (emitted w w') ->
     count is_tls_stop (emitted w w') = 0%nat /\
     count is_tls (emitted w w') = count is_connect (emitted w w')).
Proof.
  intros HN.
  destruct (upload_run_spec env d N f w HN) as (o & w' & Hrun & _ & Hshape).
  exists o, w'. split; [exact Hrun |].
  destruct (upload_run_stops env _ _ _ _ _ _ Hshape) as (Hcount & Hlast & Hiff & Hnone).
  split; [exact Hiff |]. split.
  - intros Hin. apply Hiff in Hin. rewrite Hin in Hcount. auto.
  - intros Hnot. destruct (reached_server o) eqn:Hr.
    + exfalso. apply Hnot, Hiff. reflexivity.
    + auto.
Qed.

(** X10. The wait for the response is bounded: the upload polls the
    socket every 10 ms and makes at most 1501 such pauses.  When it gives
    up as a timeout it has made exactly 1501 of them (15010 ms) after the
    last chunk, and it closes the connection. *)
Theorem response_wait_bounded (env : Env) (d N : Z) (f : string) (w : World) :
  U32.in_range N ->
  exists o w',
    uploadPhotoToSupabase env d N f w = Some (o, w') /\
    (count is_poll (emitted w w') <= 1501)%nat /\
    (o = ResponseTimeout ->
     count is_poll (emitted w w') = 1501%nat /\
     exists k,
       (k <= 2)%nat /\
       emitted w w'
       = (connected_after k ++ EvTlsPrint f N :: chunks_from d N 0 (chunk_count N) ++
          repeat (EvDelay 10) 1501 ++ [EvTlsStop])%list).
Proof.
  intros HN.
  destruct (upload_run_spec env d N f w HN) as (o & w' & Hrun & _ & Hshape).
  exists o, w'. split; [exact Hrun |].
  split; [apply (upload_run_polls env _ _ _ _ _ _ Hshape) |].
  intros Ho.
  destruct Hshape as [Hoff | Hup Hbad | Hs Hall | k ws Hs Hk Hok Hws _ _ | k Hs Hk Hok _ _
                      | k j rx Hs Hk Hok Hj Hrx _ _]; try discriminate.
  - split; [| exists k; auto].
    change (EvTlsPrint f N :: ?l) with ([EvTlsPrint f N] ++ l)%list.
    rewrite !count_app, count_connected_after_none, count_chunks_none, count_repeat
      by reflexivity.
    reflexivity.
  - destruct (status_ok rx); discriminate.
Qed.

(** X11. The chunk loop never reads outside the image buffer: every
    [client.write] of an upload of [N] bytes at [d] starts at [d] plus a
    multiple of 1024, asks for between 1 and 1024 bytes, and ends at or
    before [d + N]. *)
Theorem writes_stay_in_buffer (env : Env) (d N : Z) (f : string) (w : World) :
  U32.in_range N ->
  exists o w',
    uploadPhotoToSupabase env d N f w = Some (o, w') /\
    forall ptr n r,
      In (EvTlsWrite ptr n r) (emitted w w') ->
      d <= ptr /\ (ptr - d) mod 1024 = 0 /\ 0 < n <= 1024 /\ ptr + n <= d + N.
Proof.
  intros HN. pose proof HN as [HN0 _].
  destruct (upload_run_spec env d N f w HN) as (o & w' & Hrun & _ & Hshape).
  exists o, w'. split; [exact Hrun |].
  intros ptr n r Hin.
  destruct (upload_run_writes env _ _ _ _ _ _ HN0 Hshape ptr n r Hin)
    as (j & Hj & -> & ->).
  destruct (chunk_inside N j HN0 Hj) as [Hlen Hend].
  split; [lia |]. split; [| split; lia].
  replace (d + 1024 * Z.of_nat j - d) with (Z.of_nat j * 1024) by lia.
  apply Z.mod_mul. lia.
Qed.

(** X12. An upload that gets through the chunk loop (it ends as
    timeout, rejection or success) has handed the socket every byte of
    the buffer exactly once and in order: the addresses sent are [d],
    [d + 1], ..., [d + N - 1], as many as the [Content-Length] it
    declared. *)
Theorem payload_sent_in_order (env : Env) (d N : Z) (f : string) (w : World) :
  U32.in_range N ->
  exists o w',
    uploadPhotoToSupabase env d N f w = Some (o, w') /\
    (o = ResponseTimeout \/ o = Rejected \/ o = Uploaded ->
     bytes_sent (emitted w w') = addresses d N /\
     In (EvTlsPrint f N) (emitted w w') /\
     Z.of_nat (List.length (bytes_sent (emitted w w'))) = N).
Proof.
  intros HN. pose proof HN as [HN0 _].
  destruct (upload_run_spec env d N f w HN) as (o & w' & Hrun & _ & Hshape).
  exists o, w'. split; [exact Hrun |]. intros Ho.
  pose proof (upload_run_bytes env _ _ _ _ _ _ HN0 Hshape Ho) as Hbytes.
  split; [exact Hbytes |]. split.
  - destruct Hshape as [Hoff | Hup Hbad | Hs Hall | k ws Hs Hk Hok Hws _ _ | k Hs Hk Hok _ _
                        | k j rx Hs Hk Hok Hj Hrx _ _];
      try (destruct Ho as [Ho | [Ho | Ho]]; discriminate);
      apply in_or_app; right; left; reflexivity.
  - rewrite Hbytes. unfold addresses.
    assert (Hlen : forall n p, List.length (span p n) = n).
    { induction n as [| n IH]; intros p; simpl; [| rewrite IH]; reflexivity. }
    rewrite Hlen. lia.
Qed.

(** X13. [takeAndUploadPhoto] always leaves the LED off, and the number
    of times it wrote HIGH to the LED pin tells what happened: once when no
    usable frame was captured, three times (two blinks) when the photo
    was uploaded, four times (three blinks) when WiFi could not be
    re-established, and six times (five blinks) when the upload failed.
    No usable frame means that the heap check failed or the sensor
    delivered no frame or an invalid one; uploaded means that a response
    was received which the status test accepts. *)
Theorem led_reports_outcome (env : Env) (w : World) :
  exists w',
    takeAndUploadPhoto env w = Some (tt, w') /\
    led w' = false /\
    (count is_led_on (emitted w w') = 1 \/ count is_led_on (emitted w w') = 3 \/
     count is_led_on (emitted w w') = 4 \/ count is_led_on (emitted w w') = 6)%nat /\
    (count is_led_on (emitted w w') = 1%nat <->
     ~ (20000 <= free_heap env (reads w) /\
        exists f, fb_get env (S (reads w)) = Some f /\ valid_frame f)) /\
    (count is_led_on (emitted w w') = 3%nat <->
     exists rx, In (EvTlsRecv rx) (emitted w w') /\ status_ok rx = true).
Proof.
  destruct (takeAndUploadPhoto_run env w) as ([] & w' & Hrun & _ & Hshape & Hled & _).
  exists w'. split; [exact Hrun |]. split; [exact Hled |].
  apply (capture_run_blinks env w _ Hshape).
Qed.

(** X14. What [takeAndUploadPhoto] uploads is the frame it has just
    captured, under a name made in the same run.  The request it sends
    declares the length of the frame that the sensor delivered (the
    second observation of the run) and the file name photo_<stamp>.jpg.
    The stamp is the answer of the run's own [getLocalTime] call, which
    is the observation that follows the status reads, or, if that call
    fails, the decimal numeral of [millis()] at that moment: the clock at
    entry plus the delays of the reconnection, on the clock of the model,
    which only delays move.  With WiFi up at the status check there is
    no reconnection: the stamp comes from the fourth observation of the
    run and the clock at entry.  Every [client.write] of the run reads
    inside the frame's buffer. *)
Theorem upload_sends_captured_frame (env : Env) (w : World) :
  exists w',
    takeAndUploadPhoto env w = Some (tt, w') /\
    (forall name L,
        In (EvTlsPrint name L) (emitted w w') ->
        exists frame reconnect ok rest,
          fb_get env (S (reads w)) = Some frame /\ valid_frame frame /\
          L = Z.of_N (len frame) /\
          emitted w w'
          = ([EvTakeAndUpload; EvLed true; EvCamGet true] ++ reconnect ++
             EvTlsConnect ok :: rest)%list /\
          forallb wifi_class reconnect = true /\
          (wifi_connected env (S (S (reads w))) = true -> reconnect = []) /\
          name = photo_name
                   (stamp_at env (3 + reads w + wifi_reads reconnect)
                             (now w + delay_total reconnect))) /\
    (forall ptr n r,
        In (EvTlsWrite ptr n r) (emitted w w') ->
        exists frame,
          fb_get env (S (reads w)) = Some frame /\
          buf frame <= ptr /\ 0 < n /\ ptr + n <= buf frame + Z.of_N (len frame)).
Proof.
  destruct (takeAndUploadPhoto_run env w) as ([] & w' & Hrun & _ & Hshape & _).
  exists w'. split; [exact Hrun |]. split.
  - intros name L Hin.
    destruct (capture_run_tls env w _ (EvTlsPrint name L) Hshape eq_refl Hin)
      as (frame & reconnect & stamp & w1 & o & up & Hget & Hok & (Hstamp & _) & Hup
          & Hin' & Hclass & Hnone & E).
    destruct (upload_run_print env _ _ _ _ _ _ _ _ Hup Hin') as [-> ->].
    destruct (upload_run_head env _ _ _ _ _ _ Hup) as [-> | (ok & rest & ->)];
      [destruct Hin' |].
    exists frame, reconnect, ok, (rest ++ upload_report o ++ [EvCamFree])%list.
    split; [exact Hget |]. split; [exact Hok |]. split; [reflexivity |].
    split; [exact E |]. split; [exact Hclass |]. split; [exact Hnone |].
    rewrite Hstamp. reflexivity.
  - intros ptr n r Hin.
    destruct (capture_run_tls env w _ (EvTlsWrite ptr n r) Hshape eq_refl Hin)
      as (frame & reconnect & stamp & w1 & o & up & Hget & Hok & Hsrc & Hup & Hin' & _).
    assert (HN : 0 <= Z.of_N (len frame)) by lia.
    destruct (upload_run_writes env _ _ _ _ _ _ HN Hup ptr n r Hin')
      as (j & Hj & -> & ->).
    destruct (chunk_inside _ j HN Hj) as [Hlen Hend].
    exists frame. split; [exact Hget |]. lia.
Qed.

(** X15. Only a long press puts the device into deep sleep.  A tick of
    [loop] on a device that is awake ends in deep sleep exactly when it
    reads the button down with a press on record for more than 3000 ms,
    and exactly then [esp_deep_sleep_start()] is called.  Over any number
    of ticks deep sleep is entered at most once, and then the last thing
    the device did is the shutdown sequence: warning blinks, WiFi off,
    camera de-initialised, button wake-up armed, deep sleep. *)
Theorem deep_sleep_only_by_long_press
        (hours : Z) (env : Env) (ticks : nat) (w : World) :
  asleep w = false ->
  (exists w1,
      loop hours env w = Some (tt, w1) /\
      (asleep w1 = true <->
       button_high env (reads w) = false /\ buttonPressed w = true /\
       3000 < held_for w) /\
      (asleep w1 = true <-> In EvDeepSleep (emitted w w1))) /\
  exists w',
    run_loop hours env ticks w = Some (tt, w') /\
    (asleep w' = false -> count is_deep_sleep (emitted w w') = 0%nat) /\
    (asleep w' = true ->
     exists pre,
       emitted w w' = (pre ++ shutdown_events)%list /\
       count is_deep_sleep pre = 0%nat).
Proof.
  intros Hawake. split.
  - destruct (tick_summary hours env w) as (w1 & Hrun & _ & _ & _ & Hsleep).
    exists w1. split; [exact Hrun |].
    destruct Hsleep as [(Ha & Hd & Hnot) | (Ha & E & Hlong)].
    + rewrite Ha, Hawake. split; [split; [discriminate | intros H; contradiction] |].
      split; [discriminate |]. intros Hin. exfalso.
      assert (Hc : count is_deep_sleep (emitted w w1) <> 0%nat).
      { apply in_split in Hin as (l1 & l2 & ->).
        rewrite count_app. unfold count at 2. simpl. lia. }
      contradiction.
    + split; [split; auto |]. split; [| auto].
      intros _. rewrite E. apply count_deep_sleep_In. discriminate.
  - pose (I := fun w' : World =>
        trace w' = (trace w ++ emitted w w')%list /\
        ((asleep w' = false /\ count is_deep_sleep (emitted w w') = 0%nat) \/
         (asleep w' = true /\
          exists pre, emitted w w' = (pre ++ shutdown_events)%list /\
                      count is_deep_sleep pre = 0%nat))).
    destruct (run_loop_invariant hours env I) with (ticks := ticks) (w := w)
      as (w' & Hrun & Ht & HI).
    + intros v v' (Htv & Hv) Hav Hloop.
      destruct (tick_summary hours env v) as (v'' & Hrun & Ht' & _ & _ & Hsleep).
      rewrite Hloop in Hrun. injection Hrun as <-.
      assert (Ht2 : trace v' = (trace w ++ emitted w v ++ emitted v v')%list)
        by (rewrite Ht', Htv, <- app_assoc; reflexivity).
      pose proof (emitted_app _ _ _ Ht2) as E.
      split; [rewrite E; exact Ht2 |].
      destruct Hv as [(_ & Hd) | (Ha & _)]; [| congruence].
      destruct Hsleep as [(Ha' & Hd' & _) | (Ha' & E' & _)].
      * left. split; [congruence |]. rewrite E, count_app, Hd, Hd'. reflexivity.
      * right. split; [exact Ha' |]. exists (emitted w v).
        split; [rewrite E, E'; reflexivity | exact Hd].
    + split; [rewrite emitted_refl, app_nil_r; reflexivity |].
      left. split; [exact Hawake |]. rewrite emitted_refl. reflexivity.
    + exists w'. split; [exact Hrun |]. split.
      * intros Ha. destruct HI as [(_ & Hd) | (Ha' & _)]; [exact Hd | congruence].
      * intros Ha. destruct HI as [(Ha' & _) | (_ & Hpre)]; [congruence | exact Hpre].
Qed.

(** X16. From reset, after [setup] and any number of ticks of [loop],
    the firmware holds no camera frame, and it has released exactly as
    many frames as the sensor delivered: no frame leaks and none is
    released twice, whatever the surroundings do. *)
Theorem no_frame_held_between_ticks (hours : Z) (env : Env) (ticks : nat) :
  exists w',
    power_on hours env ticks = Some (tt, w') /\
    fb w' = None /\
    count is_cam_get_ok (trace w') = count is_cam_free (trace w').
Proof.
  destruct (setup_run_spec env boot) as ([] & s & Hsetup & Hshape & K & _ & Hfb & _).
  assert (Hs : count is_cam_get_ok (trace s) = count is_cam_free (trace s)).
  { rewrite (tk_trace _ _ K). change (trace boot) with (@nil Event). simpl app.
    assert (Hq : forall tries ok, wifi_tries 3 ok tries ->
                 count is_cam_get_ok tries = 0%nat /\ count is_cam_free tries = 0%nat).
    { intros tries ok Ht. destruct (wifi_tries_facts _ _ _ Ht) as (Hall & _).
      split; apply (count_none _ wifi_class tries Hall);
        intros ev; destruct ev; simpl; congruence. }
    destruct Hshape as [Hfail | tries _ Htries | tries j _ Htries Hj].
    - reflexivity.
    - destruct (Hq _ _ Htries) as [Q1 Q2].
      change (EvLed false :: ?l) with ([EvLed false] ++ l)%list.
      rewrite !count_app, Q1, Q2. reflexivity.
    - destruct (Hq _ _ Htries) as [Q1 Q2].
      change (EvConfigTime :: ?l) with ([EvConfigTime] ++ l)%list.
      change (EvLed false :: ?l) with ([EvLed false] ++ l)%list.
      rewrite !count_app, Q1, Q2, !count_repeat. reflexivity. }
  pose (I := fun w' : World =>
      fb w' = None /\ count is_cam_get_ok (trace w') = count is_cam_free (trace w')).
  destruct (run_loop_invariant hours env I) with (ticks := ticks) (w := s)
    as (w' & Hrun & Hnone & Hbal).
  - intros v v' (Hv & Hb) _ Hloop.
    destruct (tick_summary hours env v) as (v'' & Hrun & Ht & Hbal & Hframe & _).
    rewrite Hloop in Hrun. injection Hrun as <-.
    split.
    + destruct Hframe as [H | H]; [exact H | congruence].
    + rewrite Ht, !count_app, Hb, Hbal. reflexivity.
  - split; [rewrite Hfb; reflexivity | exact Hs].
  - exists w'. split; [| split; assumption].
    unfold power_on, bind. rewrite Hsetup. exact Hrun.
Qed.

Section IdleRuns.

Variable PHOTO_INTERVAL_HOURS : Z.
Variable env : Env.

Lemma loop_button_idle w :
  button_high env (reads w) = true -> buttonPressed w = false ->
  loop_button env w
  = Some (true, set_buttonPressed false (set_reads (S (reads w)) w)).
Proof.
  intros Hhigh Hup. unfold loop_button, bind, observe, gets, modify, ret.
  rewrite Hhigh. cbn [negb buttonPressed set_reads]. rewrite Hup. reflexivity.
Qed.

Lemma loop_rest_clock w :
  total (loop_debug ;; delay 100) w
    (fun _ w' =>
       now w' = now w + 100 /\ lastPhotoTime w' = lastPhotoTime w /\
       asleep w' = asleep w /\ buttonPressed w' = buttonPressed w).
Proof.
  unfold loop_debug. steps.
  destruct (_ >? 300000); steps; auto.
Qed.

(** A tick with the button left alone. *)
Lemma idle_tick w :
  button_high env (reads w) = true -> buttonPressed w = false ->
  since_last_photo w <= PHOTO_INTERVAL PHOTO_INTERVAL_HOURS + 100 ->
  total (loop PHOTO_INTERVAL_HOURS env) w
    (fun _ w' =>
       buttonPressed w' = false /\ asleep w' = asleep w /\
       since_last_photo w' <= PHOTO_INTERVAL PHOTO_INTERVAL_HOURS + 100 /\
       now w + 100 <= now w').
Proof.
  intros Hhigh Hup Hsince.
  pose proof (PHOTO_INTERVAL_ceiling PHOTO_INTERVAL_HOURS) as Hceil.
  pose proof (PHOTO_INTERVAL_range PHOTO_INTERVAL_HOURS) as [Hi0 _].
  unfold loop. apply total_bind.
  eexists true, _. split; [apply (loop_button_idle w Hhigh Hup) |].
  set (w1 := set_buttonPressed false _).
  assert (S1 : since_last_photo w1 = since_last_photo w) by reflexivity.
  assert (Hfinish : forall w2,
             buttonPressed w2 = false -> asleep w2 = asleep w -> now w <= now w2 ->
             0 <= since_last_photo w2 ->
             since_last_photo w2 <= PHOTO_INTERVAL PHOTO_INTERVAL_HOURS - 128
             \/ since_last_photo w2 = 0 ->
             total (loop_debug ;; delay 100) w2
               (fun _ w' =>
                  buttonPressed w' = false /\ asleep w' = asleep w /\
                  since_last_photo w' <= PHOTO_INTERVAL PHOTO_INTERVAL_HOURS + 100 /\
                  now w + 100 <= now w')).
  { intros w2 Hp Ha Hn Hs0 Hs.
    eapply total_weaken; [apply loop_rest_clock |].
    intros u w' (Hn' & Hl' & Ha' & Hp').
    split; [congruence |]. split; [congruence |]. split; [| lia].
    rewrite (since_later w2 w' 100 Hl' Hn').
    rewrite U32.wrap_small by (unfold U32.in_range; rewrite U32.modulus_eq; lia).
    lia. }
  destruct (Z_lt_le_dec (since_last_photo w1) (PHOTO_INTERVAL PHOTO_INTERVAL_HOURS))
    as [Hnot | Hdue].
  - destruct (Z_lt_le_dec 60000
                (U32.sub (PHOTO_INTERVAL PHOTO_INTERVAL_HOURS) (since_last_photo w1)))
      as [Hidle | Hsoon].
    + eapply total_seq; [apply (loop_timer_sleeps PHOTO_INTERVAL_HOURS env w1 Hnot Hidle) |].
      intros u w2 (A & _ & _ & Hn & Hs & Hd). cbv beta.
      pose proof (since_last_photo_range w1) as [Hr _].
      apply Hfinish.
      * rewrite (adv_buttonPressed _ _ _ A). reflexivity.
      * rewrite (adv_asleep _ _ _ A). reflexivity.
      * change (now w1) with (now w) in Hn. lia.
      * lia.
      * left. lia.
    + apply total_bind. eexists tt, w1.
      split; [apply (loop_timer_waits PHOTO_INTERVAL_HOURS env w1 Hnot Hsoon) |].
      pose proof (since_last_photo_range w1) as [Hr _].
      pose proof (PHOTO_INTERVAL_range PHOTO_INTERVAL_HOURS) as Hir.
      unfold U32.in_range in Hir. rewrite U32.modulus_eq in Hir.
      assert (Hmod : since_last_photo w1 <= PHOTO_INTERVAL PHOTO_INTERVAL_HOURS + 100)
        by lia.
      eapply total_weaken; [apply loop_rest_clock |].
      intros u w' (Hn' & Hl' & Ha' & Hp').
      split; [rewrite Hp'; reflexivity |]. split; [rewrite Ha'; reflexivity |].
      change (now w1) with (now w) in Hn'. split; [| lia].
      rewrite (since_later w1 w' 100 Hl' Hn').
      rewrite U32.wrap_small by (unfold U32.in_range; rewrite U32.modulus_eq; lia).
      lia.
  - eapply total_seq; [apply (loop_timer_captures PHOTO_INTERVAL_HOURS env w1 Hdue) |].
    intros u w2 (_ & K & Hl & _ & Ha & Hp & _). cbv beta.
    assert (Hzero : since_last_photo w2 = 0).
    { unfold since_last_photo. rewrite Hl. apply wrap_sub_self. }
    apply Hfinish.
    + rewrite Hp. reflexivity.
    + rewrite Ha. reflexivity.
    + apply (tk_now _ _ K).
    + lia.
    + right. exact Hzero.
Qed.

End IdleRuns.

(** X17. With the button left alone, a scheduled capture is never more
    than 100 ms late.  If at the start of a tick the time since the last
    photo is at most the interval plus 100 ms, then the same holds at the
    start of every later tick, the device stays awake, and every tick
    moves the clock on by at least 100 ms: light sleep never carries the
    loop past the time a capture falls due, and the tick that finds it
    due resets the timer. *)
Theorem scheduled_capture_is_punctual
        (hours : Z) (env : Env) (ticks : nat) (w : World) :
  (forall k, button_high env k = true) ->
  buttonPressed w = false -> asleep w = false ->
  since_last_photo w <= PHOTO_INTERVAL hours + 100 ->
  exists w',
    run_loop hours env ticks w = Some (tt, w') /\
    buttonPressed w' = false /\ asleep w' = false /\
    since_last_photo w' <= PHOTO_INTERVAL hours + 100 /\
    now w + 100 * Z.of_nat ticks <= now w'.
Proof.
  intros Hidle. revert w.
  induction ticks as [| n IH]; intros w Hp Ha Hs; cbn [run_loop].
  - exists w. repeat split; auto. lia.
  - unfold bind at 1. unfold gets. rewrite Ha.
    destruct (idle_tick hours env w (Hidle _) Hp Hs)
      as ([] & w1 & Hrun & Hp1 & Ha1 & Hs1 & Hn1).
    unfold bind. rewrite Hrun.
    destruct (IH w1 Hp1 ltac:(congruence) Hs1) as (w' & Hrun' & Hp' & Ha' & Hs' & Hn').
    exists w'. repeat split; auto. lia.
Qed.

(** X18. The entry checks of [uploadPhotoToSupabase].  It fails as not
    connected exactly when [WiFi.status()] says so on entry, and as
    invalid image exactly when WiFi is up and the buffer is null or the
    size is 0.  These two are the only exits on which it makes no socket
    call at all: past them its first action is a connection attempt. *)
Theorem upload_entry_checks (env : Env) (d N : Z) (f : string) (w : World) :
  U32.in_range N ->
  exists o w',
    uploadPhotoToSupabase env d N f w = Some (o, w') /\
    (o = WifiNotConnected <-> wifi_connected env (reads w) = false) /\
    (o = InvalidImage <->
     wifi_connected env (reads w) = true /\ (d = 0 \/ N = 0)) /\
    (emitted w w' = [] <-> o = WifiNotConnected \/ o = InvalidImage) /\
    (o <> WifiNotConnected -> o <> InvalidImage ->
     exists ok rest, emitted w w' = EvTlsConnect ok :: rest).
Proof.
  intros HN.
  destruct (upload_run_spec env d N f w HN) as (o & w' & Hrun & _ & Hshape).
  exists o, w'. split; [exact Hrun |].
  assert (Hne : forall k rest, (connected_after k ++ rest)%list <> []).
  { intros k rest. unfold connected_after. destruct k; discriminate. }
  assert (Hfirst : forall k rest,
             exists ok rest', (connected_after k ++ rest)%list = EvTlsConnect ok :: rest').
  { intros k rest. unfold connected_after. destruct k; simpl; eauto. }
  assert (Ho : forall rx, (if status_ok rx then Uploaded else Rejected) <> WifiNotConnected /\
                          (if status_ok rx then Uploaded else Rejected) <> InvalidImage)
    by (intros rx; destruct (status_ok rx); split; discriminate).
  destruct Hshape as [Hoff | Hup Hbad | Hs Hall | k ws Hs Hk Hok Hws _ _ | k Hs Hk Hok _ _
                      | k j rx Hs Hk Hok Hj Hrx _ _];
    try destruct Hs as (Hup & Hd & Hn);
    try destruct (Ho rx) as [Ho1 Ho2];
    (split; [split; intros; try discriminate; try congruence |]);
    (split; [split; [intros; try discriminate; try contradiction; auto
                    | intros [? ?]; try congruence; try tauto] |]);
    (split; [split; [intros He; try (destruct (Hne _ _ He)); try discriminate He; auto
                    | intros [? | ?]; try discriminate; try contradiction; auto] |]);
    intros; try contradiction; try apply Hfirst.
  unfold refused. eauto.
Qed.

Lemma delay_total_chunks d N i k : delay_total (chunks_from d N i k) = Z.of_nat k.
Proof.
  revert i. induction k as [| k IH]; intros i; [reflexivity |].
  rewrite chunks_from_S, delay_total_app, IH.
  change (delay_total (chunk_at d N i)) with 1. lia.
Qed.

Lemma chunk_count_max N : 0 <= N <= 500000 -> (chunk_count N <= 489)%nat.
Proof. intros HN. pose proof (chunk_count_spec N ltac:(lia)). lia. Qed.

Lemma upload_run_delay env d N f w o evs :
  0 <= N -> upload_run env d N f w o evs ->
  0 <= delay_total evs <= 4000 + Z.of_nat (chunk_count N) + 15010.
Proof.
  intros HN Hrun.
  destruct Hrun as [Hoff | Hup Hbad | Hs Hall | k ws Hs Hk Hok Hws _ _ | k Hs Hk Hok _ _
                    | k j rx Hs Hk Hok Hj Hrx _ _];
    try (change (delay_total []) with 0; lia);
    try (change (delay_total refused) with 4000; lia);
    destruct (connected_after_counts k) as (_ & _ & Hc);
    change (EvTlsPrint f N :: ?l) with ([EvTlsPrint f N] ++ l)%list.
  - destruct Hws as (j & r & Hj & _ & ->).
    rewrite !delay_total_app, Hc, delay_total_chunks.
    change (delay_total [EvTlsPrint f N]) with 0.
    change (delay_total [EvTlsWrite ?a ?b ?c; EvTlsStop]) with 0. lia.
  - rewrite !delay_total_app, Hc, delay_total_chunks, delay_total_repeat.
    change (delay_total [EvTlsPrint f N]) with 0.
    change (delay_total [EvTlsStop]) with 0. lia.
  - rewrite !delay_total_app, Hc, delay_total_chunks, delay_total_repeat.
    change (delay_total [EvTlsPrint f N]) with 0.
    change (delay_total [EvTlsRecv rx; EvTlsStop]) with 0. lia.
Qed.

(** X19. [takeAndUploadPhoto] cannot hold up the loop for ever: the
    delays it asks for add up to at most 75499 ms, the sum of the worst
    cases of its parts (55000 ms to get WiFi back, 4000 ms of connection
    retries, 1 ms after each of at most 489 chunks, 15010 ms of waiting
    for the response and 1000 ms of LED report).  Without a usable frame
    it asks for no delay at all. *)
Theorem capture_delay_bounded (env : Env) (w : World) :
  exists w',
    takeAndUploadPhoto env w = Some (tt, w') /\
    0 <= delay_total (emitted w w') <= 75499 /\
    (~ (20000 <= free_heap env (reads w) /\
        exists f, fb_get env (S (reads w)) = Some f /\ valid_frame f) ->
     delay_total (emitted w w') = 0).
Proof.
  destruct (takeAndUploadPhoto_run env w) as ([] & w' & Hrun & _ & Hshape & _).
  exists w'. split; [exact Hrun |].
  destruct Hshape as [Hheap | Hheap Hget | f Hheap Hget Hbad
                      | f tries Hheap Hget Hok Hdown Htries
                      | f reconnect stamp w1 o up Hheap Hget Hok Hclass Hnone Hdelay
                          Hsrc Hupload].
  - split; [simpl; lia | reflexivity].
  - split; [simpl; lia | reflexivity].
  - split; [simpl; lia | reflexivity].
  - destruct (wifi_tries_facts _ _ _ Htries) as (_ & _ & _ & _ & Hd & _).
    simpl in Hd.
    change (EvLed false :: ?l) with ([EvLed false] ++ l)%list.
    rewrite !delay_total_app.
    change (delay_total (blink_events 3 100 100)) with 600.
    change (delay_total [EvLed false]) with 0.
    change (delay_total [EvCamFree]) with 0.
    change (delay_total [EvTakeAndUpload; EvLed true; EvCamGet true;
                         EvWifiMode true; EvWifiSetSleep false]) with 0.
    split; [lia |]. intros Hnot. exfalso. apply Hnot. eauto.
  - assert (HN : 0 <= Z.of_N (len f) <= 500000) by (destruct Hok; lia).
    pose proof (upload_run_delay _ _ _ _ _ _ _ (proj1 HN) Hupload) as Hup.
    pose proof (chunk_count_max _ HN) as Hcc.
    assert (Hrep : 0 <= delay_total (upload_report o) <= 1000).
    { unfold upload_report. destruct (succeeded o); simpl; lia. }
    rewrite !delay_total_app.
    change (delay_total [EvTakeAndUpload; EvLed true; EvCamGet true]) with 0.
    change (delay_total [EvCamFree]) with 0.
    split; [lia |]. intros Hnot. exfalso. apply Hnot. eauto.
Qed.

(** *** Sample runs for the statements above *)

(** The server refuses every connection. *)
Definition unreachable_env : Env :=
  mkEnv (fun _ => true) (fun _ => true) (fun _ => 100000) (fun _ => true)
        (fun _ => Some (mk_fb 1000 2500)) (fun _ => None) (fun _ => false)
        (fun _ n => n) (fun _ => ok_reply) (fun _ => 30000).

(** The server accepts the data and never answers. *)
Definition silent_env : Env :=
  env_with 100000 (Some (mk_fb 1000 2500)) EmptyString.

(** The counter of [millis()] has wrapped: [lastPhotoTime] was taken
    3000000 ms before the wrap and it is now 700000 ms after it. *)
Definition after_rollover : World :=
  set_lastPhotoTime 4291967296 (set_now 4295667296 boot).

Lemma takePhoto_validates_witness :
  exists w',
    takePhoto nominal_env boot = Some (true, w') /\
    fb w' = Some (mk_fb 1000 2500) /\ emitted boot w' = [EvCamGet true].
Proof.
  destruct (takePhoto_validates nominal_env boot) as (ok & w' & Hrun & Hiff & Hyes & _).
  assert (Hok : ok = true).
  { apply Hiff. split; [vm_compute; discriminate |].
    exists (mk_fb 1000 2500). split; [reflexivity |].
    unfold valid_frame. simpl. lia. }
  subst ok. exists w'. split; [exact Hrun |]. apply Hyes. reflexivity.
Defined.

Lemma wifi_connect_bounded_witness :
  exists w',
    connectToWiFi offline_env boot = Some (false, w') /\
    count is_wifi_begin (emitted boot w') = 3%nat /\
    now w' = 55000 /\ reads w' = 99%nat.
Proof.
  destruct (wifi_connect_bounded offline_env boot)
    as (ok & w' & Hrun & _ & Hnow & _ & _ & Hfail & _).
  pose proof Hrun as Hc. vm_compute in Hc. injection Hc as <- <-.
  eexists. split; [exact Hrun |].
  split; [apply (Hfail eq_refl) |].
  split; vm_compute; reflexivity.
Defined.

Lemma light_sleep_keeps_deadline_witness :
  exists w2,
    loop_timer 1 nominal_env boot = Some (tt, w2) /\
    now w2 = 30000 /\ since_last_photo w2 = 30000 /\
    since_last_photo w2 + 30000 < PHOTO_INTERVAL 1.
Proof.
  destruct (light_sleep_keeps_deadline 1 nominal_env boot) as (w2 & Hrun & Hsleep).
  destruct Hsleep as (_ & _ & _ & _ & Hd).
  { pose proof Hrun as Hc. vm_compute in Hc. injection Hc as <-.
    vm_compute. tauto. }
  exists w2. split; [exact Hrun |].
  pose proof Hrun as Hc. vm_compute in Hc. injection Hc as <-.
  split; [reflexivity |]. split; [reflexivity | exact Hd].
Defined.

Lemma timer_survives_rollover_witness :
  U32.wrap (now after_rollover) = 700000 /\
  lastPhotoTime after_rollover = 4291967296 /\
  since_last_photo after_rollover = 3700000 /\
  exists w2,
    loop_timer 1 nominal_env after_rollover = Some (tt, w2) /\
    count is_capture (emitted after_rollover w2) = 1%nat.
Proof.
  destruct (timer_survives_rollover 1 nominal_env after_rollover 4291967296)
    as (Hsince & w2 & Hrun & Hdue & _);
    [reflexivity | vm_compute; discriminate | vm_compute; reflexivity |].
  split; [reflexivity |]. split; [reflexivity |]. split; [exact Hsince |].
  exists w2. split; [exact Hrun |]. apply Hdue. vm_compute. discriminate.
Defined.

Lemma setup_completes_witness :
  exists w',
    setup offline_env boot = Some (tt, w') /\
    led w' = false /\ lastPhotoTime w' = U32.wrap (now w') /\
    now w' = 56800 /\ count is_wifi_begin (emitted boot w') = 3%nat.
Proof.
  destruct (setup_completes offline_env boot eq_refl)
    as (w' & Hrun & _ & Hled & Hlast & _).
  exists w'. split; [exact Hrun |]. split; [exact Hled |]. split; [exact Hlast |].
  pose proof Hrun as Hc. vm_compute in Hc. injection Hc as <-.
  split; vm_compute; reflexivity.
Defined.

Lemma time_sync_bounded_witness :
  exists w',
    time_sync nominal_env 10 0 boot = Some (10, w') /\
    delay_total (emitted boot w') = 10000 /\ reads w' = 11%nat.
Proof.
  destruct (time_sync_bounded nominal_env boot)
    as (c & w' & Hrun & _ & _ & Hd & Hr & _).
  assert (Hc : c = 10).
  { pose proof Hrun as Hc. vm_compute in Hc. injection Hc as <- _. reflexivity. }
  subst c. exists w'. split; [exact Hrun |]. split; [exact Hd | exact Hr].
Defined.

Lemma connection_retries_witness :
  exists w',
    uploadPhotoToSupabase unreachable_env 1000 2500 "photo_0.jpg" boot
      = Some (ConnectFailed, w') /\
    emitted boot w' = refused /\ delay_total (emitted boot w') = 4000.
Proof.
  destruct (connection_retries unreachable_env 1000 2500 "photo_0.jpg"%string boot)
    as (o & w' & Hrun & _ & _ & Hiff & Hfail & _).
  { unfold U32.in_range. rewrite U32.modulus_eq. lia. }
  assert (Ho : o = ConnectFailed).
  { apply Hiff. split; [| intros i Hi; reflexivity].
    unfold upload_starts. split; [reflexivity |]. split; discriminate. }
  subst o. exists w'. split; [exact Hrun |]. apply Hfail. reflexivity.
Defined.

Lemma socket_closed_once_witness :
  exists o w',
    uploadPhotoToSupabase short_write_env 1000 2500 "photo_0.jpg" boot = Some (o, w') /\
    count is_tls_stop (emitted boot w') = 1%nat /\
    exists pre, emitted boot w' = (pre ++ [EvTlsStop])%list.
Proof.
  destruct (socket_closed_once short_write_env 1000 2500 "photo_0.jpg"%string boot)
    as (o & w' & Hrun & Hiff & Hyes & _).
  { unfold U32.in_range. rewrite U32.modulus_eq. lia. }
  exists o, w'. split; [exact Hrun |]. apply Hyes, Hiff.
  pose proof Hrun as Hc. vm_compute in Hc. injection Hc as <- _. reflexivity.
Defined.

Lemma response_wait_bounded_witness :
  exists w',
    uploadPhotoToSupabase silent_env 1000 2500 "photo_0.jpg" boot
      = Some (ResponseTimeout, w') /\
    count is_poll (emitted boot w') = 1501%nat.
Proof.
  destruct (response_wait_bounded silent_env 1000 2500 "photo_0.jpg"%string boot)
    as (o & w' & Hrun & _ & Htimeout).
  { unfold U32.in_range. rewrite U32.modulus_eq. lia. }
  assert (Ho : o = ResponseTimeout).
  { pose proof Hrun as Hc. vm_compute in Hc. injection Hc as <- _. reflexivity. }
  subst o. exists w'. split; [exact Hrun |]. apply Htimeout. reflexivity.
Defined.

Lemma writes_stay_in_buffer_witness :
  exists o w',
    uploadPhotoToSupabase nominal_env 1000 2500 "photo_0.jpg" boot = Some (o, w') /\
    In (EvTlsWrite 3048 452 452) (emitted boot w') /\
    1000 <= 3048 /\ (3048 - 1000) mod 1024 = 0 /\ 0 < 452 <= 1024 /\
    3048 + 452 <= 1000 + 2500.
Proof.
  destruct (writes_stay_in_buffer nominal_env 1000 2500 "photo_0.jpg"%string boot)
    as (o & w' & Hrun & Hall).
  { unfold U32.in_range. rewrite U32.modulus_eq. lia. }
  assert (Hin : In (EvTlsWrite 3048 452 452) (emitted boot w')).
  { pose proof Hrun as Hc. vm_compute in Hc. injection Hc as _ <-.
    vm_compute. tauto. }
  exists o, w'. split; [exact Hrun |]. split; [exact Hin |].
  apply (Hall 3048 452 452 Hin).
Defined.

Lemma payload_sent_in_order_witness :
  exists w',
    uploadPhotoToSupabase nominal_env 1000 2500 "photo_0.jpg" boot = Some (Uploaded, w') /\
    bytes_sent (emitted boot w') = addresses 1000 2500.
Proof.
  destruct (payload_sent_in_order nominal_env 1000 2500 "photo_0.jpg"%string boot)
    as (o & w' & Hrun & Hall).
  { unfold U32.in_range. rewrite U32.modulus_eq. lia. }
  assert (Ho : o = Uploaded).
  { pose proof Hrun as Hc. vm_compute in Hc. injection Hc as <- _. reflexivity. }
  subst o. exists w'. split; [exact Hrun |]. apply Hall. auto.
Defined.

Lemma led_reports_outcome_witness :
  exists w',
    takeAndUploadPhoto nominal_env boot = Some (tt, w') /\
    led w' = false /\ count is_led_on (emitted boot w') = 3%nat.
Proof.
  destruct (led_reports_outcome nominal_env boot)
    as (w' & Hrun & Hled & _ & _ & Hiff).
  exists w'. split; [exact Hrun |]. split; [exact Hled |].
  apply Hiff. exists ok_reply.
  split; [| vm_compute; reflexivity].
  pose proof Hrun as Hc. vm_compute in Hc. injection Hc as <-.
  vm_compute. tauto.
Defined.

(** Light sleeps of 300 ms, WiFi up and a clock never set: a capture
    that starts 4295667296 ms after boot, when [millis()] has rolled
    over to 700000. *)
Lemma upload_sends_captured_frame_witness :
  exists w',
    takeAndUploadPhoto nominal_env (set_now 4295667296 boot) = Some (tt, w') /\
    In (EvTlsPrint "photo_700000.jpg" 2500) (emitted (set_now 4295667296 boot) w') /\
    photo_name (stamp_at nominal_env 3 4295667296) = "photo_700000.jpg"%string.
Proof.
  destruct (upload_sends_captured_frame nominal_env (set_now 4295667296 boot))
    as (w' & Hrun & Hprint & _).
  assert (Hin : In (EvTlsPrint "photo_700000.jpg" 2500)
                   (emitted (set_now 4295667296 boot) w')).
  { pose proof Hrun as Hc. vm_compute in Hc. injection Hc as <-.
    vm_compute. tauto. }
  destruct (Hprint _ _ Hin)
    as (frame & reconnect & ok & rest & _ & _ & _ & _ & _ & Hnone & Hname).
  rewrite (Hnone eq_refl) in Hname.
  exists w'. split; [exact Hrun |]. split; [exact Hin |].
  symmetry. exact Hname.
Defined.

Lemma deep_sleep_only_by_long_press_witness :
  exists w',
    run_loop 1 hold_env 3 pressed_3001_ago = Some (tt, w') /\
    asleep w' = true /\
    exists pre, emitted pressed_3001_ago w' = (pre ++ shutdown_events)%list /\
                count is_deep_sleep pre = 0%nat.
Proof.
  destruct (deep_sleep_only_by_long_press 1 hold_env 3 pressed_3001_ago eq_refl)
    as (_ & w' & Hrun & _ & Hsleep).
  assert (Ha : asleep w' = true).
  { pose proof Hrun as Hc. vm_compute in Hc. injection Hc as <-. reflexivity. }
  exists w'. split; [exact Hrun |]. split; [exact Ha | apply Hsleep, Ha].
Defined.

Lemma no_frame_held_between_ticks_witness :
  exists w',
    power_on 1 (synced_env tap 300) 2 = Some (tt, w') /\
    fb w' = None /\
    count is_cam_get_ok (trace w') = 1%nat /\ count is_cam_free (trace w') = 1%nat.
Proof.
  destruct (no_frame_held_between_ticks 1 (synced_env tap 300) 2)
    as (w' & Hrun & Hfb & Hbal).
  exists w'. split; [exact Hrun |]. split; [exact Hfb |].
  rewrite <- Hbal.
  pose proof Hrun as Hc. vm_compute in Hc. injection Hc as <-.
  split; vm_compute; reflexivity.
Defined.

Lemma scheduled_capture_is_punctual_witness :
  exists w',
    run_loop 1 nominal_env 3 boot = Some (tt, w') /\
    buttonPressed w' = false /\ asleep w' = false /\
    since_last_photo w' <= PHOTO_INTERVAL 1 + 100 /\
    now boot + 100 * Z.of_nat 3 <= now w'.
Proof.
  apply (scheduled_capture_is_punctual 1 nominal_env 3 boot);
    [intros k; reflexivity | reflexivity | reflexivity | vm_compute; discriminate].
Defined.

Lemma upload_entry_checks_witness :
  exists w',
    uploadPhotoToSupabase offline_env 1000 2500 "photo_0.jpg" boot
      = Some (WifiNotConnected, w') /\
    emitted boot w' = [].
Proof.
  destruct (upload_entry_checks offline_env 1000 2500 "photo_0.jpg"%string boot)
    as (o & w' & Hrun & Hoff & _ & Hnone & _).
  { unfold U32.in_range. rewrite U32.modulus_eq. lia. }
  assert (Ho : o = WifiNotConnected) by (apply Hoff; reflexivity).
  subst o. exists w'. split; [exact Hrun |]. apply Hnone. auto.
Defined.

Lemma capture_delay_bounded_witness :
  exists w',
    takeAndUploadPhoto low_heap_env boot = Some (tt, w') /\
    delay_total (emitted boot w') = 0.
Proof.
  destruct (capture_delay_bounded low_heap_env boot) as (w' & Hrun & _ & Hnone).
  exists w'. split; [exact Hrun |]. apply Hnone.
  intros [Hheap _]. vm_compute in Hheap. apply Hheap. reflexivity.
Defined.
